(** * pg-routing: the multi-leg route search endpoint

    A shallow embedding of [src/routes/api/routing/search/+server.ts]
    (the [POST] handler) and the properties of its route stitcher,
    constraint compiler and composer; of the single-leg handler kept in
    the same file (module [Legacy]); and of the script of
    [src/routes/+page.svelte] that calls the handler (module [Page]).

    Conventions of the embedding.
    - A JavaScript [number] is an element of a type [num] carrying the
      operations the handler uses (class [JsNumber]); the instance
      [float_JsNumber] is the language's own binary64 arithmetic.
    - A value that may be [null] or [undefined] is an [option].
    - Integers that only count or index (row [seq], array lengths) are
      [Z] or [nat].
    - The where clause is kept as the list of conditions the handler
      pushes; [render_where] gives the SQL text and [admits] its meaning on
      a row of [ways], with the spatial test left to the store.
    - A database call is a [Query] answered by an oracle [Db]; the handler
      runs in a monad that logs every query issued and may throw.  Promises
      that run concurrently are logged one after the other. *)

From Stdlib Require Import ZArith QArith List String Bool Lia PrimFloat.
From Stdlib Require Import DecimalString Lqa Permutation Floats Qround.
Import ListNotations.

Set Implicit Arguments.
Set Default Goal Selector "!".

Local Open Scope Z_scope.
Local Open Scope string_scope.
Local Open Scope list_scope.

(** ** JavaScript numbers *)

Class JsNumber (num : Type) : Type := {
  (** the value of a decimal literal of the source text *)
  nlit : Q -> num;
  nadd : num -> num -> num;
  nsub : num -> num -> num;
  nmul : num -> num -> num;
  (** [a > b] *)
  ngt : num -> num -> bool;
  (** ToBoolean: [false] on [0], [-0] and [NaN] only *)
  ntruthy : num -> bool
}.

(** Binary64, as the runtime computes. *)
Fixpoint float_of_pos (p : positive) : float :=
  match p with
  | xH => PrimFloat.one
  | xO p' => PrimFloat.mul PrimFloat.two (float_of_pos p')
  | xI p' => PrimFloat.add (PrimFloat.mul PrimFloat.two (float_of_pos p')) PrimFloat.one
  end.

Definition float_of_Z (z : Z) : float :=
  match z with
  | Z0 => PrimFloat.zero
  | Zpos p => float_of_pos p
  | Zneg p => PrimFloat.opp (float_of_pos p)
  end.

Definition float_lit (q : Q) : float :=
  PrimFloat.div (float_of_Z (Qnum q)) (float_of_Z (Zpos (Qden q))).

Definition float_truthy (x : float) : bool :=
  negb (PrimFloat.is_zero x || PrimFloat.is_nan x).

#[export] Instance float_JsNumber : JsNumber float := {
  nlit := float_lit;
  nadd := PrimFloat.add;
  nsub := PrimFloat.sub;
  nmul := PrimFloat.mul;
  ngt := fun a b => PrimFloat.ltb b a;
  ntruthy := float_truthy
}.

(** ** Results of code that may throw *)

Inductive result (A : Type) : Type :=
| Ok (a : A)
| Throw.
Arguments Throw {A}.

Definition rbind {A B} (r : result A) (k : A -> result B) : result B :=
  match r with
  | Ok a => k a
  | Throw => Throw
  end.

Inductive RouteType : Type := shortest | fastest.

Section Server.

Context {num : Type} {JN : JsNumber num}.

(** [JSON.parse]: [None] stands for a thrown [SyntaxError]. *)
Variable Json : Type.
Variable JSON_parse : string -> option Json.

(** [x || 0] and [x || d] on a number that may be null. *)
Definition num_or (x : option num) (d : num) : num :=
  match x with
  | Some v => if ntruthy v then v else d
  | None => d
  end.

Definition zero : num := nlit 0.

(** ** Data *)

(** One input point of [allPoints]. *)
Record Point : Type := {
  lat : option num;
  lon : option num;
  type : string
}.

(** An element of the request's [waypoints]. *)
Record Waypoint : Type := {
  wp_lat : option num;
  wp_lon : option num
}.

(** An element of the request's [avoidAreas]. *)
Record AvoidArea : Type := {
  area_lat : num;
  area_lon : num;
  radius : option num
}.

(** The destructured request body, defaults applied
    ([waypoints = []], [avoidMotorways = false], [vehicleWidth = null],
    [vehicleHeight = null], [avoidAreas = []]). *)
Record Request : Type := {
  startLat : option num;
  startLon : option num;
  endLat : option num;
  endLon : option num;
  waypoints : list Waypoint;
  avoidMotorways : bool;
  vehicleWidth : option num;
  vehicleHeight : option num;
  avoidAreas : list AvoidArea
}.

(** One row of [shortestRouteQuery] / [fastestRouteQuery].  The columns of
    [pgr_dijkstra] are never null; those of the two LEFT JOINs may be. *)
Record Row : Type := {
  seq : Z;
  path_seq : Z;
  node : Z;
  edge : Z;
  cost : num;
  agg_cost : num;
  geom : option string;
  name : option string;
  length_m : option num;
  cost_minutes : option num;
  road_type : option string
}.

(** An element of [allLegs]. *)
Record Leg : Type := {
  fromIndex : nat;
  toIndex : nat;
  fromPoint : option Point;
  toPoint : option Point;
  rows : list Row
}.

(** An element of [allSegments]. *)
Record Segment : Type := {
  sequence : Z;
  seg_node : Z;
  seg_edge : Z;
  seg_cost : num;
  costMinutes : option num;
  accumulatedCost : num;
  geometry : option Json;
  seg_name : option string;
  seg_length : option num;
  roadType : option string;
  legIndex : nat
}.

(** ** The route stitcher, [formatMultiLegRoute] *)

(** [row.geom ? JSON.parse(row.geom) : null]; the empty string is falsy. *)
Definition parse_geom (g : option string) : result (option Json) :=
  match g with
  | None => Ok None
  | Some s =>
      if String.eqb s EmptyString then Ok None
      else match JSON_parse s with
           | Some j => Ok (Some j)
           | None => Throw
           end
  end.

(** The object pushed for one row. *)
Definition mkSegment (sequenceOffset : Z) (totalCost legCost : num)
    (fromIdx : nat) (row : Row) : result Segment :=
  rbind (parse_geom (geom row)) (fun g =>
  Ok {| sequence := sequenceOffset + seq row;
        seg_node := node row;
        seg_edge := edge row;
        seg_cost := cost row;
        costMinutes := cost_minutes row;
        accumulatedCost := nadd (nsub totalCost legCost) (agg_cost row);
        geometry := g;
        seg_name := name row;
        seg_length := length_m row;
        roadType := road_type row;
        legIndex := fromIdx |}).

(** [leg.rows.forEach(row => allSegments.push(...))] *)
Fixpoint push_rows (sequenceOffset : Z) (totalCost legCost : num)
    (fromIdx : nat) (rs : list Row) (allSegments : list Segment)
  : result (list Segment) :=
  match rs with
  | [] => Ok allSegments
  | row :: rest =>
      rbind (mkSegment sequenceOffset totalCost legCost fromIdx row) (fun s =>
      push_rows sequenceOffset totalCost legCost fromIdx rest (allSegments ++ [s]))
  end.

(** [rows.reduce((sum, row) => sum + (row.f || 0), 0)] *)
Definition sum_or_zero (f : Row -> option num) (rs : list Row) : num :=
  fold_left (fun sum row => nadd sum (num_or (f row) zero)) rs zero.

(** [leg.rows[leg.rows.length - 1]?.agg_cost || 0] *)
Definition leg_cost (rs : list Row) : num :=
  match nth_error rs (List.length rs - 1)%nat with
  | Some row => num_or (Some (agg_cost row)) zero
  | None => zero
  end.

(** The variables the loop over [legs] updates. *)
Record Stitch : Type := {
  allSegments : list Segment;
  totalDistance : num;
  totalMinutes : num;
  totalCost : num;
  sequenceOffset : Z
}.

Definition stitch_init : Stitch :=
  {| allSegments := []; totalDistance := zero; totalMinutes := zero;
     totalCost := zero; sequenceOffset := 0 |}.

(** One iteration of [for (const leg of legs)]. *)
Definition stitch_leg (st : Stitch) (leg : Leg) : result Stitch :=
  let legDistance := sum_or_zero length_m (rows leg) in
  let legMinutes := sum_or_zero cost_minutes (rows leg) in
  let legCost := leg_cost (rows leg) in
  let totalDistance' := nadd (totalDistance st) legDistance in
  let totalMinutes' := nadd (totalMinutes st) legMinutes in
  let totalCost' := nadd (totalCost st) legCost in
  rbind (push_rows (sequenceOffset st) totalCost' legCost (fromIndex leg)
           (rows leg) (allSegments st)) (fun segs =>
  Ok {| allSegments := segs;
        totalDistance := totalDistance';
        totalMinutes := totalMinutes';
        totalCost := totalCost';
        sequenceOffset := sequenceOffset st + Z.of_nat (List.length (rows leg)) |}).

Fixpoint stitch_legs (legs : list Leg) (st : Stitch) : result Stitch :=
  match legs with
  | [] => Ok st
  | leg :: rest => rbind (stitch_leg st leg) (stitch_legs rest)
  end.

(** [xs.map((x, idx) => f x idx)] *)
Fixpoint mapi_from {A B} (f : A -> nat -> B) (idx : nat) (xs : list A) : list B :=
  match xs with
  | [] => []
  | x :: rest => f x idx :: mapi_from f (S idx) rest
  end.

Definition mapi {A B} (f : A -> nat -> B) (xs : list A) : list B :=
  mapi_from f 0%nat xs.

(** [{...wp, nodeId: nodeIds[idx + 1]}] *)
Record RouteWaypoint : Type := {
  rw_waypoint : Waypoint;
  rw_nodeId : option Z
}.

(** An element of the returned [legs]. *)
Record LegSummary : Type := {
  from : option Point;
  to : option Point;
  distance : num;
  minutes : num
}.

(** The object [formatMultiLegRoute] returns. *)
Record RouteVariant : Type := {
  routeType : RouteType;
  label : string;
  startNode : option Z;
  endNode : option Z;
  rv_waypoints : list RouteWaypoint;
  rv_totalCost : num;
  rv_totalDistance : num;
  rv_totalMinutes : num;
  estimatedDuration : num;
  segments : list Segment;
  legs : list LegSummary
}.

(** [nodeIds[i]]; out of range reads [undefined]. *)
Definition node_at (nodeIds : list (option Z)) (i : nat) : option Z :=
  match nth_error nodeIds i with
  | Some n => n
  | None => None
  end.

Definition formatMultiLegRoute (nodeIds : list (option Z))
    (waypoints : list Waypoint) (legs0 : option (list Leg)) (rt : RouteType)
  : result (option RouteVariant) :=
  match legs0 with
  | None => Ok None
  | Some [] => Ok None
  | Some ls =>
      rbind (stitch_legs ls stitch_init) (fun st =>
      Ok (Some
        {| routeType := rt;
           label := match rt with
                    | shortest => "最短経路"
                    | fastest => "最速経路"
                    end;
           startNode := node_at nodeIds 0;
           endNode := node_at nodeIds (List.length nodeIds - 1);
           rv_waypoints :=
             mapi (fun wp idx =>
                     {| rw_waypoint := wp;
                        rw_nodeId := node_at nodeIds (idx + 1) |}) waypoints;
           rv_totalCost := totalCost st;
           rv_totalDistance := totalDistance st;
           rv_totalMinutes := totalMinutes st;
           estimatedDuration := nmul (totalMinutes st) (nlit 60);
           segments := allSegments st;
           legs :=
             map (fun leg =>
                    {| from := fromPoint leg;
                       to := toPoint leg;
                       distance := sum_or_zero length_m (rows leg);
                       minutes := sum_or_zero cost_minutes (rows leg) |}) ls |}))
  end.

(** ** The constraint compiler, [buildWhereClause] *)

(** One geography buffer of an avoid condition:
    [ST_Buffer(ST_SetSRID(ST_MakePoint(lon, lat), 4326)::geography, radiusMeters)]. *)
Record Buffer : Type := {
  buf_lon : num;
  buf_lat : num;
  buf_radiusMeters : num
}.

(** The entries pushed on [conditions].
    - [CostSIsNotNull]: the text [cost_s IS NOT NULL];
    - [TagValueNotIn vs]: [NOT EXISTS (SELECT 1 FROM configuration c
      WHERE c.tag_id = ways.tag_id AND c.tag_value IN (vs))];
    - [AvoidConditions bs]: for each buffer [b] of [bs] the text
      [NOT ST_Intersects(ways.the_geom, b::geometry)], joined by [AND]. *)
Inductive Condition : Type :=
| CostSIsNotNull
| TagValueNotIn (vs : list string)
| AvoidConditions (bs : list Buffer).

(** The argument [baseWhere]: the empty string or [cost_s IS NOT NULL]. *)
Inductive BaseWhere : Type :=
| NoBaseWhere
| BaseCostSIsNotNull.

(** [x && x > c] on a number that may be null. *)
Definition given_and_gt (x : option num) (c : num) : bool :=
  match x with
  | Some v => ntruthy v && ngt v c
  | None => false
  end.

(** [area.radius || 500].  The source also computes
    [radiusDegrees = radiusMeters / 111000] and never uses it: the buffer
    is taken on the geography type with [radiusMeters] itself. *)
Definition radiusMeters (area : AvoidArea) : num :=
  num_or (radius area) (nlit 500).

Definition avoid_buffer (area : AvoidArea) : Buffer :=
  {| buf_lon := area_lon area;
     buf_lat := area_lat area;
     buf_radiusMeters := radiusMeters area |}.

(** The list [conditions] at the end of [buildWhereClause]; the returned
    text is these joined by [AND] after [WHERE], or empty when there is
    none (see [render_where]). *)
Definition buildWhereClause (req : Request) (baseWhere : BaseWhere)
  : list Condition :=
  (match baseWhere with
   | BaseCostSIsNotNull => [CostSIsNotNull]
   | NoBaseWhere => []
   end)
  ++ (if avoidMotorways req
      then [TagValueNotIn ["motorway"; "motorway_link"]] else [])
  ++ (if given_and_gt (vehicleWidth req) (nlit (5 # 2))
      then [TagValueNotIn ["service"; "residential"; "living_street"; "track"]]
      else [])
  ++ (if given_and_gt (vehicleHeight req) (nlit (7 # 2))
      then [TagValueNotIn ["tunnel"]] else [])
  ++ (if (0 <? List.length (avoidAreas req))%nat
      then [AvoidConditions (map avoid_buffer (avoidAreas req))] else []).

Definition whereClause (req : Request) : list Condition :=
  buildWhereClause req NoBaseWhere.

Definition whereClauseWithCostMinutes (req : Request) : list Condition :=
  buildWhereClause req BaseCostSIsNotNull.

(** *** The text returned *)

Section Render.

(** Template interpolation of a number. *)
Variable String_of_num : num -> string.

Fixpoint join (sep : string) (xs : list string) : string :=
  match xs with
  | [] => EmptyString
  | [x] => x
  | x :: rest => x ++ sep ++ join sep rest
  end.

(** The where clause sits inside a quoted SQL text, so the quotes of the
    tag values are doubled. *)
Definition render_tag (v : string) : string := "''" ++ v ++ "''".

Definition render_buffer (b : Buffer) : string :=
  "NOT ST_Intersects(ways.the_geom, ST_Buffer(ST_SetSRID(ST_MakePoint("
  ++ String_of_num (buf_lon b) ++ ", " ++ String_of_num (buf_lat b)
  ++ "), 4326)::geography, " ++ String_of_num (buf_radiusMeters b)
  ++ ")::geometry)".

Definition render_condition (c : Condition) : string :=
  match c with
  | CostSIsNotNull => "cost_s IS NOT NULL"
  | TagValueNotIn vs =>
      "NOT EXISTS (SELECT 1 FROM configuration c WHERE c.tag_id = ways.tag_id AND c.tag_value IN ("
      ++ join ", " (map render_tag vs) ++ "))"
  | AvoidConditions bs => join " AND " (map render_buffer bs)
  end.

(** [conditions.length > 0 ? 'WHERE ' + conditions.join(' AND ') : ''],
    up to the white space of the templates. *)
Definition render_where (conditions : list Condition) : string :=
  if (0 <? List.length conditions)%nat
  then "WHERE " ++ join " AND " (map render_condition conditions)
  else EmptyString.

End Render.

(** *** The meaning of the where clause on the network store *)

Section Predicate.

(** A row of [configuration]. *)
Record ConfigurationRow : Type := {
  c_tag_id : Z;
  c_tag_value : string
}.

Variable Geometry : Type.

(** A row of [ways], as far as the where clause reads it. *)
Record Way : Type := {
  gid : Z;
  tag_id : option Z;
  cost_s : option num;
  the_geom : Geometry
}.

Variable configuration : list ConfigurationRow.

(** [ST_Intersects(g, ST_Buffer(point(lon, lat)::geography, r)::geometry)]:
    the buffer is taken on the geography type, so [r] is in metres. *)
Variable ST_Intersects_Buffer : Geometry -> Buffer -> bool.

(** [EXISTS (SELECT 1 FROM configuration c WHERE c.tag_id = ways.tag_id
    AND c.tag_value IN (vs))]; a null [tag_id] joins nothing. *)
Definition tag_value_in (w : Way) (vs : list string) : bool :=
  existsb (fun c =>
             match tag_id w with
             | Some t => Z.eqb (c_tag_id c) t
             | None => false
             end && existsb (String.eqb (c_tag_value c)) vs)
          configuration.

(** The edge [w] is tagged [v]. *)
Definition tagged (w : Way) (v : string) : bool := tag_value_in w [v].

Definition holds (w : Way) (c : Condition) : bool :=
  match c with
  | CostSIsNotNull => match cost_s w with Some _ => true | None => false end
  | TagValueNotIn vs => negb (tag_value_in w vs)
  | AvoidConditions bs =>
      forallb (fun b => negb (ST_Intersects_Buffer (the_geom w) b)) bs
  end.

(** The rows of [ways] the inner query of [pgr_dijkstra] selects. *)
Definition admits (conditions : list Condition) (w : Way) : bool :=
  forallb (holds w) conditions.

End Predicate.

(** ** The composer, [POST] *)

(** A row of [nearestNodeQuery]. *)
Record VertexRow : Type := {
  vertex_id : Z;
  vertex_distance : num
}.

(** The calls of [pool.query]: the query text and its parameters. *)
Inductive Query : Type :=
| nearestNodeQuery (point_lon point_lat : option num)
| shortestRouteQuery (conditions : list Condition) (fromNodeId toNodeId : option Z)
| fastestRouteQuery (conditions : list Condition) (fromNodeId toNodeId : option Z).

(** The network store and graph engine: what each query answers
    ([result.rows]), or a rejected promise. *)
Record Db : Type := {
  nearest_rows : option num -> option num -> result (list VertexRow);
  route_rows : RouteType -> list Condition -> option Z -> option Z ->
               result (list Row)
}.

(** The handler's computations: they read the log of the queries issued so
    far, extend it, and return or throw. *)
Definition M (A : Type) : Type := list Query -> result A * list Query.

Definition ret {A} (a : A) : M A := fun log => (Ok a, log).

Definition bind {A B} (m : M A) (k : A -> M B) : M B :=
  fun log =>
    match m log with
    | (Ok a, log') => k a log'
    | (Throw, log') => (Throw, log')
    end.

Definition lift {A} (r : result A) : M A := fun log => (r, log).

(** [Promise.all]: every promise is started and issues its queries; the whole
    rejects when one of them does. *)
Fixpoint promise_all {A} (promises : list (M A)) : M (list A) :=
  fun log =>
    match promises with
    | [] => (Ok [], log)
    | t :: rest =>
        let (r, log1) := t log in
        let (rs, log2) := promise_all rest log1 in
        (rbind r (fun a => rbind rs (fun l => Ok (a :: l))), log2)
    end.

Definition promise_both {A B} (ta : M A) (tb : M B) : M (A * B) :=
  fun log =>
    let (ra, log1) := ta log in
    let (rb, log2) := tb log1 in
    (rbind ra (fun a => rbind rb (fun b => Ok (a, b))), log2).

(** An element of [nodeResults]. *)
Record NodeResult : Type := {
  nr_point : Point;
  nodeId : option Z;
  found : bool
}.

(** The constraints echoed in the response. *)
Record Constraints : Type := {
  c_avoidMotorways : bool;
  c_vehicleWidth : option num;
  c_vehicleHeight : option num;
  c_avoidAreas : nat
}.

(** The object [routes]. *)
Record Routes : Type := {
  r_shortest : option RouteVariant;
  r_fastest : option RouteVariant;
  r_routes : list RouteVariant;
  r_waypoints : list Waypoint;
  r_avoidAreas : list AvoidArea;
  r_constraints : Constraints
}.

Inductive Body : Type :=
| ErrorBody (error : string) (missingPoints : option (list string))
| RoutesBody (routes : Routes).

(** [json(body, { status })]; the status is 200 when not given. *)
Record Response : Type := {
  status : nat;
  body : Body
}.

Section Handler.

Variable db : Db.
Variable req : Request.

(** [!x] on a number that may be missing. *)
Definition falsy (x : option num) : bool :=
  match x with
  | Some v => negb (ntruthy v)
  | None => true
  end.

Definition string_of_nat (n : nat) : string :=
  NilZero.string_of_uint (Nat.to_uint n).

Definition allPoints : list Point :=
  [{| lat := startLat req; lon := startLon req; type := "start" |}]
  ++ mapi (fun wp idx =>
             {| lat := wp_lat wp; lon := wp_lon wp;
                type := "waypoint-" ++ string_of_nat idx |}) (waypoints req)
  ++ [{| lat := endLat req; lon := endLon req; type := "end" |}].

(** [pool.query(nearestNodeQuery, [point.lon, point.lat]).then(...)] *)
Definition resolve_point (point : Point) : M NodeResult :=
  fun log =>
    (rbind (nearest_rows db (lon point) (lat point)) (fun rws =>
       Ok {| nr_point := point;
             nodeId := option_map vertex_id (nth_error rws 0);
             found := (0 <? List.length rws)%nat |}),
     log ++ [nearestNodeQuery (lon point) (lat point)]).

Section Legs.

Variable nodeIds : list (option Z).

Definition calculateLegRoute (fromNodeId toNodeId : option Z) (rt : RouteType)
  : M (list Row) :=
  fun log =>
    match rt with
    | shortest =>
        (route_rows db shortest (whereClause req) fromNodeId toNodeId,
         log ++ [shortestRouteQuery (whereClause req) fromNodeId toNodeId])
    | fastest =>
        (route_rows db fastest (whereClauseWithCostMinutes req) fromNodeId toNodeId,
         log ++ [fastestRouteQuery (whereClauseWithCostMinutes req) fromNodeId toNodeId])
    end.

(** The object pushed on [allLegs] at iteration [i]. *)
Definition leg_of (i : nat) (legRows : list Row) : Leg :=
  {| fromIndex := i;
     toIndex := i + 1;
     fromPoint := nth_error allPoints i;
     toPoint := nth_error allPoints (i + 1);
     rows := legRows |}.

(** The loop [for (let i = 0; i < nodeIds.length - 1; i++)], with [n] the
    iterations left, [i] the index and [allLegs] the legs pushed so far. *)
Fixpoint legs_loop (rt : RouteType) (n i : nat) (allLegs : list Leg)
  : M (option (list Leg)) :=
  match n with
  | O => ret (Some allLegs)
  | S n' =>
      bind (calculateLegRoute (node_at nodeIds i) (node_at nodeIds (i + 1)) rt)
        (fun legRows =>
           if (List.length legRows =? 0)%nat then ret None
           else legs_loop rt n' (S i) (allLegs ++ [leg_of i legRows]))
  end.

Definition calculateMultiLegRoute (rt : RouteType) : M (option (list Leg)) :=
  legs_loop rt (List.length nodeIds - 1) 0 [].

Definition is_null {A} (x : option A) : bool :=
  match x with
  | Some _ => false
  | None => true
  end.

(** [[a, b].filter(route => route !== null)] *)
Definition non_null {A} (xs : list (option A)) : list A :=
  flat_map (fun x => match x with Some a => [a] | None => [] end) xs.

(** From [Promise.all([calculateMultiLegRoute ...])] to the end of the
    [try] block. *)
Definition search_routes : M Response :=
  bind (promise_both (calculateMultiLegRoute shortest)
                     (calculateMultiLegRoute fastest))
    (fun both =>
       let (shortestLegs, fastestLegs) := both in
       if is_null shortestLegs && is_null fastestLegs
       then ret {| status := 404;
                   body := ErrorBody "ルートが見つかりません" None |}
       else
         let format := formatMultiLegRoute nodeIds (waypoints req) in
         bind (lift (format shortestLegs shortest)) (fun s1 =>
         bind (lift (format fastestLegs fastest)) (fun f1 =>
         bind (lift (format shortestLegs shortest)) (fun s2 =>
         bind (lift (format fastestLegs fastest)) (fun f2 =>
         ret {| status := 200;
                body := RoutesBody
                  {| r_shortest := s1;
                     r_fastest := f1;
                     r_routes := non_null [s2; f2];
                     r_waypoints := waypoints req;
                     r_avoidAreas := avoidAreas req;
                     r_constraints :=
                       {| c_avoidMotorways := avoidMotorways req;
                          c_vehicleWidth := vehicleWidth req;
                          c_vehicleHeight := vehicleHeight req;
                          c_avoidAreas := List.length (avoidAreas req) |} |} |}))))).

End Legs.

(** The body of the [try] block. *)
Definition POST_try : M Response :=
  if falsy (startLat req) || falsy (startLon req)
     || falsy (endLat req) || falsy (endLon req)
  then ret {| status := 400;
              body := ErrorBody "開始地点と終了地点の座標が必要です" None |}
  else
    bind (promise_all (map resolve_point allPoints)) (fun nodeResults =>
      let missingNodes := filter (fun n => negb (found n)) nodeResults in
      if (0 <? List.length missingNodes)%nat
      then ret {| status := 404;
                  body := ErrorBody "指定された座標の近くにノードが見つかりません"
                            (Some (map (fun n => type (nr_point n)) missingNodes)) |}
      else search_routes (map nodeId nodeResults)).

(** The handler: the response and the queries it issued. *)
Definition POST : Response * list Query :=
  match POST_try [] with
  | (Ok response, log) => (response, log)
  | (Throw, log) =>
      ({| status := 500;
          body := ErrorBody "ルート検索中にエラーが発生しました" None |}, log)
  end.

End Handler.

End Server.

Arguments sequence {num Json} s.
Arguments accumulatedCost {num Json} s.
Arguments legIndex {num Json} s.
Arguments segments {num Json} r.
Arguments ErrorBody {num Json} error missingPoints.
Arguments seg_node {num Json} s.
Arguments seg_edge {num Json} s.
Arguments seg_cost {num Json} s.
Arguments costMinutes {num Json} s.
Arguments geometry {num Json} s.
Arguments seg_name {num Json} s.
Arguments seg_length {num Json} s.
Arguments roadType {num Json} s.
Arguments legs {num Json} r.
Arguments rv_waypoints {num Json} r.
Arguments rv_totalCost {num Json} r.
Arguments rv_totalDistance {num Json} r.
Arguments rv_totalMinutes {num Json} r.
Arguments estimatedDuration {num Json} r.
Arguments startNode {num Json} r.
Arguments endNode {num Json} r.

(** * The single-leg endpoints

    The second handler file of the source: [POST] serves [/search] (one
    shortest path between two points) and [/nearest-node], and [GET] is the
    health check. *)

Module Legacy.

Section Handlers.

Context {num : Type} {JN : JsNumber num}.
Variable Json : Type.
Variable JSON_parse : string -> option Json.

(** A row of [routeQuery]. *)
Record Row : Type := {
  seq : Z;
  path_seq : Z;
  node : Z;
  edge : Z;
  cost : num;
  agg_cost : num;
  geom : option string;
  name : option string;
  length_m : option num
}.

(** A row of the nearest-node query. *)
Record NodeRow : Type := {
  id : Z;
  node_lon : num;
  node_lat : num;
  distance : num
}.

(** The calls of [pool.query]. *)
Inductive Query : Type :=
| startNodeQuery (startLon startLat : option num)
| endNodeQuery (endLon endLat : option num)
| routeQuery (startNode endNode : Z)
| nearestQuery (lon lat : option num)
| selectOne.

(** The store: the two vertex lookups run the same text, so one oracle
    answers both. *)
Record Db : Type := {
  vertex_rows : option num -> option num -> result (list (VertexRow (num:=num)));
  route_rows : Z -> Z -> result (list Row);
  nearest_rows : option num -> option num -> result (list NodeRow);
  select_one : result unit
}.

Definition M (A : Type) : Type := list Query -> result A * list Query.

Definition ret {A} (a : A) : M A := fun log => (Ok a, log).

Definition bind {A B} (m : M A) (k : A -> M B) : M B :=
  fun log =>
    match m log with
    | (Ok a, log') => k a log'
    | (Throw, log') => (Throw, log')
    end.

Definition lift {A} (r : result A) : M A := fun log => (r, log).

(** [await pool.query(q, params)] *)
Definition pool_query {A} (q : Query) (answer : result A) : M A :=
  fun log => (answer, log ++ [q]).

(** An element of [segments]. *)
Record Segment : Type := {
  sequence : Z;
  seg_node : Z;
  seg_edge : Z;
  seg_cost : num;
  accumulatedCost : num;
  geometry : option Json;
  seg_name : option string;
  seg_length : option num
}.

(** The object [route]. *)
Record Route : Type := {
  startNode : Z;
  endNode : Z;
  totalCost : num;
  totalDistance : num;
  segments : list Segment
}.

Inductive Body : Type :=
| ErrorBody (error : string)
| RouteBody (route : Route)
| NodesBody (nodes : list NodeRow)
| StatusBody (status database : string).

Record Response : Type := {
  status : nat;
  body : Body
}.

(** The parsed request body, as far as the endpoints destructure it. *)
Record JsonBody : Type := {
  startLat : option num;
  startLon : option num;
  endLat : option num;
  endLon : option num;
  lat : option num;
  lon : option num
}.

(** [s.endsWith(suffix)] *)
Definition endsWith (s suffix : string) : bool :=
  let n := String.length s in
  let m := String.length suffix in
  (m <=? n)%nat && String.eqb (substring (n - m) m s) suffix.

(** The object built for one row. *)
Definition mkSegment (row : Row) : result Segment :=
  rbind (parse_geom JSON_parse (geom row)) (fun g =>
  Ok {| sequence := seq row;
        seg_node := node row;
        seg_edge := edge row;
        seg_cost := cost row;
        accumulatedCost := agg_cost row;
        geometry := g;
        seg_name := name row;
        seg_length := length_m row |}).

(** [rows.map(row => ...)], which stops at the first throw. *)
Fixpoint map_rows (rs : list Row) : result (list Segment) :=
  match rs with
  | [] => Ok []
  | row :: rest =>
      rbind (mkSegment row) (fun s =>
      rbind (map_rows rest) (fun l => Ok (s :: l)))
  end.

(** [rows[rows.length - 1].agg_cost]; reading it off no row throws. *)
Definition last_agg_cost (rs : list Row) : result num :=
  match nth_error rs (List.length rs - 1) with
  | Some row => Ok (agg_cost row)
  | None => Throw
  end.

(** [rows.reduce((sum, row) => sum + (row.length_m || 0), 0)] *)
Definition sum_length (rs : list Row) : num :=
  fold_left (fun sum row => nadd sum (num_or (length_m row) zero)) rs zero.

Variable db : Db.

(** The [try] block of the [/search] endpoint. *)
Definition search_try (b : JsonBody) : M Response :=
  if falsy (startLat b) || falsy (startLon b)
     || falsy (endLat b) || falsy (endLon b)
  then ret {| status := 400;
              body := ErrorBody "開始地点と終了地点の座標が必要です" |}
  else
    bind (pool_query (startNodeQuery (startLon b) (startLat b))
            (vertex_rows db (startLon b) (startLat b))) (fun startRows =>
    bind (pool_query (endNodeQuery (endLon b) (endLat b))
            (vertex_rows db (endLon b) (endLat b))) (fun endRows =>
    if (List.length startRows =? 0)%nat || (List.length endRows =? 0)%nat
    then ret {| status := 404;
                body := ErrorBody "指定された座標の近くにノードが見つかりません" |}
    else
      match startRows, endRows with
      | s0 :: _, e0 :: _ =>
          let startNode_ := vertex_id s0 in
          let endNode_ := vertex_id e0 in
          bind (pool_query (routeQuery startNode_ endNode_)
                  (route_rows db startNode_ endNode_)) (fun routeRows =>
          if (List.length routeRows =? 0)%nat
          then ret {| status := 404; body := ErrorBody "ルートが見つかりません" |}
          else
            bind (lift (last_agg_cost routeRows)) (fun totalCost_ =>
            bind (lift (map_rows routeRows)) (fun segments_ =>
            ret {| status := 200;
                   body := RouteBody
                     {| startNode := startNode_;
                        endNode := endNode_;
                        totalCost := totalCost_;
                        totalDistance := sum_length routeRows;
                        segments := segments_ |} |})))
      | _, _ => lift Throw
      end)).

(** The [try] block of the [/nearest-node] endpoint. *)
Definition nearest_try (b : JsonBody) : M Response :=
  if falsy (lat b) || falsy (lon b)
  then ret {| status := 400; body := ErrorBody "座標が必要です" |}
  else
    bind (pool_query (nearestQuery (lon b) (lat b))
            (nearest_rows db (lon b) (lat b))) (fun rws =>
    ret {| status := 200; body := NodesBody rws |}).

(** [try { ... } catch { return json({ error }, { status: 500 }) }] *)
Definition catching (m : M Response) (message : string)
  : Response * list Query :=
  match m [] with
  | (Ok response, log) => (response, log)
  | (Throw, log) => ({| status := 500; body := ErrorBody message |}, log)
  end.

Definition POST (pathname : string) (b : JsonBody) : Response * list Query :=
  if endsWith pathname "/search"
  then catching (search_try b) "ルート検索中にエラーが発生しました"
  else if endsWith pathname "/nearest-node"
  then catching (nearest_try b) "最寄りノード検索中にエラーが発生しました"
  else ({| status := 404; body := ErrorBody "Not found" |}, []).

(** The health check. *)
Definition GET : Response * list Query :=
  match pool_query selectOne (select_one db) [] with
  | (Ok _, log) =>
      ({| status := 200; body := StatusBody "ok" "connected" |}, log)
  | (Throw, log) =>
      ({| status := 500; body := StatusBody "error" "disconnected" |}, log)
  end.

End Handlers.

End Legacy.

Arguments Legacy.ErrorBody {num Json} error.

(** * The arithmetic of the page

    [Math.floor], [Math.round] and [%] return the exact result on finite
    numbers, so they are given on the exact value of a number; division
    rounds, and belongs to the number type. *)

Inductive Value : Type :=
| VNaN
| VInf (negative : bool)
| VFin (q : Q).

Class JsMath (num : Type) : Type := {
  (** [a / b] *)
  ndiv : num -> num -> num;
  (** the exact value of a number ([-0] has the value 0) *)
  nvalue : num -> Value
}.

Definition float_value (x : float) : Value :=
  match Prim2SF x with
  | S754_zero _ => VFin 0
  | S754_infinity s => VInf s
  | S754_nan => VNaN
  | S754_finite s m e =>
      VFin (Qred ((if s then -1 else 1) * inject_Z (Zpos m) * Qpower 2 e))
  end.

#[export] Instance float_JsMath : JsMath float := {
  ndiv := PrimFloat.div;
  nvalue := float_value
}.

(** [Math.floor(x)] *)
Definition Math_floor (x : Value) : Value :=
  match x with
  | VFin q => VFin (inject_Z (Qfloor q))
  | _ => x
  end.

(** [Math.round(x)]: the nearest integer, a tie going up. *)
Definition Math_round (x : Value) : Value :=
  match x with
  | VFin q => VFin (inject_Z (Qfloor (q + (1 # 2))))
  | _ => x
  end.

(** The integer part of a quotient, towards zero. *)
Definition Qtrunc (q : Q) : Z :=
  if Qle_bool 0 q then Qfloor q else Qceiling q.

(** [x % y]: the remainder takes the sign of [x]. *)
Definition js_rem (x y : Value) : Value :=
  match x, y with
  | VFin a, VFin b =>
      if Qeq_bool b 0 then VNaN
      else VFin (a - b * inject_Z (Qtrunc (a / b)))
  | VFin a, VInf _ => VFin a
  | _, _ => VNaN
  end.

(** [x > 0] *)
Definition gt_zero (x : Value) : bool :=
  match x with
  | VFin q => negb (Qle_bool q 0)
  | VInf negative => negb negative
  | VNaN => false
  end.

(** * The page

    The script of [src/routes/+page.svelte]: the state of the page, its
    handlers, and the conditions under which the markup offers each
    control. *)

Module Page.

Section Script.

Context {num : Type} {JN : JsNumber num}.
Variable Json : Type.

(** A point picked on the map. *)
Record Point : Type := {
  lat : num;
  lng : num;
  type : string
}.

(** An entry of [vehicleTypes] (the emoji is left out). *)
Record VehicleType : Type := {
  id : string;
  label : string;
  width : num;
  height : num
}.

Definition vehicleTypes : list VehicleType :=
  [ {| id := "kei"; label := "軽自動車";
       width := nlit (148 # 100); height := nlit 2 |};
    {| id := "small"; label := "乗用車(小型)";
       width := nlit (17 # 10); height := nlit 2 |};
    {| id := "normal"; label := "乗用車(普通)";
       width := nlit (25 # 10); height := nlit (38 # 10) |};
    {| id := "truck-medium"; label := "トラック(中型)";
       width := nlit (25 # 10); height := nlit (38 # 10) |};
    {| id := "truck-large"; label := "トラック(大型)";
       width := nlit (25 # 10); height := nlit (38 # 10) |};
    {| id := "special"; label := "特大型";
       width := nlit 3; height := nlit 4 |} ].

(** The variables of the script.  [avoidAreaRadius] is bound to a number
    input and is null while the input is empty. *)
Record State : Type := {
  startPoint : option Point;
  endPoint : option Point;
  waypoints : list Point;
  avoidAreas : list (AvoidArea (num:=num));
  isSelectingStart : bool;
  isSelectingWaypoint : bool;
  isSelectingAvoidArea : bool;
  isSearching : bool;
  routeResult : option (Routes (num:=num) Json);
  selectedRouteType : RouteType;
  searchError : option string;
  avoidAreaRadius : option num;
  avoidMotorways : bool;
  vehicleWidth : option num;
  vehicleHeight : option num;
  showAdvancedOptions : bool;
  selectedVehicleType : option string
}.

(** The initial values. *)
Definition init : State :=
  {| startPoint := None; endPoint := None; waypoints := []; avoidAreas := [];
     isSelectingStart := true; isSelectingWaypoint := false;
     isSelectingAvoidArea := false; isSearching := false;
     routeResult := None; selectedRouteType := fastest; searchError := None;
     avoidAreaRadius := Some (nlit 500);
     avoidMotorways := false; vehicleWidth := None; vehicleHeight := None;
     showAdvancedOptions := false; selectedVehicleType := None |}.

(** [xs.filter((_, i) => i !== index)] *)
Fixpoint remove_at_from {A} (i index : nat) (xs : list A) : list A :=
  match xs with
  | [] => []
  | x :: rest =>
      if (i =? index)%nat then remove_at_from (S i) index rest
      else x :: remove_at_from (S i) index rest
  end.

Definition remove_at {A} (index : nat) (xs : list A) : list A :=
  remove_at_from 0 index xs.

Definition selectVehicleType (s : State) (typeId : string) : State :=
  match find (fun v => String.eqb (id v) typeId) vehicleTypes with
  | Some vehicle =>
      {| startPoint := startPoint s;
         endPoint := endPoint s;
         waypoints := waypoints s;
         avoidAreas := avoidAreas s;
         isSelectingStart := isSelectingStart s;
         isSelectingWaypoint := isSelectingWaypoint s;
         isSelectingAvoidArea := isSelectingAvoidArea s;
         isSearching := isSearching s;
         routeResult := routeResult s;
         selectedRouteType := selectedRouteType s;
         searchError := searchError s;
         avoidAreaRadius := avoidAreaRadius s;
         avoidMotorways := avoidMotorways s;
         vehicleWidth := Some (width vehicle);
         vehicleHeight := Some (height vehicle);
         showAdvancedOptions := showAdvancedOptions s;
         selectedVehicleType := Some typeId |}
  | None =>
      {| startPoint := startPoint s;
         endPoint := endPoint s;
         waypoints := waypoints s;
         avoidAreas := avoidAreas s;
         isSelectingStart := isSelectingStart s;
         isSelectingWaypoint := isSelectingWaypoint s;
         isSelectingAvoidArea := isSelectingAvoidArea s;
         isSearching := isSearching s;
         routeResult := routeResult s;
         selectedRouteType := selectedRouteType s;
         searchError := searchError s;
         avoidAreaRadius := avoidAreaRadius s;
         avoidMotorways := avoidMotorways s;
         vehicleWidth := vehicleWidth s;
         vehicleHeight := vehicleHeight s;
         showAdvancedOptions := showAdvancedOptions s;
         selectedVehicleType := Some typeId |}
  end.

Definition clearVehicleSelection (s : State) : State :=
  {| startPoint := startPoint s;
     endPoint := endPoint s;
     waypoints := waypoints s;
     avoidAreas := avoidAreas s;
     isSelectingStart := isSelectingStart s;
     isSelectingWaypoint := isSelectingWaypoint s;
     isSelectingAvoidArea := isSelectingAvoidArea s;
     isSearching := isSearching s;
     routeResult := routeResult s;
     selectedRouteType := selectedRouteType s;
     searchError := searchError s;
     avoidAreaRadius := avoidAreaRadius s;
     avoidMotorways := avoidMotorways s;
     vehicleWidth := None;
     vehicleHeight := None;
     showAdvancedOptions := showAdvancedOptions s;
     selectedVehicleType := None |}.

Definition handleMapClick (s : State) (lng_ lat_ : num) : State :=
  if isSelectingAvoidArea s then
    {| startPoint := startPoint s;
       endPoint := endPoint s;
       waypoints := waypoints s;
       avoidAreas := avoidAreas s ++ [{| area_lat := lat_; area_lon := lng_; radius := avoidAreaRadius s |}];
       isSelectingStart := isSelectingStart s;
       isSelectingWaypoint := isSelectingWaypoint s;
       isSelectingAvoidArea := isSelectingAvoidArea s;
       isSearching := isSearching s;
       routeResult := None;
       selectedRouteType := selectedRouteType s;
       searchError := None;
       avoidAreaRadius := avoidAreaRadius s;
       avoidMotorways := avoidMotorways s;
       vehicleWidth := vehicleWidth s;
       vehicleHeight := vehicleHeight s;
       showAdvancedOptions := showAdvancedOptions s;
       selectedVehicleType := selectedVehicleType s |}
  else if isSelectingWaypoint s then
    {| startPoint := startPoint s;
       endPoint := endPoint s;
       waypoints := waypoints s ++ [{| lat := lat_; lng := lng_; type := "waypoint" |}];
       avoidAreas := avoidAreas s;
       isSelectingStart := isSelectingStart s;
       isSelectingWaypoint := isSelectingWaypoint s;
       isSelectingAvoidArea := isSelectingAvoidArea s;
       isSearching := isSearching s;
       routeResult := None;
       selectedRouteType := selectedRouteType s;
       searchError := None;
       avoidAreaRadius := avoidAreaRadius s;
       avoidMotorways := avoidMotorways s;
       vehicleWidth := vehicleWidth s;
       vehicleHeight := vehicleHeight s;
       showAdvancedOptions := showAdvancedOptions s;
       selectedVehicleType := selectedVehicleType s |}
  else match startPoint s with
  | None =>
      {| startPoint := Some {| lat := lat_; lng := lng_; type := "start" |};
         endPoint := endPoint s;
         waypoints := waypoints s;
         avoidAreas := avoidAreas s;
         isSelectingStart := isSelectingStart s;
         isSelectingWaypoint := isSelectingWaypoint s;
         isSelectingAvoidArea := isSelectingAvoidArea s;
         isSearching := isSearching s;
         routeResult := None;
         selectedRouteType := selectedRouteType s;
         searchError := None;
         avoidAreaRadius := avoidAreaRadius s;
         avoidMotorways := avoidMotorways s;
         vehicleWidth := vehicleWidth s;
         vehicleHeight := vehicleHeight s;
         showAdvancedOptions := showAdvancedOptions s;
         selectedVehicleType := selectedVehicleType s |}
  | Some _ =>
      match endPoint s with
      | None =>
          if negb (isSelectingWaypoint s) then
            {| startPoint := startPoint s;
               endPoint := Some {| lat := lat_; lng := lng_; type := "end" |};
               waypoints := waypoints s;
               avoidAreas := avoidAreas s;
               isSelectingStart := isSelectingStart s;
               isSelectingWaypoint := isSelectingWaypoint s;
               isSelectingAvoidArea := isSelectingAvoidArea s;
               isSearching := isSearching s;
               routeResult := None;
               selectedRouteType := selectedRouteType s;
               searchError := None;
               avoidAreaRadius := avoidAreaRadius s;
               avoidMotorways := avoidMotorways s;
               vehicleWidth := vehicleWidth s;
               vehicleHeight := vehicleHeight s;
               showAdvancedOptions := showAdvancedOptions s;
               selectedVehicleType := selectedVehicleType s |}
          else
            {| startPoint := startPoint s;
               endPoint := endPoint s;
               waypoints := waypoints s;
               avoidAreas := avoidAreas s;
               isSelectingStart := isSelectingStart s;
               isSelectingWaypoint := isSelectingWaypoint s;
               isSelectingAvoidArea := isSelectingAvoidArea s;
               isSearching := isSearching s;
               routeResult := None;
               selectedRouteType := selectedRouteType s;
               searchError := None;
               avoidAreaRadius := avoidAreaRadius s;
               avoidMotorways := avoidMotorways s;
               vehicleWidth := vehicleWidth s;
               vehicleHeight := vehicleHeight s;
               showAdvancedOptions := showAdvancedOptions s;
               selectedVehicleType := selectedVehicleType s |}
      | Some _ =>
            {| startPoint := startPoint s;
               endPoint := endPoint s;
               waypoints := waypoints s;
               avoidAreas := avoidAreas s;
               isSelectingStart := isSelectingStart s;
               isSelectingWaypoint := isSelectingWaypoint s;
               isSelectingAvoidArea := isSelectingAvoidArea s;
               isSearching := isSearching s;
               routeResult := None;
               selectedRouteType := selectedRouteType s;
               searchError := None;
               avoidAreaRadius := avoidAreaRadius s;
               avoidMotorways := avoidMotorways s;
               vehicleWidth := vehicleWidth s;
               vehicleHeight := vehicleHeight s;
               showAdvancedOptions := showAdvancedOptions s;
               selectedVehicleType := selectedVehicleType s |}
      end
  end.

Definition clearPoints (s : State) : State :=
  {| startPoint := None;
     endPoint := None;
     waypoints := [];
     avoidAreas := [];
     isSelectingStart := true;
     isSelectingWaypoint := false;
     isSelectingAvoidArea := false;
     isSearching := isSearching s;
     routeResult := None;
     selectedRouteType := selectedRouteType s;
     searchError := None;
     avoidAreaRadius := avoidAreaRadius s;
     avoidMotorways := avoidMotorways s;
     vehicleWidth := vehicleWidth s;
     vehicleHeight := vehicleHeight s;
     showAdvancedOptions := showAdvancedOptions s;
     selectedVehicleType := selectedVehicleType s |}.

Definition removeWaypoint (s : State) (index : nat) : State :=
  {| startPoint := startPoint s;
     endPoint := endPoint s;
     waypoints := remove_at index (waypoints s);
     avoidAreas := avoidAreas s;
     isSelectingStart := isSelectingStart s;
     isSelectingWaypoint := isSelectingWaypoint s;
     isSelectingAvoidArea := isSelectingAvoidArea s;
     isSearching := isSearching s;
     routeResult := None;
     selectedRouteType := selectedRouteType s;
     searchError := None;
     avoidAreaRadius := avoidAreaRadius s;
     avoidMotorways := avoidMotorways s;
     vehicleWidth := vehicleWidth s;
     vehicleHeight := vehicleHeight s;
     showAdvancedOptions := showAdvancedOptions s;
     selectedVehicleType := selectedVehicleType s |}.

Definition removeAvoidArea (s : State) (index : nat) : State :=
  {| startPoint := startPoint s;
     endPoint := endPoint s;
     waypoints := waypoints s;
     avoidAreas := remove_at index (avoidAreas s);
     isSelectingStart := isSelectingStart s;
     isSelectingWaypoint := isSelectingWaypoint s;
     isSelectingAvoidArea := isSelectingAvoidArea s;
     isSearching := isSearching s;
     routeResult := None;
     selectedRouteType := selectedRouteType s;
     searchError := None;
     avoidAreaRadius := avoidAreaRadius s;
     avoidMotorways := avoidMotorways s;
     vehicleWidth := vehicleWidth s;
     vehicleHeight := vehicleHeight s;
     showAdvancedOptions := showAdvancedOptions s;
     selectedVehicleType := selectedVehicleType s |}.

(** The body of the request [searchRoute] sends, read back by the
    handler; nothing is sent without a start and an end point.  The
    numbers of the page come from map clicks and number inputs, so they
    are finite, and JSON carries a finite number unchanged. *)
Definition search_request (s : State) : option (Request (num:=num)) :=
  match startPoint s, endPoint s with
  | Some sp, Some ep =>
      Some (Build_Request
              (Some (lat sp)) (Some (lng sp)) (Some (lat ep)) (Some (lng ep))
              (map (fun wp => {| wp_lat := Some (lat wp); wp_lon := Some (lng wp) |})
                 (waypoints s))
              (avoidMotorways s) (vehicleWidth s) (vehicleHeight s)
              (avoidAreas s))
  | _, _ => None
  end.

(** [searchRoute] up to the [fetch]. *)
Definition searchRoute_start (s : State) : State :=
  match search_request s with
  | None => s
  | Some _ =>
      {| startPoint := startPoint s;
         endPoint := endPoint s;
         waypoints := waypoints s;
         avoidAreas := avoidAreas s;
         isSelectingStart := isSelectingStart s;
         isSelectingWaypoint := isSelectingWaypoint s;
         isSelectingAvoidArea := isSelectingAvoidArea s;
         isSearching := true;
         routeResult := routeResult s;
         selectedRouteType := selectedRouteType s;
         searchError := None;
         avoidAreaRadius := avoidAreaRadius s;
         avoidMotorways := avoidMotorways s;
         vehicleWidth := vehicleWidth s;
         vehicleHeight := vehicleHeight s;
         showAdvancedOptions := showAdvancedOptions s;
         selectedVehicleType := selectedVehicleType s |}
  end.

(** [searchRoute] after the [fetch]: a response that is ok. *)
Definition searchRoute_resolved (s : State) (r : Routes (num:=num) Json) : State :=
  {| startPoint := startPoint s;
     endPoint := endPoint s;
     waypoints := waypoints s;
     avoidAreas := avoidAreas s;
     isSelectingStart := isSelectingStart s;
     isSelectingWaypoint := isSelectingWaypoint s;
     isSelectingAvoidArea := isSelectingAvoidArea s;
     isSearching := false;
     routeResult := Some r;
     selectedRouteType := selectedRouteType s;
     searchError := searchError s;
     avoidAreaRadius := avoidAreaRadius s;
     avoidMotorways := avoidMotorways s;
     vehicleWidth := vehicleWidth s;
     vehicleHeight := vehicleHeight s;
     showAdvancedOptions := showAdvancedOptions s;
     selectedVehicleType := selectedVehicleType s |}.

(** [searchRoute] after the [fetch]: the [catch] and [finally] blocks. *)
Definition searchRoute_rejected (s : State) (message : string) : State :=
  {| startPoint := startPoint s;
     endPoint := endPoint s;
     waypoints := waypoints s;
     avoidAreas := avoidAreas s;
     isSelectingStart := isSelectingStart s;
     isSelectingWaypoint := isSelectingWaypoint s;
     isSelectingAvoidArea := isSelectingAvoidArea s;
     isSearching := false;
     routeResult := routeResult s;
     selectedRouteType := selectedRouteType s;
     searchError := Some message;
     avoidAreaRadius := avoidAreaRadius s;
     avoidMotorways := avoidMotorways s;
     vehicleWidth := vehicleWidth s;
     vehicleHeight := vehicleHeight s;
     showAdvancedOptions := showAdvancedOptions s;
     selectedVehicleType := selectedVehicleType s |}.

(** The reactive value [selectedRoute]. *)
Definition selectedRoute (s : State) : option (RouteVariant (num:=num) Json) :=
  match routeResult s with
  | Some r =>
      match selectedRouteType s with
      | shortest => r_shortest r
      | fastest => r_fastest r
      end
  | None => None
  end.

(** What the user can do. *)
Inductive Event : Type :=
| MapClick (lng_ lat_ : num)
| ClearPoints
| RemoveWaypoint (index : nat)
| RemoveAvoidArea (index : nat)
| SelectVehicleType (typeId : string)
| ClearVehicleSelection
| SetSelectingWaypoint (b : bool)
| SetSelectingAvoidArea (b : bool)
| SearchRoute
| SearchResolved (r : Routes (num:=num) Json)
| SearchRejected (message : string)
| ToggleAdvancedOptions
| SetAvoidMotorways (b : bool)
| SetVehicleWidth (v : option num)
| SetVehicleHeight (v : option num)
| SetAvoidAreaRadius (v : option num)
| SelectRouteType (rt : RouteType).

Definition is_set {A} (x : option A) : bool :=
  match x with
  | Some _ => true
  | None => false
  end.

(** The control of the event is on the page (the [#if] blocks and the
    [disabled] attribute of the markup); a response arrives only while a
    search is running. *)
Definition enabled (s : State) (e : Event) : bool :=
  match e with
  | MapClick _ _ => true
  | ClearPoints =>
      is_set (startPoint s) || is_set (endPoint s)
      || (0 <? List.length (waypoints s))%nat
  | RemoveWaypoint index => (index <? List.length (waypoints s))%nat
  | RemoveAvoidArea index => (index <? List.length (avoidAreas s))%nat
  | SelectVehicleType typeId =>
      showAdvancedOptions s
      && existsb (fun v => String.eqb (id v) typeId) vehicleTypes
  | ClearVehicleSelection =>
      showAdvancedOptions s && is_set (selectedVehicleType s)
  | SetSelectingWaypoint true =>
      is_set (startPoint s)
      && negb (isSelectingWaypoint s) && negb (isSelectingAvoidArea s)
  | SetSelectingWaypoint false =>
      is_set (startPoint s) && isSelectingWaypoint s
  | SetSelectingAvoidArea true =>
      is_set (startPoint s)
      && negb (isSelectingAvoidArea s) && negb (isSelectingWaypoint s)
  | SetSelectingAvoidArea false =>
      is_set (startPoint s) && isSelectingAvoidArea s
  | SearchRoute =>
      is_set (startPoint s) && is_set (endPoint s) && negb (isSearching s)
  | SearchResolved _ => isSearching s
  | SearchRejected _ => isSearching s
  | ToggleAdvancedOptions => true
  | SetAvoidMotorways _ => showAdvancedOptions s
  | SetVehicleWidth _ => showAdvancedOptions s
  | SetVehicleHeight _ => showAdvancedOptions s
  | SetAvoidAreaRadius _ => showAdvancedOptions s
  | SelectRouteType rt =>
      match routeResult s with
      | Some r =>
          (0 <? List.length (r_routes r))%nat
          && is_set (match rt with
                     | shortest => r_shortest r
                     | fastest => r_fastest r
                     end)
      | None => false
      end
  end.

(** The handler of the event. *)
Definition handle (s : State) (e : Event) : State :=
  match e with
  | MapClick lng_ lat_ => handleMapClick s lng_ lat_
  | ClearPoints => clearPoints s
  | RemoveWaypoint index => removeWaypoint s index
  | RemoveAvoidArea index => removeAvoidArea s index
  | SelectVehicleType typeId => selectVehicleType s typeId
  | ClearVehicleSelection => clearVehicleSelection s
  | SetSelectingWaypoint b =>
      {| startPoint := startPoint s;
         endPoint := endPoint s;
         waypoints := waypoints s;
         avoidAreas := avoidAreas s;
         isSelectingStart := isSelectingStart s;
         isSelectingWaypoint := b;
         isSelectingAvoidArea := isSelectingAvoidArea s;
         isSearching := isSearching s;
         routeResult := routeResult s;
         selectedRouteType := selectedRouteType s;
         searchError := searchError s;
         avoidAreaRadius := avoidAreaRadius s;
         avoidMotorways := avoidMotorways s;
         vehicleWidth := vehicleWidth s;
         vehicleHeight := vehicleHeight s;
         showAdvancedOptions := showAdvancedOptions s;
         selectedVehicleType := selectedVehicleType s |}
  | SetSelectingAvoidArea b =>
      {| startPoint := startPoint s;
         endPoint := endPoint s;
         waypoints := waypoints s;
         avoidAreas := avoidAreas s;
         isSelectingStart := isSelectingStart s;
         isSelectingWaypoint := isSelectingWaypoint s;
         isSelectingAvoidArea := b;
         isSearching := isSearching s;
         routeResult := routeResult s;
         selectedRouteType := selectedRouteType s;
         searchError := searchError s;
         avoidAreaRadius := avoidAreaRadius s;
         avoidMotorways := avoidMotorways s;
         vehicleWidth := vehicleWidth s;
         vehicleHeight := vehicleHeight s;
         showAdvancedOptions := showAdvancedOptions s;
         selectedVehicleType := selectedVehicleType s |}
  | SearchRoute => searchRoute_start s
  | SearchResolved r => searchRoute_resolved s r
  | SearchRejected message => searchRoute_rejected s message
  | ToggleAdvancedOptions =>
      {| startPoint := startPoint s;
         endPoint := endPoint s;
         waypoints := waypoints s;
         avoidAreas := avoidAreas s;
         isSelectingStart := isSelectingStart s;
         isSelectingWaypoint := isSelectingWaypoint s;
         isSelectingAvoidArea := isSelectingAvoidArea s;
         isSearching := isSearching s;
         routeResult := routeResult s;
         selectedRouteType := selectedRouteType s;
         searchError := searchError s;
         avoidAreaRadius := avoidAreaRadius s;
         avoidMotorways := avoidMotorways s;
         vehicleWidth := vehicleWidth s;
         vehicleHeight := vehicleHeight s;
         showAdvancedOptions := negb (showAdvancedOptions s);
         selectedVehicleType := selectedVehicleType s |}
  | SetAvoidMotorways b =>
      {| startPoint := startPoint s;
         endPoint := endPoint s;
         waypoints := waypoints s;
         avoidAreas := avoidAreas s;
         isSelectingStart := isSelectingStart s;
         isSelectingWaypoint := isSelectingWaypoint s;
         isSelectingAvoidArea := isSelectingAvoidArea s;
         isSearching := isSearching s;
         routeResult := routeResult s;
         selectedRouteType := selectedRouteType s;
         searchError := searchError s;
         avoidAreaRadius := avoidAreaRadius s;
         avoidMotorways := b;
         vehicleWidth := vehicleWidth s;
         vehicleHeight := vehicleHeight s;
         showAdvancedOptions := showAdvancedOptions s;
         selectedVehicleType := selectedVehicleType s |}
  | SetVehicleWidth v =>
      {| startPoint := startPoint s;
         endPoint := endPoint s;
         waypoints := waypoints s;
         avoidAreas := avoidAreas s;
         isSelectingStart := isSelectingStart s;
         isSelectingWaypoint := isSelectingWaypoint s;
         isSelectingAvoidArea := isSelectingAvoidArea s;
         isSearching := isSearching s;
         routeResult := routeResult s;
         selectedRouteType := selectedRouteType s;
         searchError := searchError s;
         avoidAreaRadius := avoidAreaRadius s;
         avoidMotorways := avoidMotorways s;
         vehicleWidth := v;
         vehicleHeight := vehicleHeight s;
         showAdvancedOptions := showAdvancedOptions s;
         selectedVehicleType := selectedVehicleType s |}
  | SetVehicleHeight v =>
      {| startPoint := startPoint s;
         endPoint := endPoint s;
         waypoints := waypoints s;
         avoidAreas := avoidAreas s;
         isSelectingStart := isSelectingStart s;
         isSelectingWaypoint := isSelectingWaypoint s;
         isSelectingAvoidArea := isSelectingAvoidArea s;
         isSearching := isSearching s;
         routeResult := routeResult s;
         selectedRouteType := selectedRouteType s;
         searchError := searchError s;
         avoidAreaRadius := avoidAreaRadius s;
         avoidMotorways := avoidMotorways s;
         vehicleWidth := vehicleWidth s;
         vehicleHeight := v;
         showAdvancedOptions := showAdvancedOptions s;
         selectedVehicleType := selectedVehicleType s |}
  | SetAvoidAreaRadius v =>
      {| startPoint := startPoint s;
         endPoint := endPoint s;
         waypoints := waypoints s;
         avoidAreas := avoidAreas s;
         isSelectingStart := isSelectingStart s;
         isSelectingWaypoint := isSelectingWaypoint s;
         isSelectingAvoidArea := isSelectingAvoidArea s;
         isSearching := isSearching s;
         routeResult := routeResult s;
         selectedRouteType := selectedRouteType s;
         searchError := searchError s;
         avoidAreaRadius := v;
         avoidMotorways := avoidMotorways s;
         vehicleWidth := vehicleWidth s;
         vehicleHeight := vehicleHeight s;
         showAdvancedOptions := showAdvancedOptions s;
         selectedVehicleType := selectedVehicleType s |}
  | SelectRouteType rt =>
      {| startPoint := startPoint s;
         endPoint := endPoint s;
         waypoints := waypoints s;
         avoidAreas := avoidAreas s;
         isSelectingStart := isSelectingStart s;
         isSelectingWaypoint := isSelectingWaypoint s;
         isSelectingAvoidArea := isSelectingAvoidArea s;
         isSearching := isSearching s;
         routeResult := routeResult s;
         selectedRouteType := rt;
         searchError := searchError s;
         avoidAreaRadius := avoidAreaRadius s;
         avoidMotorways := avoidMotorways s;
         vehicleWidth := vehicleWidth s;
         vehicleHeight := vehicleHeight s;
         showAdvancedOptions := showAdvancedOptions s;
         selectedVehicleType := selectedVehicleType s |}
  end.

(** One step of the page: an event whose control is not on the page does
    nothing. *)
Definition step (s : State) (e : Event) : State :=
  if enabled s e then handle s e else s.

(** The page after a sequence of events. *)
Definition run (s : State) (es : list Event) : State := fold_left step es s.

End Script.

Section Format.

Context {num : Type} {JN : JsNumber num} {JM : JsMath num}.

(** Template interpolation of a number. *)
Variable String_of_Value : Value -> string.

(** The constants [hours] and [mins] of [formatDurationFromMinutes]. *)
Definition duration_hours (minutes : num) : Value :=
  Math_floor (nvalue (ndiv minutes (nlit 60))).

Definition duration_mins (minutes : num) : Value :=
  Math_round (js_rem (nvalue minutes) (nvalue (nlit 60))).

Definition formatDurationFromMinutes (minutes : num) : string :=
  let hours := duration_hours minutes in
  let mins := duration_mins minutes in
  if gt_zero hours
  then String_of_Value hours ++ "時間" ++ String_of_Value mins ++ "分"
  else String_of_Value mins ++ "分".

End Format.

End Page.

(** * Vocabulary of the properties *)

Section Vocabulary.

Context {num : Type} {JN : JsNumber num}.
Variable Json : Type.
Variable JSON_parse : string -> option Json.

(** The number of rows of the legs before leg [k]: the value of
    [sequenceOffset] when leg [k] is reached. *)
Definition rows_before (k : nat) (ls : list (Leg (num:=num))) : nat :=
  list_sum (map (fun l => List.length (rows l)) (firstn k ls)).

(** [n] consecutive integers from [s0]. *)
Fixpoint zrange (s0 : Z) (n : nat) : list Z :=
  match n with
  | O => []
  | S n' => s0 :: zrange (s0 + 1) n'
  end.

(** Every geometry text of the rows parses. *)
Definition geom_parses (r : Row (num:=num)) : Prop :=
  parse_geom JSON_parse (geom r) <> Throw.

Definition geoms_parse (ls : list (Leg (num:=num))) : Prop :=
  Forall (fun l => Forall geom_parses (rows l)) ls.

(** The value of [totalCost] once the legs [ls] are added to [t]. *)
Definition total_after (t : num) (ls : list (Leg (num:=num))) : num :=
  fold_left (fun acc l => nadd acc (leg_cost (rows l))) ls t.

(** What the loop appends to [allSegments], seen through a field [f] of the
    segment that is computed from [sequenceOffset], [totalCost], [legCost]
    and the row. *)
Fixpoint stitched {X} (f : Z -> num -> num -> Row (num:=num) -> X)
    (off : Z) (t : num) (ls : list (Leg (num:=num))) : list X :=
  match ls with
  | [] => []
  | l :: rest =>
      let lc := leg_cost (rows l) in
      map (f off (nadd t lc) lc) (rows l)
      ++ stitched f (off + Z.of_nat (List.length (rows l))) (nadd t lc) rest
  end.

(** [req2] enables every constraint [req1] enables: motorway avoidance, the
    width exclusion, the height exclusion, and each avoid zone. *)
Definition enables_superset (req1 req2 : Request (num:=num)) : Prop :=
  (avoidMotorways req1 = true -> avoidMotorways req2 = true)
  /\ (given_and_gt (vehicleWidth req1) (nlit (5 # 2)) = true ->
      given_and_gt (vehicleWidth req2) (nlit (5 # 2)) = true)
  /\ (given_and_gt (vehicleHeight req1) (nlit (7 # 2)) = true ->
      given_and_gt (vehicleHeight req2) (nlit (7 # 2)) = true)
  /\ incl (avoidAreas req1) (avoidAreas req2).

(** The request with its avoid zones removed. *)
Definition without_areas (req : Request (num:=num)) : Request (num:=num) :=
  {| startLat := startLat req; startLon := startLon req;
     endLat := endLat req; endLon := endLon req;
     waypoints := waypoints req;
     avoidMotorways := avoidMotorways req;
     vehicleWidth := vehicleWidth req;
     vehicleHeight := vehicleHeight req;
     avoidAreas := [] |}.

(** The radius as the specification words it: the zone's own radius, and
    500 when that is unset. *)
Definition radius_default_when_unset (area : AvoidArea (num:=num)) : num :=
  match radius area with
  | Some r => r
  | None => nlit 500
  end.

(** The start and end coordinates pass the presence check. *)
Definition coordinates_present (req : Request (num:=num)) : Prop :=
  falsy (startLat req) = false /\ falsy (startLon req) = false
  /\ falsy (endLat req) = false /\ falsy (endLon req) = false.

(** The nearest-vertex lookup of [p] answers no row ([found = false]). *)
Definition unresolved (db : Db (num:=num)) (p : Point (num:=num)) : bool :=
  match nearest_rows db (lon p) (lat p) with
  | Ok [] => true
  | _ => false
  end.

(** The element of [nodeResults] for [p]. *)
Definition node_result (db : Db (num:=num)) (p : Point (num:=num)) : NodeResult :=
  match nearest_rows db (lon p) (lat p) with
  | Ok rws => {| nr_point := p;
                 nodeId := option_map vertex_id (nth_error rws 0);
                 found := (0 <? List.length rws)%nat |}
  | Throw => {| nr_point := p; nodeId := None; found := false |}
  end.

(** One nearest-vertex query per point, in the order of the points. *)
Definition nearest_queries (pts : list (Point (num:=num))) : list (Query (num:=num)) :=
  map (fun p => nearestNodeQuery (lon p) (lat p)) pts.

(** What the graph engine answers for leg [i] of the metric [rt]. *)
Definition leg_rows (db : Db (num:=num)) (req : Request (num:=num))
    (nodeIds : list (option Z)) (rt : RouteType) (i : nat)
  : result (list (Row (num:=num))) :=
  route_rows db rt
    (match rt with
     | shortest => whereClause req
     | fastest => whereClauseWithCostMinutes req
     end)
    (node_at nodeIds i) (node_at nodeIds (i + 1)).

(** The array [nodeIds] once every lookup has answered. *)
Definition resolved_nodeIds (db : Db (num:=num)) (req : Request (num:=num))
  : list (option Z) :=
  map (fun p => nodeId (node_result db p)) (allPoints req).

(** The stitched [sequence] field. *)
Definition stitched_sequence (off : Z) (tc lc : num) (r : Row (num:=num)) : Z :=
  off + seq r.

(** Adjacent elements are in the order [le]. *)
Definition nondecreasing {A} (le : A -> A -> Prop) (xs : list A) : Prop :=
  forall i a b, nth_error xs i = Some a -> nth_error xs (S i) = Some b -> le a b.

End Vocabulary.

(** ** Vocabulary of the further properties *)

Section MoreVocabulary.

Context {num : Type} {JN : JsNumber num}.
Variable Json : Type.
Variable JSON_parse : string -> option Json.

(** Every row of every leg, in order, with the leg it belongs to. *)
Definition rows_with_leg (ls : list (Leg (num:=num)))
  : list (Leg (num:=num) * Row (num:=num)) :=
  flat_map (fun l => map (pair l) (rows l)) ls.

(** The segment [s] carries the data of the row [r] of the leg [l]. *)
Definition segment_carries (l : Leg (num:=num)) (r : Row (num:=num))
    (s : Segment (num:=num) Json) : Prop :=
  seg_node s = node r /\ seg_edge s = edge r /\ seg_cost s = cost r
  /\ costMinutes s = cost_minutes r /\ seg_name s = name r
  /\ seg_length s = length_m r /\ roadType s = road_type r
  /\ legIndex s = fromIndex l
  /\ parse_geom JSON_parse (geom r) = Ok (geometry s).



End MoreVocabulary.

Section ComposerVocabulary.

Context {num : Type} {JN : JsNumber num}.

(** The nearest-vertex lookup of [p] is rejected. *)
Definition lookup_throws (db : Db (num:=num)) (p : Point (num:=num)) : bool :=
  match nearest_rows db (lon p) (lat p) with
  | Throw => true
  | Ok _ => false
  end.

(** The query sent for leg [i] of the metric [rt]. *)
Definition leg_query (req : Request (num:=num)) (nodeIds : list (option Z))
    (rt : RouteType) (i : nat) : Query (num:=num) :=
  match rt with
  | shortest =>
      shortestRouteQuery (whereClause req) (node_at nodeIds i) (node_at nodeIds (i + 1))
  | fastest =>
      fastestRouteQuery (whereClauseWithCostMinutes req)
        (node_at nodeIds i) (node_at nodeIds (i + 1))
  end.

(** The point made of the waypoint [wp] at index [idx]. *)
Definition waypoint_point (wp : Waypoint (num:=num)) (idx : nat) : Point (num:=num) :=
  {| lat := wp_lat wp; lon := wp_lon wp;
     type := "waypoint-" ++ string_of_nat idx |}.

(** The object [routes] built from the two formatted variants. *)
Definition routes_body {Json : Type} (req : Request (num:=num))
    (vs vf : option (RouteVariant (num:=num) Json)) : Routes Json :=
  {| r_shortest := vs;
     r_fastest := vf;
     r_routes := non_null [vs; vf];
     r_waypoints := waypoints req;
     r_avoidAreas := avoidAreas req;
     r_constraints :=
       {| c_avoidMotorways := avoidMotorways req;
          c_vehicleWidth := vehicleWidth req;
          c_vehicleHeight := vehicleHeight req;
          c_avoidAreas := List.length (avoidAreas req) |} |}.

(** The first and the last element of [allPoints]. *)
Definition start_point (req : Request (num:=num)) : Point (num:=num) :=
  {| lat := startLat req; lon := startLon req; type := "start" |}.

Definition end_point (req : Request (num:=num)) : Point (num:=num) :=
  {| lat := endLat req; lon := endLon req; type := "end" |}.

(** The vertex id the store answers for the point [p]. *)
Definition resolved_id (db : Db (num:=num)) (p : Point (num:=num)) : option Z :=
  nodeId (node_result db p).

End ComposerVocabulary.

Section PageVocabulary.

Context {num : Type} {JN : JsNumber num}.
Variable Json : Type.

(** Nothing is placed on the map. *)
Definition nothing_placed (s : Page.State (num:=num) Json) : Prop :=
  Page.startPoint s = None /\ Page.endPoint s = None
  /\ Page.waypoints s = [] /\ Page.avoidAreas s = [].

(** What holds of the page whatever the user did. *)
Definition consistent (s : Page.State (num:=num) Json) : Prop :=
  Page.isSelectingStart s = true
  /\ Page.isSelectingWaypoint s && Page.isSelectingAvoidArea s = false
  /\ (Page.is_set (Page.startPoint s) = true
      \/ (nothing_placed s
          /\ Page.isSelectingWaypoint s = false
          /\ Page.isSelectingAvoidArea s = false))
  /\ Forall (fun p => Page.type p = "waypoint") (Page.waypoints s).

(** The point the handler makes of the page's waypoint [wp] at [idx]. *)
Definition page_waypoint_point (wp : Page.Point (num:=num)) (idx : nat)
  : Point (num:=num) :=
  {| lat := Some (Page.lat wp); lon := Some (Page.lng wp);
     type := "waypoint-" ++ string_of_nat idx |}.

(** The minutes past the last full hour. *)
Definition past_the_hour (q : Q) : Q := q - 60 * inject_Z (Qfloor (q / 60)).

End PageVocabulary.

(** * Sample inputs

    Binary64 data for the examples below; [JSON.parse] is kept symbolic
    (the parsed value is the text). *)

Definition sample_parse (s : string) : option string := Some s.

(** The two rows [pgr_dijkstra] returns for a path of one edge of cost [c]:
    the edge row, then the closing row with [edge = -1], which the joins
    leave without attributes. *)
Definition one_edge_path (src dst e : Z) (c : float) : list (Row (num:=float)) :=
  [ {| seq := 1; path_seq := 1; node := src; edge := e; cost := c;
       agg_cost := PrimFloat.zero;
       geom := Some "{}"; name := Some "R"; length_m := Some c;
       cost_minutes := Some PrimFloat.one; road_type := Some "primary" |};
    {| seq := 2; path_seq := 2; node := dst; edge := -1; cost := PrimFloat.zero;
       agg_cost := c;
       geom := None; name := None; length_m := None;
       cost_minutes := None; road_type := None |} ].

Definition sample_leg (i : nat) (rs : list (Row (num:=float))) : Leg (num:=float) :=
  {| fromIndex := i; toIndex := i + 1; fromPoint := None; toPoint := None;
     rows := rs |}.

(** 152.3 and 1048.7 metres. *)
Definition len_152_3 : float := 0x1.309999999999ap+7%float.
Definition len_1048_7 : float := 0x1.062cccccccccdp+10%float.

(** A route over one waypoint: 152.3 m to the waypoint, 1048.7 m on. *)
Definition two_legs : list (Leg (num:=float)) :=
  [ sample_leg 0 (one_edge_path 10 20 100 len_152_3);
    sample_leg 1 (one_edge_path 20 30 200 len_1048_7) ].

(** A small network store: tags, and edges whose geometry is given by its
    ground distance in metres to the centre of the only avoid zone used. *)
Definition sample_configuration : list ConfigurationRow :=
  [ {| c_tag_id := 1; c_tag_value := "motorway" |};
    {| c_tag_id := 2; c_tag_value := "motorway_link" |};
    {| c_tag_id := 3; c_tag_value := "residential" |};
    {| c_tag_id := 4; c_tag_value := "primary" |};
    {| c_tag_id := 5; c_tag_value := "tunnel" |} ].

Definition sample_intersects (g : float) (b : Buffer (num:=float)) : bool :=
  PrimFloat.leb g (buf_radiusMeters b).

(** A primary road 800 m from the zone centre. *)
Definition way_primary_far : Way (num:=float) float :=
  {| gid := 1; tag_id := Some 4; cost_s := Some 12.5%float; the_geom := 800%float |}.

(** A primary road 100 m from the zone centre, without travel time. *)
Definition way_primary_near : Way (num:=float) float :=
  {| gid := 2; tag_id := Some 4; cost_s := None; the_geom := 100%float |}.

(** A motorway 800 m from the zone centre, without travel time. *)
Definition way_motorway : Way (num:=float) float :=
  {| gid := 3; tag_id := Some 1; cost_s := None; the_geom := 800%float |}.

Definition sample_request (motorways : bool) (width height : option float)
    (areas : list (AvoidArea (num:=float))) : Request (num:=float) :=
  {| startLat := Some 33.5%float; startLon := Some 133.5%float;
     endLat := Some 34.25%float; endLon := Some 134.25%float;
     waypoints := [{| wp_lat := Some 33.75%float; wp_lon := Some 133.75%float |}];
     avoidMotorways := motorways;
     vehicleWidth := width;
     vehicleHeight := height;
     avoidAreas := areas |}.

(** An avoid zone with the radius left unset, and one with radius 0. *)
Definition zone_unset : AvoidArea (num:=float) :=
  {| area_lat := 33.625%float; area_lon := 133.625%float; radius := None |}.

Definition zone_zero : AvoidArea (num:=float) :=
  {| area_lat := 33.625%float; area_lon := 133.625%float;
     radius := Some PrimFloat.zero |}.

(** A store that knows a vertex at the latitudes 33.5, 33.75 and 34.25, and
    a graph engine that finds both legs by distance but only the first by
    time (the edge of the second leg has no travel time). *)
Definition sample_vertex (x : option float) : result (list (VertexRow (num:=float))) :=
  match x with
  | Some v =>
      if PrimFloat.eqb v 33.5%float
      then Ok [{| vertex_id := 10; vertex_distance := 1%float |}]
      else if PrimFloat.eqb v 33.75%float
      then Ok [{| vertex_id := 20; vertex_distance := 2%float |}]
      else if PrimFloat.eqb v 34.25%float
      then Ok [{| vertex_id := 30; vertex_distance := 3%float |}]
      else Ok []
  | None => Ok []
  end.

Definition sample_db : Db (num:=float) :=
  {| nearest_rows := fun _ y => sample_vertex y;
     route_rows := fun rt _ a b =>
       match rt, a, b with
       | _, Some 10, Some 20 => Ok (one_edge_path 10 20 100 len_152_3)
       | shortest, Some 20, Some 30 => Ok (one_edge_path 20 30 200 len_1048_7)
       | _, _, _ => Ok []
       end |}.

(** The sample request with a first waypoint far from every vertex. *)
Definition lost_request : Request (num:=float) :=
  {| startLat := Some 33.5%float; startLon := Some 133.5%float;
     endLat := Some 34.25%float; endLon := Some 134.25%float;
     waypoints := [{| wp_lat := Some 35%float; wp_lon := Some 135%float |};
                   {| wp_lat := Some 33.75%float; wp_lon := Some 133.75%float |}];
     avoidMotorways := false; vehicleWidth := None; vehicleHeight := None;
     avoidAreas := [] |}.

(** A request whose start lies on the equator. *)
Definition equator_request : Request (num:=float) :=
  {| startLat := Some PrimFloat.zero; startLon := Some 133.5%float;
     endLat := Some 34.25%float; endLon := Some 134.25%float;
     waypoints := [];
     avoidMotorways := false; vehicleWidth := None; vehicleHeight := None;
     avoidAreas := [] |}.

(** The same store with the lookup at latitude 33.75 rejected. *)
Definition failing_db : Db (num:=float) :=
  {| nearest_rows := fun _ y =>
       match y with
       | Some v => if PrimFloat.eqb v 33.75%float then Throw else sample_vertex y
       | None => sample_vertex y
       end;
     route_rows := route_rows sample_db |}.


(** A store for the single-leg endpoints: the same vertices, and one
    path of one edge from vertex 10 to vertex 30. *)
Definition legacy_path : list (Legacy.Row (num:=float)) :=
  [ {| Legacy.seq := 1; Legacy.path_seq := 1; Legacy.node := 10;
       Legacy.edge := 100; Legacy.cost := len_152_3;
       Legacy.agg_cost := PrimFloat.zero; Legacy.geom := Some "{}";
       Legacy.name := None; Legacy.length_m := Some len_152_3 |};
    {| Legacy.seq := 2; Legacy.path_seq := 2; Legacy.node := 30;
       Legacy.edge := -1; Legacy.cost := PrimFloat.zero;
       Legacy.agg_cost := len_152_3; Legacy.geom := None;
       Legacy.name := None; Legacy.length_m := None |} ].

Definition legacy_db : Legacy.Db (num:=float) :=
  {| Legacy.vertex_rows := fun _ y => sample_vertex y;
     Legacy.route_rows := fun a b =>
       if Z.eqb a 10 && Z.eqb b 30 then Ok legacy_path else Ok [];
     Legacy.nearest_rows := fun _ _ => Ok [];
     Legacy.select_one := Ok tt |}.

(** The same store when it is down. *)
Definition legacy_db_down : Legacy.Db (num:=float) :=
  {| Legacy.vertex_rows := fun _ _ => Throw;
     Legacy.route_rows := fun _ _ => Throw;
     Legacy.nearest_rows := fun _ _ => Throw;
     Legacy.select_one := Throw |}.

(** The same store with the route query rejected. *)
Definition legacy_db_route_down : Legacy.Db (num:=float) :=
  {| Legacy.vertex_rows := fun _ y => sample_vertex y;
     Legacy.route_rows := fun _ _ => Throw;
     Legacy.nearest_rows := fun _ _ => Ok [];
     Legacy.select_one := Ok tt |}.

Definition legacy_body : Legacy.JsonBody (num:=float) :=
  {| Legacy.startLat := Some 33.5%float; Legacy.startLon := Some 133.5%float;
     Legacy.endLat := Some 34.25%float; Legacy.endLon := Some 134.25%float;
     Legacy.lat := None; Legacy.lon := None |}.

(** The page after a click for the start and a click for the end. *)
Definition sample_page : Page.State (num:=float) string :=
  Page.run (Page.init string)
    [Page.MapClick string 133.5%float 33.5%float;
     Page.MapClick string 134.25%float 34.25%float].

(** * The route stitcher *)

Section StitcherFacts.

Context {num : Type} {JN : JsNumber num}.
Variable Json : Type.
Variable JSON_parse : string -> option Json.

Lemma mkSegment_total off tc lc fi (r : Row (num:=num)) :
  geom_parses JSON_parse r -> exists s, mkSegment JSON_parse off tc lc fi r = Ok s.
Proof.
  unfold geom_parses, mkSegment. intros H.
  destruct (parse_geom JSON_parse (geom r)) as [g|]; [|congruence].
  simpl. eauto.
Qed.

Lemma mkSegment_fields off tc lc fi (r : Row (num:=num)) s :
  mkSegment JSON_parse off tc lc fi r = Ok s ->
  sequence s = off + seq r /\
  accumulatedCost s = nadd (nsub tc lc) (agg_cost r) /\
  legIndex s = fi.
Proof.
  unfold mkSegment. destruct (parse_geom JSON_parse (geom r)); simpl; [|discriminate].
  intros [= <-]. simpl. auto.
Qed.

(** The rows of one leg are pushed in order behind what is there. *)
Lemma push_rows_app off tc lc fi rs : forall acc segs,
  push_rows JSON_parse off tc lc fi rs acc = Ok segs ->
  exists news, segs = acc ++ news /\
    Forall2 (fun r s => mkSegment JSON_parse off tc lc fi r = Ok s) rs news.
Proof.
  induction rs as [|r rs IH]; simpl; intros acc segs H.
  - injection H as <-. exists []. rewrite app_nil_r. auto.
  - destruct (mkSegment JSON_parse off tc lc fi r) as [s|] eqn:E; simpl in H; [|discriminate].
    apply IH in H. destruct H as (news & -> & F).
    exists (s :: news). rewrite <- app_assoc. simpl. auto.
Qed.

Lemma push_rows_total off tc lc fi rs : forall acc,
  Forall (geom_parses JSON_parse) rs ->
  exists segs, push_rows JSON_parse off tc lc fi rs acc = Ok segs.
Proof.
  induction rs as [|r rs IH]; simpl; intros acc H.
  - eauto.
  - inversion H as [|? ? Hr Hrs]; subst.
    destruct (mkSegment_total off tc lc fi Hr) as [s ->]. simpl. auto.
Qed.

Lemma stitch_legs_total ls : forall st,
  geoms_parse JSON_parse ls ->
  exists st', stitch_legs JSON_parse ls st = Ok st'.
Proof.
  induction ls as [|l ls IH]; simpl; intros st H.
  - eauto.
  - inversion H as [|? ? Hl Hls]; subst. unfold stitch_leg.
    destruct (push_rows_total (sequenceOffset st)
                (nadd (totalCost st) (leg_cost (rows l))) (leg_cost (rows l))
                (fromIndex l) (allSegments st) Hl) as [segs ->].
    simpl. auto.
Qed.

Lemma Forall2_map_field {X} (p : Segment (num:=num) Json -> X) (g : Row (num:=num) -> X)
    (P : Row (num:=num) -> Segment (num:=num) Json -> Prop) rs news :
  (forall r s, P r s -> p s = g r) ->
  Forall2 P rs news -> map p news = map g rs.
Proof.
  intros Hp F. induction F as [|r s rs news H _ IH]; simpl; [reflexivity|].
  rewrite (Hp _ _ H), IH. reflexivity.
Qed.

(** The end state of the loop: the offsets, and every field of the new
    segments. *)
Lemma stitch_legs_view {X} (p : Segment (num:=num) Json -> X)
    (f : Z -> num -> num -> Row (num:=num) -> X) :
  (forall off tc lc fi r s,
      mkSegment JSON_parse off tc lc fi r = Ok s -> p s = f off tc lc r) ->
  forall ls st st',
  stitch_legs JSON_parse ls st = Ok st' ->
  map p (allSegments st')
    = map p (allSegments st) ++ stitched f (sequenceOffset st) (totalCost st) ls
  /\ totalCost st' = total_after (totalCost st) ls
  /\ sequenceOffset st'
     = sequenceOffset st + Z.of_nat (rows_before (List.length ls) ls).
Proof.
  intros Hp. induction ls as [|l ls IH]; simpl; intros st st' H.
  - injection H as <-. rewrite app_nil_r. unfold rows_before. simpl.
    repeat split. lia.
  - unfold stitch_leg in H.
    destruct (push_rows JSON_parse (sequenceOffset st)
                (nadd (totalCost st) (leg_cost (rows l))) (leg_cost (rows l))
                (fromIndex l) (rows l) (allSegments st)) as [segs|] eqn:E;
      simpl in H; [|discriminate].
    apply push_rows_app in E. destruct E as (news & -> & F).
    apply IH in H. simpl in H. destruct H as (H1 & H2 & H3).
    rewrite H1, H2, H3. repeat split.
    + rewrite map_app, <- app_assoc. f_equal. f_equal.
      eapply Forall2_map_field; [|exact F]. intros r s. apply Hp.
    + unfold rows_before. simpl. lia.
Qed.

Lemma stitched_length {X} (f : Z -> num -> num -> Row (num:=num) -> X) ls :
  forall off t, List.length (stitched f off t ls) = rows_before (List.length ls) ls.
Proof.
  induction ls as [|l ls IH]; simpl; intros off t; [reflexivity|].
  rewrite length_app, length_map, IH. reflexivity.
Qed.

(** Row [j] of leg [k] lands at position [rows_before k ls + j]. *)
Lemma stitched_nth {X} (f : Z -> num -> num -> Row (num:=num) -> X) ls :
  forall k off t leg j row,
  nth_error ls k = Some leg ->
  nth_error (rows leg) j = Some row ->
  nth_error (stitched f off t ls) (rows_before k ls + j)
  = Some (f (off + Z.of_nat (rows_before k ls))
            (total_after t (firstn (S k) ls)) (leg_cost (rows leg)) row).
Proof.
  induction ls as [|l ls IH]; intros k off t leg j row Hk Hj.
  - destruct k; discriminate.
  - destruct k as [|k]; simpl in Hk.
    + injection Hk as ->. unfold rows_before. simpl.
      rewrite nth_error_app1 by (rewrite length_map; apply nth_error_Some; congruence).
      rewrite nth_error_map, Hj. simpl. do 2 f_equal. lia.
    + simpl stitched.
      assert (E : (rows_before (S k) (l :: ls) + j
                   = List.length (rows l) + (rows_before k ls + j))%nat)
        by (unfold rows_before; simpl; lia).
      rewrite E, nth_error_app2 by (rewrite length_map; lia).
      rewrite length_map.
      replace (List.length (rows l) + (rows_before k ls + j) - List.length (rows l))%nat
        with (rows_before k ls + j)%nat by lia.
      rewrite (IH k _ _ leg j row Hk Hj). f_equal. f_equal.
      unfold rows_before. simpl. lia.
Qed.

Lemma zrange_app n : forall s0 m,
  zrange s0 (n + m) = zrange s0 n ++ zrange (s0 + Z.of_nat n) m.
Proof.
  induction n as [|n IH]; intros s0 m.
  - simpl. f_equal. lia.
  - cbn [Nat.add zrange app]. rewrite IH. do 3 f_equal. lia.
Qed.

Lemma zrange_shift off n : forall s0,
  map (Z.add off) (zrange s0 n) = zrange (off + s0) n.
Proof.
  induction n as [|n IH]; intros s0; simpl; [reflexivity|].
  rewrite IH. do 2 f_equal. lia.
Qed.

Lemma stitched_sequence_zrange s0 ls :
  (forall leg, In leg ls ->
     map seq (rows leg) = zrange s0 (List.length (rows leg))) ->
  forall off t,
  stitched stitched_sequence off t ls
  = zrange (off + s0) (rows_before (List.length ls) ls).
Proof.
  induction ls as [|l ls IH]; intros H off t; [reflexivity|].
  simpl stitched.
  replace (rows_before (List.length (l :: ls)) (l :: ls))
    with (List.length (rows l) + rows_before (List.length ls) ls)%nat
    by reflexivity.
  rewrite zrange_app, IH by (intros; apply H; right; assumption).
  f_equal; [|f_equal; lia].
  unfold stitched_sequence.
  rewrite <- zrange_shift, <- (H l) by (left; reflexivity).
  rewrite map_map. reflexivity.
Qed.

Lemma nth_error_map_inv {A B} (f : A -> B) l i b :
  nth_error (map f l) i = Some b ->
  exists a, nth_error l i = Some a /\ f a = b.
Proof.
  rewrite nth_error_map. destruct (nth_error l i) as [a|]; simpl; [|discriminate].
  intros [= <-]. eauto.
Qed.

(** A non-empty list of legs is formatted from the end state of the loop. *)
Lemma formatMultiLegRoute_stitch nodeIds (wps : list (Waypoint (num:=num)))
    (ls : list (Leg (num:=num))) rt st :
  ls <> [] ->
  stitch_legs JSON_parse ls (stitch_init Json) = Ok st ->
  exists v,
    formatMultiLegRoute JSON_parse nodeIds wps (Some ls) rt = Ok (Some v)
    /\ segments v = allSegments st
    /\ routeType v = rt.
Proof.
  intros Hne Hst. unfold formatMultiLegRoute.
  destruct ls as [|l0 ls0]; [congruence|].
  rewrite Hst. simpl rbind. eexists. split; [reflexivity|]. split; reflexivity.
Qed.

(** C2. Stitching a non-empty list of legs returns a variant in which the
    row [j] of leg [k] becomes the segment at position
    [rows_before k ls + j], with [sequence] equal to the running offset (the
    number of rows of the legs before [k]) plus the row's own [seq]; and when
    the rows of every leg are numbered consecutively from the same [s0], as
    the graph engine numbers them, the stitched [sequence] values are the
    consecutive integers from [s0], without gap or reset. *)
Theorem stitched_sequence_contiguous
    (nodeIds : list (option Z)) (wps : list (Waypoint (num:=num)))
    (ls : list (Leg (num:=num))) (rt : RouteType) :
  ls <> [] ->
  geoms_parse JSON_parse ls ->
  exists v,
    formatMultiLegRoute JSON_parse nodeIds wps (Some ls) rt = Ok (Some v)
    /\ List.length (segments v) = rows_before (List.length ls) ls
    /\ (forall k leg j row,
          nth_error ls k = Some leg ->
          nth_error (rows leg) j = Some row ->
          exists s,
            nth_error (segments v) (rows_before k ls + j) = Some s
            /\ sequence s = Z.of_nat (rows_before k ls) + seq row)
    /\ (forall s0,
          (forall leg, In leg ls ->
             map seq (rows leg) = zrange s0 (List.length (rows leg))) ->
          map sequence (segments v) = zrange s0 (List.length (segments v))).
Proof.
  intros Hne Hg.
  destruct (stitch_legs_total (stitch_init Json) Hg) as [st Hst].
  destruct (formatMultiLegRoute_stitch nodeIds wps rt Hne Hst) as (v & Hv & Hsegs & _).
  exists v. split; [exact Hv|]. rewrite Hsegs.
  assert (Hp : forall off tc lc fi r (s : Segment Json),
             mkSegment JSON_parse off tc lc fi r = Ok s ->
             sequence s = stitched_sequence off tc lc r)
    by (intros off tc lc fi r s H; apply (mkSegment_fields _ _ _ _ _ H)).
  destruct (stitch_legs_view sequence stitched_sequence Hp _ _ Hst)
    as (Hmap & _ & _).
  cbn [stitch_init allSegments sequenceOffset totalCost map app] in Hmap.
  assert (Hlen : List.length (allSegments st)
                 = rows_before (List.length ls) ls).
  { rewrite <- (length_map sequence), Hmap. apply stitched_length. }
  split; [exact Hlen|]. split.
  - intros k leg j row Hk Hj.
    pose proof (@stitched_nth Z stitched_sequence ls k 0 zero leg j row Hk Hj) as Hn.
    rewrite <- Hmap in Hn. apply nth_error_map_inv in Hn.
    destruct Hn as (s & Hs & Es). exists s. split; [exact Hs|].
    rewrite Es. unfold stitched_sequence. lia.
  - intros s0 Hs0. rewrite Hmap, Hlen.
    rewrite (stitched_sequence_zrange s0 ls Hs0). reflexivity.
Qed.

End StitcherFacts.

Lemma stitched_sequence_contiguous_witness :
  exists v,
    formatMultiLegRoute sample_parse [Some 10; Some 20; Some 30] [] (Some two_legs) shortest
    = Ok (Some v)
    /\ map sequence (segments v) = [1; 2; 3; 4].
Proof.
  destruct (stitched_sequence_contiguous (JSON_parse:=sample_parse)
              [Some 10; Some 20; Some 30] [] (ls:=two_legs) shortest)
    as (v & Hv & Hlen & _ & Hrun).
  - discriminate.
  - repeat constructor; discriminate.
  - exists v. split; [exact Hv|].
    rewrite (Hrun 1), Hlen; [reflexivity|].
    intros leg [<-|[<-|[]]]; reflexivity.
Defined.

(** ** Cumulative cost in binary64 *)

(** C1. Two legs as the graph engine returns them (non-empty, the
    leg-local [agg_cost] starting at 0 and non-decreasing), of 152.3 m and
    1048.7 m: the last segment of the first leg carries the cumulative cost
    152.3 and the first segment of the second leg carries
    [(152.3 + 1048.7) - 1048.7 + 0], which binary64 rounds to
    152.29999999999995.  The stitched cost decreases at the waypoint. *)
Theorem stitched_cost_decreases_at_waypoint :
  Forall (fun l => rows l <> []
                   /\ nondecreasing (fun a b => PrimFloat.leb a b = true)
                        (map agg_cost (rows l))
                   /\ option_map agg_cost (hd_error (rows l)) = Some PrimFloat.zero)
         two_legs
  /\ exists v a b,
       formatMultiLegRoute sample_parse [Some 10; Some 20; Some 30] []
         (Some two_legs) shortest = Ok (Some v)
       /\ nth_error (segments v) 1 = Some a /\ legIndex a = 0%nat
       /\ nth_error (segments v) 2 = Some b /\ legIndex b = 1%nat
       /\ accumulatedCost a = len_152_3
       /\ accumulatedCost b = 0x1.3099999999998p+7%float
       /\ PrimFloat.ltb (accumulatedCost b) (accumulatedCost a) = true.
Proof.
  split.
  - repeat constructor; try discriminate.
    + intros [|[|i]] a b Ha Hb; simpl in Ha, Hb; try discriminate.
      injection Ha as <-. injection Hb as <-. reflexivity.
    + intros [|[|i]] a b Ha Hb; simpl in Ha, Hb; try discriminate.
      injection Ha as <-. injection Hb as <-. reflexivity.
  - vm_compute. do 3 eexists. repeat split; reflexivity.
Qed.

(** * Binary64 facts *)

Lemma SFeqb_refl_not_nan x : x <> S754_nan -> SFeqb x x = true.
Proof.
  destruct x as [s|s| |s m e]; intros H; try congruence; unfold SFeqb, SFcompare.
  - destruct s; reflexivity.
  - destruct s; reflexivity.
  - destruct s; rewrite Z.compare_refl, Pos.compare_cont_refl; reflexivity.
Qed.

(** A number greater than a constant that is not negative is neither zero
    nor [NaN]: on such a comparison the guard [x && ...] changes nothing. *)
Lemma float_gt_truthy (c v : float) :
  Prim2SF c = S754_zero false \/ (exists m e, Prim2SF c = S754_finite false m e) ->
  PrimFloat.ltb c v = true -> float_truthy v = true.
Proof.
  intros Hc H. unfold float_truthy, is_zero, is_nan.
  rewrite ltb_spec in H. rewrite !eqb_spec.
  replace (Prim2SF 0%float) with (S754_zero false) by reflexivity.
  destruct (Prim2SF v) as [s|s| |s m e] eqn:E.
  - exfalso. destruct Hc as [Hc|(m & e & Hc)]; rewrite Hc in H; destruct s; discriminate.
  - destruct s; reflexivity.
  - exfalso. destruct Hc as [Hc|(m & e & Hc)]; rewrite Hc in H; discriminate.
  - rewrite SFeqb_refl_not_nan by discriminate. destruct s; reflexivity.
Qed.

Lemma float_gt_lit_truthy (q : Q) (v : float) :
  (q = 5 # 2 \/ q = 7 # 2)%Q ->
  ngt v (nlit q) = true -> ntruthy v = true.
Proof.
  intros Hq. apply float_gt_truthy. right.
  destruct Hq as [-> | ->]; do 2 eexists; vm_compute; reflexivity.
Qed.

(** * The constraint compiler *)

Section PredicateFacts.

Context {num : Type} {JN : JsNumber num}.
Variable Geometry : Type.
Variable configuration : list ConfigurationRow.
Variable ST_Intersects_Buffer : Geometry -> Buffer (num:=num) -> bool.

Local Abbreviation way := (Way (num:=num) Geometry).
Local Abbreviation admits' := (admits (num:=num) configuration ST_Intersects_Buffer).
Local Abbreviation holds' := (holds (num:=num) configuration ST_Intersects_Buffer).
Local Abbreviation tagged' := (tagged (num:=num) (Geometry:=Geometry) configuration).

Lemma admits_app c1 c2 (w : way) :
  admits' (c1 ++ c2) w = admits' c1 w && admits' c2 w.
Proof. unfold admits. apply forallb_app. Qed.

Lemma admits_optional (b : bool) c (w : way) :
  admits' (if b then [c] else []) w = (if b then holds' w c else true).
Proof. destruct b; simpl; [apply andb_true_r|reflexivity]. Qed.

(** An edge is in none of the tags [vs] when it is tagged by none of them. *)
Lemma tag_value_in_false (w : way) vs :
  tag_value_in (num:=num) configuration w vs = false
  <-> forall v, In v vs -> tagged' w v = false.
Proof.
  unfold tagged, tag_value_in. split.
  - intros H v Hv. apply not_true_is_false. intros T.
    apply not_true_iff_false in H. apply H.
    apply existsb_exists in T. destruct T as (c & Hc & T).
    apply existsb_exists. exists c. split; [assumption|].
    apply andb_true_iff in T. destruct T as [T1 T2].
    rewrite T1. simpl. apply existsb_exists. exists v. split; [assumption|].
    simpl in T2. rewrite orb_false_r in T2. exact T2.
  - intros H. apply not_true_is_false. intros T.
    apply existsb_exists in T. destruct T as (c & Hc & T).
    apply andb_true_iff in T. destruct T as [T1 T2].
    apply existsb_exists in T2. destruct T2 as (v & Hv & T2).
    specialize (H v Hv). apply not_true_iff_false in H. apply H.
    apply existsb_exists. exists c. split; [assumption|].
    rewrite T1. simpl. rewrite T2. reflexivity.
Qed.

Lemma holds_tags (w : way) vs :
  holds' w (TagValueNotIn vs) = true
  <-> forall v, In v vs -> tagged' w v = false.
Proof.
  simpl. rewrite negb_true_iff. apply tag_value_in_false.
Qed.

Lemma holds_avoid (w : way) bs :
  holds' w (AvoidConditions bs) = true
  <-> forall b, In b bs -> ST_Intersects_Buffer (the_geom w) b = false.
Proof.
  simpl. rewrite forallb_forall. split; intros H b Hb.
  - apply negb_true_iff. apply H. assumption.
  - apply negb_true_iff. apply H. assumption.
Qed.

(** The where clause, condition by condition. *)
Lemma admits_buildWhereClause (req : Request (num:=num)) base (w : way) :
  admits' (buildWhereClause req base) w
  = (match base with
     | BaseCostSIsNotNull => holds' w CostSIsNotNull
     | NoBaseWhere => true
     end)
    && ((if avoidMotorways req
         then holds' w (TagValueNotIn ["motorway"; "motorway_link"]) else true)
    && ((if given_and_gt (vehicleWidth req) (nlit (5 # 2))
         then holds' w (TagValueNotIn ["service"; "residential"; "living_street"; "track"])
         else true)
    && ((if given_and_gt (vehicleHeight req) (nlit (7 # 2))
         then holds' w (TagValueNotIn ["tunnel"]) else true)
    && holds' w (AvoidConditions (map avoid_buffer (avoidAreas req)))))).
Proof.
  unfold buildWhereClause. rewrite !admits_app, !admits_optional.
  f_equal; [destruct base; simpl; [reflexivity|apply andb_true_r]|].
  do 3 f_equal.
  destruct (avoidAreas req); reflexivity.
Qed.

Lemma forallb_Permutation {A} (f : A -> bool) xs ys :
  Permutation xs ys -> forallb f xs = forallb f ys.
Proof.
  induction 1 as [|x xs ys _ IH|x y xs|xs ys zs _ IH1 _ IH2]; simpl.
  - reflexivity.
  - rewrite IH. reflexivity.
  - rewrite !andb_assoc, (andb_comm (f y)). reflexivity.
  - congruence.
Qed.

Lemma given_and_gt_true (x : option num) c :
  (forall v, ngt v c = true -> ntruthy v = true) ->
  given_and_gt x c = true <-> exists v, x = Some v /\ ngt v c = true.
Proof.
  intros Hc. unfold given_and_gt. destruct x as [v|].
  - rewrite andb_true_iff. split.
    + intros [_ H]. eauto.
    + intros (v' & [= <-] & H). auto.
  - split; [discriminate|]. intros (v & H & _). discriminate.
Qed.

Lemma in_optional {A} (b : bool) (c x : A) :
  In x (if b then [c] else []) -> b = true /\ x = c.
Proof. destruct b; simpl; intuition congruence. Qed.

Lemma and_iff_both (A B C D : Prop) :
  (A <-> B) -> (C <-> D) -> (A /\ C <-> B /\ D).
Proof. tauto. Qed.

(** The text of the where clause when only motorways are avoided. *)
Example render_where_motorways (show : num -> string) (req : Request (num:=num)) :
  avoidMotorways req = true ->
  vehicleWidth req = None -> vehicleHeight req = None -> avoidAreas req = [] ->
  render_where show (whereClause req)
  = "WHERE NOT EXISTS (SELECT 1 FROM configuration c WHERE c.tag_id = ways.tag_id AND c.tag_value IN (''motorway'', ''motorway_link''))".
Proof.
  intros Hm Hw Hh Ha. unfold whereClause, buildWhereClause.
  rewrite Hm, Hw, Hh, Ha. reflexivity.
Qed.

(** C6. The compiled predicate admits an edge exactly when: with
    [avoidMotorways], the edge is tagged neither [motorway] nor
    [motorway_link]; with a vehicle width given and above 2.5, none of
    [service], [residential], [living_street], [track]; with a vehicle height
    given and above 3.5, not [tunnel]; and it meets the buffer of no avoid
    zone.  The conditions are conjoined, so their order is immaterial, and
    the clause of a constraint whose trigger does not hold is not in the
    list. *)
Theorem where_clause_rules (req : Request (num:=num)) (w : way) :
  (forall q v, (q = 5 # 2 \/ q = 7 # 2)%Q ->
     ngt v (nlit q) = true -> ntruthy v = true) ->
  (admits' (whereClause req) w = true <->
     (avoidMotorways req = true ->
        tagged' w "motorway" = false /\ tagged' w "motorway_link" = false)
     /\ (forall v, vehicleWidth req = Some v -> ngt v (nlit (5 # 2)) = true ->
          tagged' w "service" = false /\ tagged' w "residential" = false
          /\ tagged' w "living_street" = false /\ tagged' w "track" = false)
     /\ (forall v, vehicleHeight req = Some v -> ngt v (nlit (7 # 2)) = true ->
          tagged' w "tunnel" = false)
     /\ (forall area, In area (avoidAreas req) ->
          ST_Intersects_Buffer (the_geom w) (avoid_buffer area) = false))
  /\ (forall conditions,
        Permutation conditions (whereClause req) ->
        admits' conditions w = admits' (whereClause req) w)
  /\ (avoidMotorways req = false ->
      ~ In (TagValueNotIn ["motorway"; "motorway_link"]) (whereClause req))
  /\ ((forall v, vehicleWidth req = Some v -> ngt v (nlit (5 # 2)) = false) ->
      ~ In (TagValueNotIn ["service"; "residential"; "living_street"; "track"])
           (whereClause req))
  /\ ((forall v, vehicleHeight req = Some v -> ngt v (nlit (7 # 2)) = false) ->
      ~ In (TagValueNotIn ["tunnel"]) (whereClause req)).
Proof.
  intros Hgt.
  assert (Hw := @given_and_gt_true (vehicleWidth req) (nlit (5 # 2))
                  (fun v => Hgt _ v (or_introl eq_refl))).
  assert (Hh := @given_and_gt_true (vehicleHeight req) (nlit (7 # 2))
                  (fun v => Hgt _ v (or_intror eq_refl))).
  split; [|split; [|repeat split]].
  - unfold whereClause. rewrite admits_buildWhereClause.
    cbv beta iota. rewrite andb_true_l, !andb_true_iff.
    apply and_iff_both; [|apply and_iff_both; [|apply and_iff_both]].
    + destruct (avoidMotorways req).
      * rewrite holds_tags. split.
        -- intros H _. split; apply H; simpl; auto.
        -- intros H v [<-|[<-|[]]]; apply H; reflexivity.
      * split; [discriminate|reflexivity].
    + destruct (given_and_gt (vehicleWidth req) (nlit (5 # 2))) eqn:E.
      * rewrite holds_tags. split.
        -- intros H v _ _. repeat split; apply H; simpl; auto.
        -- destruct (proj1 Hw eq_refl) as (v & Ev & Hv).
           intros H x Hx. specialize (H v Ev Hv).
           destruct Hx as [<-|[<-|[<-|[<-|[]]]]]; apply H.
      * split; [|reflexivity]. intros _ v Ev Hv.
        assert (T : false = true) by (apply Hw; eauto).
        discriminate.
    + destruct (given_and_gt (vehicleHeight req) (nlit (7 # 2))) eqn:E.
      * rewrite holds_tags. split.
        -- intros H v _ _. apply H; simpl; auto.
        -- destruct (proj1 Hh eq_refl) as (v & Ev & Hv).
           intros H x [<-|[]]. apply (H v Ev Hv).
      * split; [|reflexivity]. intros _ v Ev Hv.
        assert (T : false = true) by (apply Hh; eauto).
        discriminate.
    + rewrite holds_avoid. split.
      * intros H area Ha. apply H. apply in_map. assumption.
      * intros H b Hb. apply in_map_iff in Hb. destruct Hb as (area & <- & Ha).
        apply H. assumption.
  - intros conditions HP. unfold admits. apply forallb_Permutation. assumption.
  - intros Hm Hin. unfold whereClause, buildWhereClause in Hin. simpl app in Hin.
    repeat (apply in_app_or in Hin; destruct Hin as [Hin|Hin]);
      apply in_optional in Hin; destruct Hin as [T E]; congruence.
  - intros Hm Hin. unfold whereClause, buildWhereClause in Hin. simpl app in Hin.
    repeat (apply in_app_or in Hin; destruct Hin as [Hin|Hin]);
      apply in_optional in Hin; destruct Hin as [T E]; try congruence.
    apply Hw in T. destruct T as (v & Ev & Hv). rewrite (Hm v Ev) in Hv. discriminate.
  - intros Hm Hin. unfold whereClause, buildWhereClause in Hin. simpl app in Hin.
    repeat (apply in_app_or in Hin; destruct Hin as [Hin|Hin]);
      apply in_optional in Hin; destruct Hin as [T E]; try congruence.
    apply Hh in T. destruct T as (v & Ev & Hv). rewrite (Hm v Ev) in Hv. discriminate.
Qed.

Lemma holds_avoid_incl (w : way) bs1 bs2 :
  incl bs1 bs2 ->
  holds' w (AvoidConditions bs2) = true -> holds' w (AvoidConditions bs1) = true.
Proof.
  rewrite !holds_avoid. intros Hi H b Hb. apply H, Hi, Hb.
Qed.

Lemma forallb_map_comp {A B} (f : B -> bool) (g : A -> B) xs :
  forallb f (map g xs) = forallb (fun x => f (g x)) xs.
Proof. induction xs as [|x xs IH]; simpl; [reflexivity|]. rewrite IH. reflexivity. Qed.

(** C7. When [req2] enables every constraint that [req1] enables, each edge
    the predicate of [req2] admits is admitted by the predicate of [req1],
    for the distance and for the time variant alike. *)
Theorem more_constraints_fewer_edges
    (req1 req2 : Request (num:=num)) (base : BaseWhere) (w : way) :
  enables_superset req1 req2 ->
  admits' (buildWhereClause req2 base) w = true ->
  admits' (buildWhereClause req1 base) w = true.
Proof.
  intros (Hm & Hw & Hh & Ha).
  rewrite !admits_buildWhereClause, !andb_true_iff.
  intros (H0 & H1 & H2 & H3 & H4). repeat split.
  - exact H0.
  - destruct (avoidMotorways req1); [|reflexivity].
    rewrite Hm in H1 by reflexivity. exact H1.
  - destruct (given_and_gt (vehicleWidth req1) (nlit (5 # 2))); [|reflexivity].
    rewrite Hw in H2 by reflexivity. exact H2.
  - destruct (given_and_gt (vehicleHeight req1) (nlit (7 # 2))); [|reflexivity].
    rewrite Hh in H3 by reflexivity. exact H3.
  - revert H4. apply holds_avoid_incl. apply incl_map. exact Ha.
Qed.

(** C8, as the code has it. The avoid zones contribute to the predicate
    exactly the requirement that the edge geometry meets the buffer of no
    zone, and nothing else of the clause depends on them.  The condition
    sent to the store for a zone is the text
    [NOT ST_Intersects(ways.the_geom, ST_Buffer(ST_SetSRID(ST_MakePoint(lon,
    lat), 4326)::geography, r)::geometry)]: the buffer is taken by the
    store on the geography type, around the zone's own centre, with [r]
    handed over in metres as it is (no division by 111000, no degrees);
    [r] is the zone's radius when it is set and not zero (nor NaN), and
    500 otherwise.  The texts of the zones are joined by [AND]. *)
Theorem avoid_zone_buffers (req : Request (num:=num)) (base : BaseWhere) (w : way) :
  admits' (buildWhereClause req base) w
  = admits' (buildWhereClause (without_areas req) base) w
    && forallb (fun area =>
                  negb (ST_Intersects_Buffer (the_geom w) (avoid_buffer area)))
               (avoidAreas req)
  /\ (forall area : AvoidArea (num:=num),
        buf_lon (avoid_buffer area) = area_lon area
        /\ buf_lat (avoid_buffer area) = area_lat area
        /\ buf_radiusMeters (avoid_buffer area)
           = match radius area with
             | Some r => if ntruthy r then r else nlit 500
             | None => nlit 500
             end)
  /\ buildWhereClause req base
     = buildWhereClause (without_areas req) base
       ++ match avoidAreas req with
          | [] => []
          | _ :: _ => [AvoidConditions (map avoid_buffer (avoidAreas req))]
          end
  /\ forall String_of_num : num -> string,
       render_condition String_of_num
         (AvoidConditions (map avoid_buffer (avoidAreas req)))
       = join " AND "
           (map (fun area =>
                   "NOT ST_Intersects(ways.the_geom, ST_Buffer(ST_SetSRID(ST_MakePoint("
                   ++ String_of_num (area_lon area) ++ ", "
                   ++ String_of_num (area_lat area)
                   ++ "), 4326)::geography, "
                   ++ String_of_num
                        match radius area with
                        | Some r => if ntruthy r then r else nlit 500
                        | None => nlit 500
                        end
                   ++ ")::geometry)")%string
                (avoidAreas req)).
Proof.
  split; [|split; [|split]].
  - rewrite !admits_buildWhereClause. cbn [without_areas avoidMotorways
      vehicleWidth vehicleHeight avoidAreas map].
    replace (holds' w (AvoidConditions [])) with true by reflexivity.
    rewrite andb_true_r. cbn [holds]. rewrite forallb_map_comp.
    rewrite <- !andb_assoc. reflexivity.
  - intros area. repeat split.
  - unfold buildWhereClause.
    cbn [without_areas avoidMotorways vehicleWidth vehicleHeight avoidAreas
         List.length Nat.ltb Nat.leb].
    rewrite !app_nil_r, <- !app_assoc.
    destruct (avoidAreas req) as [|a rest]; [rewrite !app_nil_r|]; reflexivity.
  - intros String_of_num. cbn [render_condition]. rewrite map_map.
    reflexivity.
Qed.

(** C9. The where clause of the time query is [cost_s IS NOT NULL] put in
    front of the where clause of the distance query, and each query is sent
    with its own clause; so the time predicate admits an edge exactly when
    the distance predicate does and the edge has a travel time, while the
    distance predicate does not read the travel time at all. *)
Theorem time_predicate_requires_cost_s (req : Request (num:=num)) (w : way) :
  whereClauseWithCostMinutes req = CostSIsNotNull :: whereClause req
  /\ admits' (whereClauseWithCostMinutes req) w
     = match cost_s w with Some _ => true | None => false end
       && admits' (whereClause req) w
  /\ (cost_s w = None -> admits' (whereClauseWithCostMinutes req) w = false)
  /\ (forall c,
        admits' (whereClause req)
          {| gid := gid w; tag_id := tag_id w; cost_s := c; the_geom := the_geom w |}
        = admits' (whereClause req) w)
  /\ (forall db fromNodeId toNodeId log,
        snd (calculateLegRoute db req fromNodeId toNodeId fastest log)
        = log ++ [fastestRouteQuery (whereClauseWithCostMinutes req) fromNodeId toNodeId]
        /\ snd (calculateLegRoute db req fromNodeId toNodeId shortest log)
           = log ++ [shortestRouteQuery (whereClause req) fromNodeId toNodeId]).
Proof.
  assert (E : whereClauseWithCostMinutes req = CostSIsNotNull :: whereClause req)
    by reflexivity.
  split; [exact E|]. split; [rewrite E; reflexivity|]. split; [|split].
  - intros H. rewrite E. simpl. rewrite H. reflexivity.
  - intros c. unfold whereClause. rewrite !admits_buildWhereClause.
    destruct w. reflexivity.
  - intros db fromNodeId toNodeId log. split; reflexivity.
Qed.

End PredicateFacts.

(** C8, as worded: a zone with its radius set to 0 would exclude only what
    meets a buffer of radius 0; the compiled predicate buffers it by 500 m
    and excludes an edge 100 m away. *)
Lemma avoid_zone_radius_zero_counterexample :
  ~ (forall (area : AvoidArea (num:=float)) (w : Way (num:=float) float),
       admits sample_configuration sample_intersects
         (whereClause (sample_request false None None [area])) w
       = negb (sample_intersects (the_geom w)
                 {| buf_lon := area_lon area;
                    buf_lat := area_lat area;
                    buf_radiusMeters := radius_default_when_unset area |})).
Proof.
  intros H. specialize (H zone_zero way_primary_near).
  vm_compute in H. discriminate.
Qed.

Lemma where_clause_rules_witness :
  admits sample_configuration sample_intersects
    (whereClause (sample_request true (Some 3%float) (Some 4%float) [zone_unset]))
    way_primary_far = true
  /\ admits sample_configuration sample_intersects
       (whereClause (sample_request true (Some 3%float) (Some 4%float) [zone_unset]))
       way_motorway = false.
Proof.
  pose proof (fun w => proj1 (where_clause_rules sample_configuration sample_intersects
                (sample_request true (Some 3%float) (Some 4%float) [zone_unset]) w
                float_gt_lit_truthy)) as R.
  split.
  - apply R. vm_compute. repeat split; try reflexivity.
    intros area [<-|[]]. reflexivity.
  - apply not_true_is_false. intros T. apply R in T.
    destruct T as [T _]. destruct (T eq_refl) as [T1 _]. vm_compute in T1. discriminate.
Defined.

Lemma more_constraints_fewer_edges_witness :
  admits sample_configuration sample_intersects
    (buildWhereClause (sample_request false None None []) NoBaseWhere)
    way_primary_far = true.
Proof.
  apply (more_constraints_fewer_edges sample_configuration sample_intersects
           (req1 := sample_request false None None [])
           (req2 := sample_request true (Some 3%float) None [zone_unset])).
  - repeat split; try discriminate. intros a [].
  - vm_compute. reflexivity.
Defined.

(** * The composer *)

Section ComposerFacts.

Context {num : Type} {JN : JsNumber num}.
Variable Json : Type.
Variable JSON_parse : string -> option Json.
Variable db : Db (num:=num).
Variable req : Request (num:=num).

(** C10. A request whose start or end latitude or longitude is a falsy
    number, the number 0 among them, is answered with status 400 and no
    query is issued. *)
Theorem zero_coordinate_is_rejected (x : num) :
  ntruthy x = false ->
  startLat req = Some x \/ startLon req = Some x
  \/ endLat req = Some x \/ endLon req = Some x ->
  POST JSON_parse db req
  = ({| status := 400;
        body := ErrorBody "開始地点と終了地点の座標が必要です" None |}, []).
Proof.
  intros Hx H. unfold POST, POST_try.
  assert (E : falsy (startLat req) || falsy (startLon req)
              || falsy (endLat req) || falsy (endLon req) = true).
  { assert (F : falsy (Some x) = true) by (simpl; rewrite Hx; reflexivity).
    destruct H as [H|[H|[H|H]]]; rewrite H, F;
      rewrite ?orb_true_r, ?orb_true_l; reflexivity. }
  rewrite E. reflexivity.
Qed.

Lemma promise_all_resolve pts : forall log,
  (forall p, In p pts -> nearest_rows db (lon p) (lat p) <> Throw) ->
  promise_all (map (resolve_point db) pts) log
  = (Ok (map (node_result db) pts), log ++ nearest_queries pts).
Proof.
  induction pts as [|p pts IH]; intros log H; simpl.
  - rewrite app_nil_r. reflexivity.
  - unfold resolve_point at 1.
    rewrite IH by (intros; apply H; right; assumption).
    unfold node_result at 2.
    destruct (nearest_rows db (lon p) (lat p)) as [rws|] eqn:E.
    + simpl. rewrite <- app_assoc. reflexivity.
    + exfalso. apply (H p); [left; reflexivity|assumption].
Qed.

Lemma filter_not_found pts :
  (forall p, In p pts -> nearest_rows db (lon p) (lat p) <> Throw) ->
  filter (fun n => negb (found n)) (map (node_result db) pts)
  = map (node_result db) (filter (unresolved db) pts).
Proof.
  induction pts as [|p pts IH]; intros H; simpl; [reflexivity|].
  rewrite IH by (intros; apply H; right; assumption).
  assert (E : negb (found (node_result db p)) = unresolved db p).
  { unfold node_result, unresolved.
    destruct (nearest_rows db (lon p) (lat p)) as [[|r rs]|] eqn:E;
      [reflexivity|reflexivity|].
    exfalso. apply (H p); [left; reflexivity|assumption]. }
  rewrite E. destruct (unresolved db p); reflexivity.
Qed.

Lemma nr_point_node_result p : nr_point (node_result db p) = p.
Proof.
  unfold node_result. destruct (nearest_rows db (lon p) (lat p)); reflexivity.
Qed.

Lemma type_mapi_waypoints (wps : list (Waypoint (num:=num))) : forall i,
  map type
    (mapi_from (fun wp idx =>
                  {| lat := wp_lat wp; lon := wp_lon wp;
                     type := "waypoint-" ++ string_of_nat idx |}) i wps)
  = map (fun idx => ("waypoint-" ++ string_of_nat idx)%string) (List.seq i (List.length wps)).
Proof.
  induction wps as [|wp wps IH]; intros i; simpl; [reflexivity|].
  rewrite IH. reflexivity.
Qed.

(** C5. When the coordinates are present, no lookup fails and some point
    has no nearby vertex, the handler answers 404 with the labels of exactly
    the unresolved points, in input order, and the only queries issued are
    the nearest-vertex lookups of the points: no route query.  The labels
    are [start], [waypoint-0], [waypoint-1], ..., [end]. *)
Theorem unresolved_points_are_reported :
  coordinates_present req ->
  (forall p, In p (allPoints req) -> nearest_rows db (lon p) (lat p) <> Throw) ->
  (exists p, In p (allPoints req) /\ unresolved db p = true) ->
  POST JSON_parse db req
  = ({| status := 404;
        body := ErrorBody "指定された座標の近くにノードが見つかりません"
                  (Some (map type (filter (unresolved db) (allPoints req)))) |},
     nearest_queries (allPoints req))
  /\ map type (allPoints req)
     = ["start"]
       ++ map (fun idx => ("waypoint-" ++ string_of_nat idx)%string)
            (List.seq 0 (List.length (waypoints req)))
       ++ ["end"].
Proof.
  intros (H1 & H2 & H3 & H4) Hdb (p & Hp & Hu). split.
  - unfold POST, POST_try. rewrite H1, H2, H3, H4. cbn [orb].
    unfold bind. rewrite (@promise_all_resolve (allPoints req) [] Hdb).
    rewrite (@filter_not_found (allPoints req) Hdb).
    assert (Hin : In p (filter (unresolved db) (allPoints req)))
      by (apply filter_In; split; assumption).
    destruct (filter (unresolved db) (allPoints req)) as [|q qs] eqn:E;
      [destruct Hin|].
    cbn [map List.length Nat.ltb Nat.leb ret app].
    rewrite map_map, nr_point_node_result.
    do 5 f_equal. apply map_ext. intros a. rewrite nr_point_node_result. reflexivity.
  - unfold allPoints. rewrite !map_app. unfold mapi.
    rewrite type_mapi_waypoints. reflexivity.
Qed.

(** *** The legs of one metric *)

Section LegsFacts.

Variable nodeIds : list (option Z).
Variable rt : RouteType.

Lemma legs_loop_step n i acc log :
  legs_loop db req nodeIds rt (S n) i acc log
  = match leg_rows db req nodeIds rt i with
    | Ok [] =>
        (Ok None,
         snd (calculateLegRoute db req (node_at nodeIds i) (node_at nodeIds (i + 1)) rt log))
    | Ok legRows =>
        legs_loop db req nodeIds rt n (S i) (acc ++ [leg_of req i legRows])
          (snd (calculateLegRoute db req (node_at nodeIds i) (node_at nodeIds (i + 1)) rt log))
    | Throw =>
        (Throw,
         snd (calculateLegRoute db req (node_at nodeIds i) (node_at nodeIds (i + 1)) rt log))
    end.
Proof.
  cbn [legs_loop]. unfold bind, leg_rows, calculateLegRoute.
  destruct rt; cbn [snd].
  - destruct (route_rows db shortest (whereClause req) (node_at nodeIds i)
                (node_at nodeIds (i + 1))) as [[|r rs]|]; reflexivity.
  - destruct (route_rows db fastest (whereClauseWithCostMinutes req) (node_at nodeIds i)
                (node_at nodeIds (i + 1))) as [[|r rs]|]; reflexivity.
Qed.

(** The loop either meets an empty leg and returns null, or finds every leg
    non-empty and returns them all, in order. *)
Lemma legs_loop_spec : forall n i acc log,
  (forall j, (i <= j < i + n)%nat -> leg_rows db req nodeIds rt j <> Throw) ->
  ((exists j, (i <= j < i + n)%nat /\ leg_rows db req nodeIds rt j = Ok [])
   /\ fst (legs_loop db req nodeIds rt n i acc log) = Ok None)
  \/ ((forall j, (i <= j < i + n)%nat -> leg_rows db req nodeIds rt j <> Ok [])
      /\ exists new,
          fst (legs_loop db req nodeIds rt n i acc log) = Ok (Some (acc ++ new))
          /\ List.length new = n
          /\ forall k, (k < n)%nat ->
               exists leg,
                 nth_error new k = Some leg
                 /\ leg_rows db req nodeIds rt (i + k) = Ok (rows leg)
                 /\ fromIndex leg = (i + k)%nat /\ toIndex leg = (i + k + 1)%nat).
Proof.
  induction n as [|n IH]; intros i acc log H.
  - right. split; [intros j Hj; lia|].
    exists []. rewrite app_nil_r. repeat split. intros k Hk. lia.
  - rewrite legs_loop_step.
    destruct (leg_rows db req nodeIds rt i) as [[|r rs]|] eqn:E.
    + left. split; [|reflexivity]. exists i. split; [lia|assumption].
    + match goal with
      | |- context [legs_loop _ _ _ _ n (S i) ?a ?l] =>
          destruct (@IH (S i) a l) as [[(j & Hj & Ej) R]|[Hall (new & R & Hlen & Hk)]]
      end.
      * intros j Hj. apply H. lia.
      * left. split; [|exact R]. exists j. split; [lia|assumption].
      * right. split.
        -- intros j Hj. destruct (Nat.eq_dec j i) as [->|Hne].
           ++ rewrite E. discriminate.
           ++ apply Hall. lia.
        -- exists (leg_of req i (r :: rs) :: new). rewrite R, <- app_assoc.
           split; [reflexivity|]. split; [simpl; lia|].
           intros [|k] Hlt.
           ++ exists (leg_of req i (r :: rs)). rewrite Nat.add_0_r.
              repeat split. exact E.
           ++ destruct (Hk k) as (leg & Hn & Hr & Hf & Ht); [lia|].
              exists leg. replace (i + S k)%nat with (S i + k)%nat by lia.
              repeat split; assumption.
    + exfalso. apply (H i); [lia|assumption].
Qed.

(** An empty leg ends the loop with null, whatever the legs after it. *)
Lemma legs_loop_empty_leg : forall n i acc log k,
  (i <= k < i + n)%nat ->
  leg_rows db req nodeIds rt k = Ok [] ->
  (forall j, (i <= j < k)%nat -> leg_rows db req nodeIds rt j <> Throw) ->
  fst (legs_loop db req nodeIds rt n i acc log) = Ok None.
Proof.
  induction n as [|n IH]; intros i acc log k Hk Ek H; [lia|].
  rewrite legs_loop_step.
  destruct (Nat.eq_dec i k) as [->|Hne].
  - rewrite Ek. reflexivity.
  - destruct (leg_rows db req nodeIds rt i) as [[|r rs]|] eqn:E.
    + reflexivity.
    + apply (IH (S i) _ _ k); [lia|assumption|]. intros j Hj. apply H. lia.
    + exfalso. apply (H i); [lia|assumption].
Qed.

(** C4. For one metric: a leg without rows makes the route of the metric
    null, whatever the graph engine answers for the legs after it (the legs
    before it having been answered).  When every leg is answered, the route
    is null exactly when some leg has no row, a route is produced exactly
    when every leg has rows, and it then holds one leg per consecutive pair
    of points with the rows found for it. *)
Theorem every_leg_must_be_reachable (log : list Query) :
  (forall i,
     (i < List.length nodeIds - 1)%nat ->
     leg_rows db req nodeIds rt i = Ok [] ->
     (forall j, (j < i)%nat -> leg_rows db req nodeIds rt j <> Throw) ->
     fst (calculateMultiLegRoute db req nodeIds rt log) = Ok None)
  /\ ((forall i, (i < List.length nodeIds - 1)%nat ->
         leg_rows db req nodeIds rt i <> Throw) ->
      (fst (calculateMultiLegRoute db req nodeIds rt log) = Ok None
       <-> exists i, (i < List.length nodeIds - 1)%nat
                     /\ leg_rows db req nodeIds rt i = Ok [])
      /\ ((exists allLegs,
             fst (calculateMultiLegRoute db req nodeIds rt log) = Ok (Some allLegs))
          <-> forall i, (i < List.length nodeIds - 1)%nat ->
                        leg_rows db req nodeIds rt i <> Ok [])
      /\ (forall allLegs,
            fst (calculateMultiLegRoute db req nodeIds rt log) = Ok (Some allLegs) ->
            List.length allLegs = (List.length nodeIds - 1)%nat
            /\ forall i, (i < List.length nodeIds - 1)%nat ->
                 exists leg,
                   nth_error allLegs i = Some leg
                   /\ leg_rows db req nodeIds rt i = Ok (rows leg)
                   /\ rows leg <> []
                   /\ fromIndex leg = i /\ toIndex leg = (i + 1)%nat)).
Proof.
  split.
  { intros i Hi Ei Hbefore. unfold calculateMultiLegRoute.
    apply (@legs_loop_empty_leg _ 0%nat [] log i); [lia|assumption|].
    intros j Hj. apply Hbefore. lia. }
  intros H. unfold calculateMultiLegRoute.
  destruct (@legs_loop_spec (List.length nodeIds - 1) 0%nat [] log)
    as [[(j & Hj & Ej) R]|[Hall (new & R & Hlen & Hk)]].
  - intros j Hj. apply H. lia.
  - rewrite R. split; [|split].
    + split; [|reflexivity]. intros _. exists j. split; [lia|assumption].
    + split.
      * intros (l & Hl). discriminate.
      * intros Hne. exfalso. apply (Hne j); [lia|assumption].
    + intros l Hl. discriminate.
  - rewrite R. simpl app. split; [|split].
    + split; [discriminate|]. intros (i & Hi & Ei). exfalso.
      apply (Hall i); [lia|assumption].
    + split; [|eauto]. intros _ i Hi. apply Hall. lia.
    + intros l [= <-]. split; [exact Hlen|].
      intros i Hi. destruct (Hk i Hi) as (leg & Hn & Hr & Hf & Ht).
      simpl in Hr, Hf, Ht. exists leg. repeat split; try assumption.
      intros Hnil. apply (Hall i); [lia|]. rewrite Hr, Hnil. reflexivity.
Qed.

End LegsFacts.

(** *** Assembling the response *)




Lemma allPoints_length : List.length (allPoints req) = (2 + List.length (waypoints req))%nat.
Proof.
  unfold allPoints, mapi. rewrite !length_app. simpl.
  assert (E : forall (f : Waypoint (num:=num) -> nat -> Point (num:=num)) xs i,
             List.length (mapi_from f i xs) = List.length xs).
  { intros f xs. induction xs as [|x xs IH]; intros i; simpl; [reflexivity|].
    rewrite IH. reflexivity. }
  rewrite E. lia.
Qed.



End ComposerFacts.



Lemma zero_coordinate_is_rejected_witness :
  POST sample_parse sample_db equator_request
  = ({| status := 400;
        body := ErrorBody "開始地点と終了地点の座標が必要です" None |}, []).
Proof.
  apply (zero_coordinate_is_rejected sample_parse sample_db equator_request
           (x := PrimFloat.zero)).
  - reflexivity.
  - left. reflexivity.
Defined.

Lemma unresolved_points_are_reported_witness :
  POST sample_parse sample_db lost_request
  = ({| status := 404;
        body := ErrorBody "指定された座標の近くにノードが見つかりません"
                  (Some ["waypoint-0"]) |},
     [ nearestNodeQuery (Some 133.5%float) (Some 33.5%float);
       nearestNodeQuery (Some 135%float) (Some 35%float);
       nearestNodeQuery (Some 133.75%float) (Some 33.75%float);
       nearestNodeQuery (Some 134.25%float) (Some 34.25%float) ]).
Proof.
  refine (proj1 (unresolved_points_are_reported sample_parse sample_db
                   (req := lost_request) _ _ _)).
  - repeat split.
  - intros p [<-|[<-|[<-|[<-|[]]]]]; discriminate.
  - eexists. split; [right; left; reflexivity|reflexivity].
Defined.

(** C5, as worded: with no vertex near the first waypoint and the lookup
    of the second waypoint rejected by the store, a point is unresolved
    and yet the answer is not the 404 with the labels: the rejected lookup
    makes it 500. *)
Lemma unresolved_points_rejected_lookup_counterexample :
  ~ (forall db : Db (num:=float),
       (exists p, In p (allPoints lost_request) /\ unresolved db p = true) ->
       exists e labels,
         fst (POST sample_parse db lost_request)
         = {| status := 404; body := ErrorBody e (Some labels) |}).
Proof.
  intros H. destruct (H failing_db) as (e & labels & E).
  - eexists. split; [right; left; reflexivity|reflexivity].
  - vm_compute in E. discriminate E.
Qed.

Lemma every_leg_must_be_reachable_witness :
  fst (calculateMultiLegRoute sample_db (sample_request false None None [])
         [Some 10; Some 20; Some 30] fastest [])
  = Ok None.
Proof.
  refine (proj1 (every_leg_must_be_reachable sample_db
                   (sample_request false None None [])
                   [Some 10; Some 20; Some 30] fastest []) 1%nat _ _ _).
  - simpl. lia.
  - reflexivity.
  - intros [|j] Hj; [discriminate|lia].
Defined.


(** * Further properties of the route stitcher *)

Section MoreStitcherFacts.

Context {num : Type} {JN : JsNumber num}.
Variable Json : Type.
Variable JSON_parse : string -> option Json.

Lemma mkSegment_carries off tc lc (l : Leg (num:=num)) r (s : Segment Json) :
  mkSegment JSON_parse off tc lc (fromIndex l) r = Ok s ->
  segment_carries JSON_parse l r s.
Proof.
  unfold mkSegment, segment_carries.
  destruct (parse_geom JSON_parse (geom r)) as [g|]; simpl; [|discriminate].
  intros [= <-]. simpl. repeat split.
Qed.

Lemma Forall2_app_both {A B} (R : A -> B -> Prop) xs ys xs' ys' :
  Forall2 R xs ys -> Forall2 R xs' ys' -> Forall2 R (xs ++ xs') (ys ++ ys').
Proof.
  induction 1 as [|x y xs ys H _ IH]; simpl; intros H'; [assumption|].
  constructor; [assumption|]. apply IH. assumption.
Qed.

(** The loop appends one segment per row, leg after leg. *)
Lemma stitch_legs_rows ls : forall st st',
  stitch_legs JSON_parse ls st = Ok st' ->
  exists news,
    allSegments st' = allSegments st ++ news
    /\ Forall2 (fun lr s => segment_carries JSON_parse (fst lr) (snd lr) s)
         (rows_with_leg ls) news.
Proof.
  induction ls as [|l ls IH]; simpl; intros st st' H.
  - injection H as <-. exists []. rewrite app_nil_r. split; [reflexivity|constructor].
  - unfold stitch_leg in H.
    destruct (push_rows JSON_parse (sequenceOffset st)
                (nadd (totalCost st) (leg_cost (rows l))) (leg_cost (rows l))
                (fromIndex l) (rows l) (allSegments st)) as [segs|] eqn:E;
      simpl in H; [|discriminate].
    apply push_rows_app in E. destruct E as (news & -> & F).
    apply IH in H. simpl in H. destruct H as (news' & -> & F').
    exists (news ++ news'). rewrite app_assoc. split; [reflexivity|].
    apply Forall2_app_both; [|exact F'].
    clear - F. induction F as [|r s rs news H _ IHF]; simpl; constructor.
    + simpl. eapply mkSegment_carries. exact H.
    + exact IHF.
Qed.

(** X2. The stitched segments are the rows of the legs, leg after leg and
    row after row, none dropped and none repeated: each segment carries the
    node, edge, cost, minutes, name, length and road type of its row, the
    [fromIndex] of its leg as [legIndex], and the parsed geometry text
    (null for a null or empty text). *)
Theorem stitched_segments_are_the_rows
    (nodeIds : list (option Z)) (wps : list (Waypoint (num:=num)))
    (ls : list (Leg (num:=num))) (rt : RouteType) :
  ls <> [] ->
  geoms_parse JSON_parse ls ->
  exists v,
    formatMultiLegRoute JSON_parse nodeIds wps (Some ls) rt = Ok (Some v)
    /\ Forall2 (fun lr s => segment_carries JSON_parse (fst lr) (snd lr) s)
         (rows_with_leg ls) (segments v).
Proof.
  intros Hne Hg.
  destruct (stitch_legs_total (stitch_init Json) Hg) as [st Hst].
  destruct (formatMultiLegRoute_stitch JSON_parse nodeIds wps rt Hne Hst)
    as (v & Hv & Hsegs & _).
  exists v. split; [exact Hv|]. rewrite Hsegs.
  destruct (stitch_legs_rows _ _ Hst) as (news & E & F).
  rewrite E. exact F.
Qed.

End MoreStitcherFacts.

Lemma stitched_segments_are_the_rows_witness :
  exists v,
    formatMultiLegRoute sample_parse [Some 10; Some 20; Some 30] [] (Some two_legs) shortest
    = Ok (Some v)
    /\ map seg_edge (segments v) = [100; -1; 200; -1]
    /\ map legIndex (segments v) = [0; 0; 1; 1]%nat.
Proof.
  destruct (stitched_segments_are_the_rows (JSON_parse := sample_parse)
              [Some 10; Some 20; Some 30] [] (ls := two_legs) shortest)
    as (v & Hv & F).
  - discriminate.
  - repeat constructor; discriminate.
  - exists v. split; [exact Hv|].
    repeat match goal with
           | H : Forall2 _ _ _ |- _ => inversion H; clear H; subst
           end.
    repeat match goal with
           | H : segment_carries _ _ _ _ |- _ =>
               destruct H as (_ & ? & _ & _ & _ & _ & _ & ? & _)
           end.
    simpl in *. split; repeat (f_equal; try assumption).
Defined.

Section FormatFacts.

Context {num : Type} {JN : JsNumber num}.
Variable Json : Type.
Variable JSON_parse : string -> option Json.

Lemma mkSegment_throw off tc lc fi (r : Row (num:=num)) :
  mkSegment JSON_parse off tc lc fi r = Throw
  <-> parse_geom JSON_parse (geom r) = Throw.
Proof.
  unfold mkSegment. destruct (parse_geom JSON_parse (geom r)); simpl;
    split; congruence.
Qed.

Lemma push_rows_throw off tc lc fi (rs : list (Row (num:=num))) : forall acc,
  push_rows JSON_parse off tc lc fi rs acc = Throw
  <-> exists row, In row rs /\ parse_geom JSON_parse (geom row) = Throw.
Proof.
  induction rs as [|r rs IH]; intros acc; simpl.
  - split; [discriminate|]. intros (row & [] & _).
  - destruct (mkSegment JSON_parse off tc lc fi r) as [s|] eqn:E; simpl.
    + rewrite IH. split.
      * intros (row & Hin & Hr). eauto.
      * intros (row & [<-|Hin] & Hr); [|eauto].
        apply (mkSegment_throw off tc lc fi) in Hr. congruence.
    + split; [|reflexivity]. intros _. exists r. split; [auto|].
      apply (mkSegment_throw off tc lc fi). exact E.
Qed.

Lemma stitch_legs_throw (ls : list (Leg (num:=num))) : forall st,
  stitch_legs JSON_parse ls st = Throw
  <-> exists leg row,
        In leg ls /\ In row (rows leg)
        /\ parse_geom JSON_parse (geom row) = Throw.
Proof.
  induction ls as [|l ls IH]; intros st; simpl.
  - split; [discriminate|]. intros (leg & row & [] & _).
  - unfold stitch_leg.
    destruct (push_rows JSON_parse (sequenceOffset st)
                (nadd (totalCost st) (leg_cost (rows l))) (leg_cost (rows l))
                (fromIndex l) (rows l) (allSegments st)) as [segs|] eqn:E; simpl.
    + rewrite IH. split.
      * intros (leg & row & Hl & Hr & Hp). exists leg, row. auto.
      * intros (leg & row & [<-|Hl] & Hr & Hp); [|eauto].
        assert (T : push_rows JSON_parse (sequenceOffset st)
                      (nadd (totalCost st) (leg_cost (rows l))) (leg_cost (rows l))
                      (fromIndex l) (rows l) (allSegments st) = Throw)
          by (apply push_rows_throw; eauto).
        congruence.
    + split; [|reflexivity]. intros _.
      apply push_rows_throw in E. destruct E as (row & Hr & Hp).
      exists l, row. auto.
Qed.

(** X3. [formatMultiLegRoute] returns null exactly for null or an empty
    list of legs; on a list of legs it throws exactly when the geometry
    text of some row does not parse; and a null or empty geometry text is
    never parsed. *)
Theorem format_null_and_throw
    (nodeIds : list (option Z)) (wps : list (Waypoint (num:=num)))
    (rt : RouteType) :
  (forall legs0,
     formatMultiLegRoute JSON_parse nodeIds wps legs0 rt = Ok None
     <-> legs0 = None \/ legs0 = Some [])
  /\ (forall ls,
        formatMultiLegRoute JSON_parse nodeIds wps (Some ls) rt = Throw
        <-> exists leg row,
              In leg ls /\ In row (rows leg)
              /\ parse_geom JSON_parse (geom row) = Throw)
  /\ (forall g,
        g = None \/ g = Some EmptyString ->
        parse_geom JSON_parse g = Ok None).
Proof.
  split; [|split].
  - intros [[|l ls]|]; simpl.
    + split; auto.
    + destruct (rbind (stitch_leg JSON_parse (stitch_init Json) l)
                  (stitch_legs JSON_parse ls)); simpl;
        (split; [discriminate|intros [H|H]; discriminate]).
    + split; auto.
  - intros [|l ls].
    + simpl. split; [discriminate|]. intros (leg & row & [] & _).
    + rewrite <- (stitch_legs_throw (l :: ls) (stitch_init Json)).
      unfold formatMultiLegRoute.
      destruct (stitch_legs JSON_parse (l :: ls) (stitch_init Json)); simpl;
        split; congruence.
  - intros g [-> | ->]; reflexivity.
Qed.

(** The value returned for a non-empty list of legs. *)
Lemma formatMultiLegRoute_value nodeIds (wps : list (Waypoint (num:=num)))
    (ls : list (Leg (num:=num))) rt st :
  ls <> [] ->
  stitch_legs JSON_parse ls (stitch_init Json) = Ok st ->
  formatMultiLegRoute JSON_parse nodeIds wps (Some ls) rt
  = Ok (Some
      {| routeType := rt;
         label := match rt with
                  | shortest => "最短経路"
                  | fastest => "最速経路"
                  end;
         startNode := node_at nodeIds 0;
         endNode := node_at nodeIds (List.length nodeIds - 1);
         rv_waypoints :=
           mapi (fun wp idx =>
                   {| rw_waypoint := wp;
                      rw_nodeId := node_at nodeIds (idx + 1) |}) wps;
         rv_totalCost := totalCost st;
         rv_totalDistance := totalDistance st;
         rv_totalMinutes := totalMinutes st;
         estimatedDuration := nmul (totalMinutes st) (nlit 60);
         segments := allSegments st;
         legs :=
           map (fun leg =>
                  {| from := fromPoint leg;
                     to := toPoint leg;
                     distance := sum_or_zero length_m (rows leg);
                     minutes := sum_or_zero cost_minutes (rows leg) |}) ls |}).
Proof.
  intros Hne Hst. unfold formatMultiLegRoute.
  destruct ls as [|l0 ls0]; [congruence|].
  rewrite Hst. reflexivity.
Qed.

Lemma stitch_legs_totals (ls : list (Leg (num:=num))) : forall st st',
  stitch_legs JSON_parse ls st = Ok st' ->
  totalDistance st'
  = fold_left (fun acc l => nadd acc (sum_or_zero length_m (rows l))) ls
      (totalDistance st)
  /\ totalMinutes st'
     = fold_left (fun acc l => nadd acc (sum_or_zero cost_minutes (rows l))) ls
         (totalMinutes st).
Proof.
  induction ls as [|l ls IH]; simpl; intros st st' H.
  - injection H as <-. split; reflexivity.
  - unfold stitch_leg in H.
    destruct (push_rows JSON_parse (sequenceOffset st)
                (nadd (totalCost st) (leg_cost (rows l))) (leg_cost (rows l))
                (fromIndex l) (rows l) (allSegments st)) as [segs|];
      simpl in H; [|discriminate].
    apply IH in H. exact H.
Qed.

Lemma fold_left_map_arg {A B C} (f : A -> C -> A) (g : B -> C) xs : forall a,
  fold_left f (map g xs) a = fold_left (fun acc x => f acc (g x)) xs a.
Proof. induction xs as [|x xs IH]; intros a; simpl; [reflexivity|apply IH]. Qed.

(** X4. The returned variant lists one summary per leg, in order, with the
    leg's own end points; its total distance and total minutes are the
    [distance] and [minutes] of these summaries added up from left to right
    starting at 0, and its [estimatedDuration] is the total minutes times
    60. *)
Theorem totals_add_up_the_leg_summaries
    (nodeIds : list (option Z)) (wps : list (Waypoint (num:=num)))
    (ls : list (Leg (num:=num))) (rt : RouteType) :
  ls <> [] ->
  geoms_parse JSON_parse ls ->
  exists v,
    formatMultiLegRoute JSON_parse nodeIds wps (Some ls) rt = Ok (Some v)
    /\ map (fun e => (from e, to e)) (legs v)
       = map (fun l => (fromPoint l, toPoint l)) ls
    /\ rv_totalDistance v = fold_left nadd (map distance (legs v)) zero
    /\ rv_totalMinutes v = fold_left nadd (map minutes (legs v)) zero
    /\ estimatedDuration v = nmul (rv_totalMinutes v) (nlit 60).
Proof.
  intros Hne Hg.
  destruct (stitch_legs_total (stitch_init Json) Hg) as [st Hst].
  rewrite (formatMultiLegRoute_value nodeIds wps rt Hne Hst).
  eexists. split; [reflexivity|]. cbn [legs rv_totalDistance rv_totalMinutes estimatedDuration].
  destruct (stitch_legs_totals _ _ Hst) as [Hd Hm]. simpl in Hd, Hm.
  rewrite !map_map, !fold_left_map_arg. simpl.
  repeat split; assumption.
Qed.

End FormatFacts.

Lemma totals_add_up_the_leg_summaries_witness :
  exists v,
    formatMultiLegRoute sample_parse [Some 10; Some 20; Some 30] [] (Some two_legs) shortest
    = Ok (Some v)
    /\ map distance (legs v) = [len_152_3; len_1048_7]
    /\ rv_totalDistance v = 1201%float.
Proof.
  destruct (totals_add_up_the_leg_summaries (JSON_parse := sample_parse)
              [Some 10; Some 20; Some 30] [] (ls := two_legs) shortest)
    as (v & Hv & Hl & Hd & _).
  - discriminate.
  - repeat constructor; discriminate.
  - exists v. split; [exact Hv|].
    assert (E : Ok (Some v)
                = formatMultiLegRoute sample_parse [Some 10; Some 20; Some 30] []
                    (Some two_legs) shortest) by (symmetry; exact Hv).
    vm_compute in E. injection E as ->. split; reflexivity.
Defined.

(** * Further properties of the composer *)

Section MoreComposerFacts.

Context {num : Type} {JN : JsNumber num}.
Variable Json : Type.
Variable JSON_parse : string -> option Json.
Variable db : Db (num:=num).
Variable req : Request (num:=num).

(** Every lookup is issued; the whole is rejected when one of them is. *)
Lemma promise_all_resolve_any pts : forall log,
  promise_all (map (resolve_point db) pts) log
  = (if existsb (lookup_throws db) pts then Throw
     else Ok (map (node_result db) pts),
     log ++ nearest_queries pts).
Proof.
  induction pts as [|p pts IH]; intros log; simpl.
  - rewrite app_nil_r. reflexivity.
  - unfold resolve_point at 1. rewrite IH. rewrite <- app_assoc.
    cbn [app]. generalize (existsb (lookup_throws db) pts). intros b.
    generalize (map (node_result db) pts). intros l.
    unfold lookup_throws, node_result.
    destruct (nearest_rows db (lon p) (lat p)) as [rws|]; destruct b; reflexivity.
Qed.

(** X8. When the coordinates are present and the lookup of some point is
    rejected, the handler answers 500; every lookup has been issued all the
    same, and no route query. *)
Theorem failed_lookup_gives_500 :
  coordinates_present req ->
  (exists p, In p (allPoints req) /\ nearest_rows db (lon p) (lat p) = Throw) ->
  POST JSON_parse db req
  = ({| status := 500;
        body := ErrorBody "ルート検索中にエラーが発生しました" None |},
     nearest_queries (allPoints req)).
Proof.
  intros (H1 & H2 & H3 & H4) (p & Hp & Ht).
  unfold POST, POST_try. rewrite H1, H2, H3, H4. cbn [orb].
  unfold bind. rewrite promise_all_resolve_any.
  assert (E : existsb (lookup_throws db) (allPoints req) = true).
  { apply existsb_exists. exists p. split; [assumption|].
    unfold lookup_throws. rewrite Ht. reflexivity. }
  rewrite E. reflexivity.
Qed.

(** *** The route queries of one metric *)

Section MoreLegsFacts.

Variable nodeIds : list (option Z).
Variable rt : RouteType.

Lemma calculateLegRoute_log i log :
  snd (calculateLegRoute db req (node_at nodeIds i) (node_at nodeIds (i + 1)) rt log)
  = log ++ [leg_query req nodeIds rt i].
Proof. unfold calculateLegRoute, leg_query. destruct rt; reflexivity. Qed.

Lemma legs_loop_log_all : forall n i acc log,
  (forall j, (i <= j < i + n)%nat ->
     exists r rs, leg_rows db req nodeIds rt j = Ok (r :: rs)) ->
  snd (legs_loop db req nodeIds rt n i acc log)
  = log ++ map (leg_query req nodeIds rt) (List.seq i n).
Proof.
  induction n as [|n IH]; intros i acc log H.
  - simpl. rewrite app_nil_r. reflexivity.
  - rewrite legs_loop_step, calculateLegRoute_log.
    destruct (H i) as (r & rs & ->); [lia|].
    rewrite IH by (intros j Hj; apply H; lia).
    rewrite <- app_assoc. reflexivity.
Qed.

Lemma legs_loop_log_stop : forall n i acc log k,
  (i <= k < i + n)%nat ->
  (forall j, (i <= j < k)%nat ->
     exists r rs, leg_rows db req nodeIds rt j = Ok (r :: rs)) ->
  leg_rows db req nodeIds rt k = Ok [] \/ leg_rows db req nodeIds rt k = Throw ->
  snd (legs_loop db req nodeIds rt n i acc log)
  = log ++ map (leg_query req nodeIds rt) (List.seq i (S k - i)).
Proof.
  induction n as [|n IH]; intros i acc log k Hk H Hstop; [lia|].
  rewrite legs_loop_step, calculateLegRoute_log.
  destruct (Nat.eq_dec i k) as [->|Hne].
  - replace (S k - k)%nat with 1%nat by lia.
    destruct Hstop as [-> | ->]; reflexivity.
  - destruct (H i) as (r & rs & ->); [lia|].
    rewrite (IH (S i) _ _ k) by (try lia; try assumption; intros j Hj; apply H; lia).
    replace (S k - i)%nat with (S (S k - S i)) by lia.
    rewrite <- app_assoc. reflexivity.
Qed.

(** X9. The route queries of one metric are sent leg by leg, each between
    two consecutive vertices: when every leg has rows, one query per leg;
    when leg [k] is the first that has no row or is rejected, the queries
    of the legs 0 to [k] and none after. *)
Theorem route_queries_stop_at_first_failure (log : list Query) :
  ((forall j, (j < List.length nodeIds - 1)%nat ->
      exists r rs, leg_rows db req nodeIds rt j = Ok (r :: rs)) ->
   snd (calculateMultiLegRoute db req nodeIds rt log)
   = log ++ map (leg_query req nodeIds rt) (List.seq 0 (List.length nodeIds - 1)))
  /\ (forall k,
        (k < List.length nodeIds - 1)%nat ->
        (forall j, (j < k)%nat ->
           exists r rs, leg_rows db req nodeIds rt j = Ok (r :: rs)) ->
        leg_rows db req nodeIds rt k = Ok []
        \/ leg_rows db req nodeIds rt k = Throw ->
        snd (calculateMultiLegRoute db req nodeIds rt log)
        = log ++ map (leg_query req nodeIds rt) (List.seq 0 (S k))).
Proof.
  unfold calculateMultiLegRoute. split.
  - intros H. apply legs_loop_log_all. intros j Hj. apply H. lia.
  - intros k Hk H Hstop.
    rewrite (@legs_loop_log_stop _ 0%nat [] log k); [|lia| |assumption].
    + rewrite Nat.sub_0_r. reflexivity.
    + intros j Hj. apply H. lia.
Qed.

(** The legs returned all have rows, each the answer to a leg query. *)
Lemma legs_loop_some : forall n i acc log ls log',
  legs_loop db req nodeIds rt n i acc log = (Ok (Some ls), log') ->
  exists new,
    ls = acc ++ new /\ List.length new = n
    /\ Forall (fun l => rows l <> []
                        /\ exists j, leg_rows db req nodeIds rt j = Ok (rows l)) new.
Proof.
  induction n as [|n IH]; intros i acc log ls log' H.
  - injection H as <- _. exists []. rewrite app_nil_r. repeat split. constructor.
  - rewrite legs_loop_step in H.
    destruct (leg_rows db req nodeIds rt i) as [[|r rs]|] eqn:E; try discriminate.
    apply IH in H. destruct H as (new & -> & Hlen & F).
    exists (leg_of req i (r :: rs) :: new). rewrite <- app_assoc.
    split; [reflexivity|]. split; [simpl; lia|].
    constructor; [|exact F]. simpl. split; [discriminate|eauto].
Qed.

End MoreLegsFacts.

(** *** The shape of every response *)

Lemma format_ok_props nodeIds (wps : list (Waypoint (num:=num)))
    (ls : list (Leg (num:=num))) rt x :
  ls <> [] ->
  Forall (fun l => rows l <> []) ls ->
  formatMultiLegRoute JSON_parse nodeIds wps (Some ls) rt = Ok x ->
  exists v,
    x = Some v /\ routeType v = rt
    /\ List.length (legs v) = List.length ls
    /\ segments v <> []
    /\ startNode v = node_at nodeIds 0
    /\ endNode v = node_at nodeIds (List.length nodeIds - 1)
    /\ rv_waypoints v
       = mapi (fun wp idx =>
                 {| rw_waypoint := wp;
                    rw_nodeId := node_at nodeIds (idx + 1) |}) wps.
Proof.
  intros Hne Hrows H.
  destruct (stitch_legs JSON_parse ls (stitch_init Json)) as [st|] eqn:Hst.
  - rewrite (formatMultiLegRoute_value JSON_parse nodeIds wps rt Hne Hst) in H.
    injection H as <-. eexists. split; [reflexivity|].
    cbn [routeType legs segments startNode endNode rv_waypoints].
    rewrite length_map. repeat split.
    destruct (stitch_legs_rows _ _ _ Hst) as (news & E & F).
    simpl in E. subst news.
    destruct ls as [|l ls']; [congruence|].
    inversion Hrows as [|? ? Hl _]; subst.
    unfold rows_with_leg in F. simpl in F.
    destruct (rows l) as [|r rs]; [congruence|].
    simpl in F. inversion F; subst. discriminate.
  - unfold formatMultiLegRoute in H. destruct ls as [|l ls']; [congruence|].
    rewrite Hst in H. discriminate.
Qed.

(** The legs found for the resolved vertices. *)
Lemma multi_leg_route_legs rt log ls log' :
  calculateMultiLegRoute db req (resolved_nodeIds db req) rt log
  = (Ok (Some ls), log') ->
  List.length ls = S (List.length (waypoints req))
  /\ Forall (fun l => rows l <> []
                      /\ exists j,
                           leg_rows db req (resolved_nodeIds db req) rt j
                           = Ok (rows l)) ls.
Proof.
  unfold calculateMultiLegRoute. intros H.
  apply legs_loop_some in H. destruct H as (new & -> & Hlen & F).
  simpl. split; [|exact F].
  rewrite Hlen. unfold resolved_nodeIds.
  rewrite length_map, allPoints_length. simpl. lia.
Qed.

Lemma Forall_fst {A} (P Q : A -> Prop) xs :
  Forall (fun x => P x /\ Q x) xs -> Forall P xs.
Proof. intros H. eapply Forall_impl; [|exact H]. intros x [Hx _]. exact Hx. Qed.

(** Every run of the handler ends in one of three ways. *)
Lemma POST_cases :
  (exists code e m,
     fst (POST JSON_parse db req) = {| status := code; body := ErrorBody e m |}
     /\ (code = 400 \/ code = 404)%nat)
  \/ fst (POST JSON_parse db req)
     = {| status := 500;
          body := ErrorBody "ルート検索中にエラーが発生しました" None |}
  \/ (exists s f log1 log2 vs vf,
        calculateMultiLegRoute db req (resolved_nodeIds db req) shortest
          (nearest_queries (allPoints req)) = (Ok s, log1)
        /\ calculateMultiLegRoute db req (resolved_nodeIds db req) fastest log1
           = (Ok f, log2)
        /\ (s <> None \/ f <> None)
        /\ formatMultiLegRoute JSON_parse (resolved_nodeIds db req)
             (waypoints req) s shortest = Ok vs
        /\ formatMultiLegRoute JSON_parse (resolved_nodeIds db req)
             (waypoints req) f fastest = Ok vf
        /\ POST JSON_parse db req
           = ({| status := 200; body := RoutesBody (routes_body req vs vf) |},
              log2)).
Proof.
  remember (POST JSON_parse db req) as R eqn:ER.
  unfold POST, POST_try in ER.
  destruct (falsy (startLat req) || falsy (startLon req)
            || falsy (endLat req) || falsy (endLon req)) eqn:Hv.
  { left. subst R. do 3 eexists. split; [reflexivity|]. left. reflexivity. }
  unfold bind at 1 in ER. rewrite promise_all_resolve_any in ER.
  destruct (existsb (lookup_throws db) (allPoints req)) eqn:Ht.
  { right. left. subst R. reflexivity. }
  destruct (0 <? List.length
                   (filter (fun n => negb (found n))
                      (map (node_result db) (allPoints req))))%nat eqn:Hm.
  { left. subst R. do 3 eexists. split; [reflexivity|]. right. reflexivity. }
  rewrite map_map in ER.
  change (map (fun x => nodeId (node_result db x)) (allPoints req))
    with (resolved_nodeIds db req) in ER.
  cbn [app] in ER.
  unfold search_routes in ER. unfold bind at 1 in ER. unfold promise_both in ER.
  destruct (calculateMultiLegRoute db req (resolved_nodeIds db req) shortest
              (nearest_queries (allPoints req))) as [rs log1] eqn:Hs.
  destruct (calculateMultiLegRoute db req (resolved_nodeIds db req) fastest log1)
    as [rf log2] eqn:Hf.
  destruct rs as [s|].
  2:{ right. left. destruct rf; subst R; reflexivity. }
  destruct rf as [f|].
  2:{ right. left. subst R. reflexivity. }
  cbn [rbind] in ER.
  destruct (is_null s && is_null f) eqn:Hnull.
  { left. subst R. do 3 eexists. split; [reflexivity|]. right. reflexivity. }
  assert (Hsf : s <> None \/ f <> None).
  { destruct s, f; try discriminate; [left|left|right]; discriminate. }
  unfold bind, lift, ret in ER.
  destruct (formatMultiLegRoute JSON_parse (resolved_nodeIds db req)
              (waypoints req) s shortest) as [vs|] eqn:Es.
  2:{ right. left. subst R. reflexivity. }
  destruct (formatMultiLegRoute JSON_parse (resolved_nodeIds db req)
              (waypoints req) f fastest) as [vf|] eqn:Ef.
  2:{ right. left. subst R. reflexivity. }
  right. right. exists s, f, log1, log2, vs, vf. subst R.
  repeat split; try reflexivity; assumption.
Qed.

Lemma node_at_start :
  node_at (resolved_nodeIds db req) 0 = resolved_id db (start_point req).
Proof. reflexivity. Qed.

Lemma node_at_end :
  node_at (resolved_nodeIds db req) (List.length (resolved_nodeIds db req) - 1)
  = resolved_id db (end_point req).
Proof.
  unfold resolved_nodeIds, node_at, resolved_id. rewrite length_map, nth_error_map.
  change (allPoints req)
    with ([start_point req] ++ mapi waypoint_point (waypoints req)
          ++ [end_point req]).
  set (mid := mapi waypoint_point (waypoints req)).
  replace (List.length ([start_point req] ++ mid ++ [end_point req]) - 1)%nat
    with (S (List.length mid))
    by (cbn [app List.length]; rewrite length_app; simpl; lia).
  change (nth_error ([start_point req] ++ mid ++ [end_point req]) (S (List.length mid)))
    with (nth_error (mid ++ [end_point req]) (List.length mid)).
  rewrite nth_error_app2 by lia. rewrite Nat.sub_diag. reflexivity.
Qed.

Lemma mapi_node_at (wps : list (Waypoint (num:=num))) : forall i pre post L,
  List.length pre = S i ->
  L = pre ++ map (resolved_id db) (mapi_from waypoint_point i wps) ++ post ->
  mapi_from (fun wp idx =>
               {| rw_waypoint := wp; rw_nodeId := node_at L (idx + 1) |}) i wps
  = mapi_from (fun wp idx =>
                 {| rw_waypoint := wp;
                    rw_nodeId := resolved_id db (waypoint_point wp idx) |}) i wps.
Proof.
  induction wps as [|wp wps IH]; intros i pre post L Hpre HL; simpl; [reflexivity|].
  f_equal.
  - f_equal. unfold node_at. rewrite HL. simpl.
    rewrite nth_error_app2 by lia.
    replace (i + 1 - List.length pre)%nat with 0%nat by lia. reflexivity.
  - apply (IH (S i) (pre ++ [resolved_id db (waypoint_point wp i)]) post).
    + rewrite length_app. simpl. lia.
    + rewrite HL. simpl. rewrite <- app_assoc. reflexivity.
Qed.

Lemma waypoints_node_at :
  mapi (fun wp idx =>
          {| rw_waypoint := wp;
             rw_nodeId := node_at (resolved_nodeIds db req) (idx + 1) |})
       (waypoints req)
  = mapi (fun wp idx =>
            {| rw_waypoint := wp;
               rw_nodeId := resolved_id db (waypoint_point wp idx) |})
         (waypoints req).
Proof.
  unfold mapi.
  apply (@mapi_node_at (waypoints req) 0%nat
           [resolved_id db (start_point req)] [resolved_id db (end_point req)]).
  - reflexivity.
  - unfold resolved_nodeIds, allPoints, mapi. rewrite !map_app. reflexivity.
Qed.

(** What one slot of the response holds. *)
Lemma variant_props rt s log log' x :
  calculateMultiLegRoute db req (resolved_nodeIds db req) rt log = (Ok s, log') ->
  formatMultiLegRoute JSON_parse (resolved_nodeIds db req) (waypoints req) s rt
  = Ok x ->
  (s = None /\ x = None)
  \/ (exists v,
        s <> None /\ x = Some v /\ routeType v = rt
        /\ List.length (legs v) = S (List.length (waypoints req))
        /\ segments v <> []
        /\ startNode v = resolved_id db (start_point req)
        /\ endNode v = resolved_id db (end_point req)
        /\ rv_waypoints v
           = mapi (fun wp idx =>
                     {| rw_waypoint := wp;
                        rw_nodeId := resolved_id db (waypoint_point wp idx) |})
                  (waypoints req)).
Proof.
  intros Hc Hf. destruct s as [ls|].
  - right. destruct (multi_leg_route_legs _ _ Hc) as [Hlen F].
    assert (Hne : ls <> []) by (intros ->; discriminate).
    pose proof Hf as Hp.
    eapply format_ok_props in Hp; [|exact Hne|eapply Forall_fst; exact F].
    destruct Hp as (v & -> & Hrt & Hl & Hsg & Hs & He & Hw).
    exists v. rewrite Hl, Hs, He, Hw, node_at_start, node_at_end, waypoints_node_at.
    repeat split; try assumption. discriminate.
  - left. simpl in Hf. injection Hf as <-. split; reflexivity.
Qed.

(** X6. Every response has status 200, 400, 404 or 500.  A response with
    another status than 200 carries an error message; a response with
    status 200 carries at least one variant, [routes] lists the non-null
    ones of [shortest] and [fastest] in that order, each variant is of the
    type of its slot, has one leg per consecutive pair of points (the
    number of waypoints plus one) and at least one segment. *)
Theorem every_response_is_well_formed :
  let response := fst (POST JSON_parse db req) in
  (status response = 200 \/ status response = 400
   \/ status response = 404 \/ status response = 500)%nat
  /\ (status response <> 200%nat -> exists e m, body response = ErrorBody e m)
  /\ (status response = 200%nat ->
      exists routes,
        body response = RoutesBody routes
        /\ r_routes routes = non_null [r_shortest routes; r_fastest routes]
        /\ r_routes routes <> []
        /\ (forall v, r_shortest routes = Some v -> routeType v = shortest)
        /\ (forall v, r_fastest routes = Some v -> routeType v = fastest)
        /\ (forall v, In v (r_routes routes) ->
              List.length (legs v) = S (List.length (waypoints req))
              /\ segments v <> [])).
Proof.
  cbv zeta.
  destruct POST_cases as [(code & e & m & E & Hc)|[E|C]].
  - rewrite E. cbn [status body]. split; [|split].
    + destruct Hc as [-> | ->]; auto.
    + intros _. eauto.
    + intros ->. destruct Hc; discriminate.
  - rewrite E. cbn [status body]. split; [|split].
    + auto.
    + intros _. eauto.
    + discriminate.
  - destruct C as (s & f & log1 & log2 & vs & vf & Hs & Hf & Hsf & Es & Ef & EP).
    rewrite EP. cbn [fst status body]. split; [auto|]. split; [congruence|].
    intros _. exists (routes_body req vs vf).
    cbn [routes_body r_routes r_shortest r_fastest].
    pose proof (variant_props _ _ Hs Es) as Ps.
    pose proof (variant_props _ _ Hf Ef) as Pf.
    split; [reflexivity|]. split; [reflexivity|]. split; [|split; [|split]].
    + destruct Ps as [[-> ->]|(v & _ & -> & _)]; [|discriminate].
      destruct Pf as [[-> ->]|(v & _ & -> & _)]; [|discriminate].
      destruct Hsf; congruence.
    + intros v ->. destruct Ps as [[_ T]|(v' & _ & T & R & _)]; congruence.
    + intros v ->. destruct Pf as [[_ T]|(v' & _ & T & R & _)]; congruence.
    + intros v Hin.
      destruct Ps as [[_ ->]|(v1 & _ & -> & _ & L1 & S1 & _)];
        destruct Pf as [[_ ->]|(v2 & _ & -> & _ & L2 & S2 & _)];
        simpl in Hin; intuition (subst; auto).
Qed.

(** X10. In a response with status 200 every variant echoes the vertices
    resolved for the request: [startNode] and [endNode] are the vertex ids
    answered for the start and the end point, and the i-th entry of
    [waypoints] is the i-th waypoint of the request with the vertex id
    answered for that waypoint's own coordinates. *)
Theorem resolved_vertices_are_echoed :
  status (fst (POST JSON_parse db req)) = 200%nat ->
  exists routes,
    body (fst (POST JSON_parse db req)) = RoutesBody routes
    /\ r_routes routes <> []
    /\ forall v, In v (r_routes routes) ->
         startNode v = resolved_id db (start_point req)
         /\ endNode v = resolved_id db (end_point req)
         /\ rv_waypoints v
            = mapi (fun wp idx =>
                      {| rw_waypoint := wp;
                         rw_nodeId := resolved_id db (waypoint_point wp idx) |})
                   (waypoints req).
Proof.
  destruct POST_cases as [(code & e & m & E & Hc)|[E|C]].
  - rewrite E. cbn [status]. intros ->. destruct Hc; discriminate.
  - rewrite E. discriminate.
  - destruct C as (s & f & log1 & log2 & vs & vf & Hs & Hf & Hsf & Es & Ef & EP).
    rewrite EP. cbn [fst status body]. intros _.
    exists (routes_body req vs vf). cbn [routes_body r_routes].
    pose proof (variant_props _ _ Hs Es) as Ps.
    pose proof (variant_props _ _ Hf Ef) as Pf.
    split; [reflexivity|]. split.
    + destruct Ps as [[-> ->]|(v & _ & -> & _)]; [|discriminate].
      destruct Pf as [[-> ->]|(v & _ & -> & _)]; [|discriminate].
      destruct Hsf; congruence.
    + intros v Hin.
      destruct Ps as [[_ ->]|(v1 & _ & -> & _ & _ & _ & A1 & B1 & C1)];
        destruct Pf as [[_ ->]|(v2 & _ & -> & _ & _ & _ & A2 & B2 & C2)];
        simpl in Hin; intuition (subst; auto).
Qed.

(** *** Partial success *)






End MoreComposerFacts.



Lemma failed_lookup_gives_500_witness :
  POST sample_parse failing_db (sample_request false None None [])
  = ({| status := 500;
        body := ErrorBody "ルート検索中にエラーが発生しました" None |},
     [ nearestNodeQuery (Some 133.5%float) (Some 33.5%float);
       nearestNodeQuery (Some 133.75%float) (Some 33.75%float);
       nearestNodeQuery (Some 134.25%float) (Some 34.25%float) ]).
Proof.
  apply (@failed_lookup_gives_500 float _ string sample_parse failing_db
           (sample_request false None None [])).
  - repeat split.
  - eexists. split; [right; left; reflexivity|reflexivity].
Defined.


Lemma resolved_vertices_are_echoed_witness :
  exists routes,
    body (fst (POST sample_parse sample_db (sample_request false None None [])))
    = RoutesBody routes
    /\ forall v, In v (r_routes routes) ->
         startNode v = Some 10 /\ endNode v = Some 30
         /\ map rw_nodeId (rv_waypoints v) = [Some 20].
Proof.
  destruct (@resolved_vertices_are_echoed float _ string sample_parse sample_db
              (sample_request false None None []))
    as (routes & Hb & _ & H).
  - vm_compute. reflexivity.
  - exists routes. split; [exact Hb|].
    intros v Hv. destruct (H v Hv) as (A & B & C).
    rewrite A, B, C. repeat split.
Defined.

Lemma route_queries_stop_at_first_failure_witness :
  snd (calculateMultiLegRoute sample_db (sample_request false None None [])
         [Some 10; Some 20; Some 30; Some 40] fastest [])
  = [ fastestRouteQuery [CostSIsNotNull] (Some 10) (Some 20);
      fastestRouteQuery [CostSIsNotNull] (Some 20) (Some 30) ].
Proof.
  refine (proj2 (@route_queries_stop_at_first_failure float _ sample_db
                   (sample_request false None None [])
                   [Some 10; Some 20; Some 30; Some 40] fastest []) 1%nat _ _ _).
  - simpl. lia.
  - intros [|j] Hj; [|lia]. do 2 eexists. reflexivity.
  - left. reflexivity.
Defined.

(** * Further properties of the constraint compiler *)

Section MorePredicateFacts.

Context {num : Type} {JN : JsNumber num}.
Variable Geometry : Type.
Variable configuration : list ConfigurationRow.
Variable ST_Intersects_Buffer : Geometry -> Buffer (num:=num) -> bool.

Local Abbreviation way2 := (Way (num:=num) Geometry).
Local Abbreviation admits2 := (admits (num:=num) configuration ST_Intersects_Buffer).
Local Abbreviation holds2 := (holds (num:=num) configuration ST_Intersects_Buffer).

Lemma optional_nil {A} (b : bool) (c : A) :
  (if b then [c] else []) = [] <-> b = false.
Proof. destruct b; split; congruence. Qed.

(** X11. The where clause of the distance query is empty, and its text is
    the empty text, exactly when no constraint is triggered: no motorway
    avoidance, no width above 2.5, no height above 3.5 and no avoid zone.
    Then every edge is admitted for the distance metric, and the time query
    runs under [WHERE cost_s IS NOT NULL] alone. *)
Theorem unconstrained_request_filters_nothing (req : Request (num:=num)) :
  (whereClause req = []
   <-> avoidMotorways req = false
       /\ given_and_gt (vehicleWidth req) (nlit (5 # 2)) = false
       /\ given_and_gt (vehicleHeight req) (nlit (7 # 2)) = false
       /\ avoidAreas req = [])
  /\ (forall show,
        render_where show (whereClause req) = EmptyString <-> whereClause req = [])
  /\ (whereClause req = [] ->
      (forall w : way2, admits2 (whereClause req) w = true)
      /\ (forall w : way2,
            admits2 (whereClauseWithCostMinutes req) w
            = match cost_s w with Some _ => true | None => false end)
      /\ forall show,
           render_where show (whereClauseWithCostMinutes req)
           = "WHERE cost_s IS NOT NULL").
Proof.
  split; [|split].
  - unfold whereClause, buildWhereClause. cbn [app]. split.
    + intros H.
      apply app_eq_nil in H. destruct H as [H1 H].
      apply app_eq_nil in H. destruct H as [H2 H].
      apply app_eq_nil in H. destruct H as [H3 H4].
      apply optional_nil in H1, H2, H3, H4.
      repeat split; try assumption.
      destruct (avoidAreas req); [reflexivity|discriminate].
    + intros (-> & -> & -> & ->). reflexivity.
  - intros show. unfold render_where.
    destruct (whereClause req) as [|c cs]; simpl.
    + split; reflexivity.
    + split; discriminate.
  - intros H.
    assert (E : whereClauseWithCostMinutes req = [CostSIsNotNull]).
    { change (whereClauseWithCostMinutes req)
        with (CostSIsNotNull :: whereClause req).
      rewrite H. reflexivity. }
    rewrite H, E. repeat split.
    + intros w. simpl. apply andb_true_r.
Qed.

(** X12. The avoid zones act as a set: two requests that agree on the
    other constraints and list the same zones, in any order and any number
    of times, admit the same edges. *)
Theorem avoid_zones_act_as_a_set
    (req1 req2 : Request (num:=num)) (base : BaseWhere) (w : way2) :
  avoidMotorways req1 = avoidMotorways req2 ->
  vehicleWidth req1 = vehicleWidth req2 ->
  vehicleHeight req1 = vehicleHeight req2 ->
  (forall a, In a (avoidAreas req1) <-> In a (avoidAreas req2)) ->
  admits2 (buildWhereClause req1 base) w = admits2 (buildWhereClause req2 base) w.
Proof.
  intros Hm Hw Hh Ha.
  rewrite !admits_buildWhereClause, Hm, Hw, Hh. do 4 f_equal.
  apply eq_iff_eq_true. split; apply holds_avoid_incl; apply incl_map;
    intros a Hin; apply Ha; assumption.
Qed.

End MorePredicateFacts.

Lemma avoid_zones_act_as_a_set_witness :
  admits sample_configuration sample_intersects
    (buildWhereClause (sample_request false None None [zone_unset; zone_zero]) NoBaseWhere)
    way_primary_near
  = admits sample_configuration sample_intersects
      (buildWhereClause
         (sample_request false None None [zone_zero; zone_unset; zone_zero]) NoBaseWhere)
      way_primary_near.
Proof.
  apply (@avoid_zones_act_as_a_set float _ float sample_configuration sample_intersects
           (sample_request false None None [zone_unset; zone_zero])
           (sample_request false None None [zone_zero; zone_unset; zone_zero])).
  - reflexivity.
  - reflexivity.
  - reflexivity.
  - intros a. simpl. tauto.
Defined.

(** * The single-leg endpoints *)

Section LegacyFacts.

Context {num : Type} {JN : JsNumber num}.
Variable Json : Type.
Variable JSON_parse : string -> option Json.
Variable db : Legacy.Db (num:=num).

Lemma legacy_map_rows_spec (rs : list (Legacy.Row (num:=num))) : forall segs,
  Legacy.map_rows JSON_parse rs = Ok segs ->
  Forall2 (fun row s => Legacy.mkSegment JSON_parse row = Ok s) rs segs.
Proof.
  induction rs as [|r rs IH]; simpl; intros segs H.
  - injection H as <-. constructor.
  - destruct (Legacy.mkSegment JSON_parse r) as [s|] eqn:E; simpl in H; [|discriminate].
    destruct (Legacy.map_rows JSON_parse rs) as [l|]; simpl in H; [|discriminate].
    injection H as <-. constructor; [exact E|]. apply IH. reflexivity.
Qed.

Lemma legacy_map_rows_throw (rs : list (Legacy.Row (num:=num))) :
  Legacy.map_rows JSON_parse rs = Throw ->
  exists row, In row rs /\ parse_geom JSON_parse (Legacy.geom row) = Throw.
Proof.
  induction rs as [|r rs IH]; simpl; intros H; [discriminate|].
  destruct (Legacy.mkSegment JSON_parse r) as [s|] eqn:E; simpl in H.
  - destruct (Legacy.map_rows JSON_parse rs) as [l|]; simpl in H; [discriminate|].
    destruct (IH eq_refl) as (row & Hin & Hp). eauto.
  - exists r. split; [auto|]. unfold Legacy.mkSegment in E.
    destruct (parse_geom JSON_parse (Legacy.geom r)); [discriminate|reflexivity].
Qed.

Lemma legacy_map_rows_total (rs : list (Legacy.Row (num:=num))) :
  Forall (fun row => parse_geom JSON_parse (Legacy.geom row) <> Throw) rs ->
  exists segs, Legacy.map_rows JSON_parse rs = Ok segs.
Proof.
  intros H. destruct (Legacy.map_rows JSON_parse rs) as [segs|] eqn:E; [eauto|].
  apply legacy_map_rows_throw in E. destruct E as (row & Hin & Hp).
  rewrite Forall_forall in H. exfalso. apply (H row Hin). exact Hp.
Qed.

Lemma legacy_segment_fields (row : Legacy.Row (num:=num)) s :
  Legacy.mkSegment JSON_parse row = Ok s ->
  Legacy.sequence s = Legacy.seq row
  /\ Legacy.accumulatedCost s = Legacy.agg_cost row
  /\ Legacy.seg_edge s = Legacy.edge row.
Proof.
  unfold Legacy.mkSegment.
  destruct (parse_geom JSON_parse (Legacy.geom row)); simpl; [|discriminate].
  intros [= <-]. repeat split.
Qed.

Lemma legacy_fields_map {X} (p : Legacy.Segment (num:=num) Json -> X)
    (g : Legacy.Row (num:=num) -> X) rs segs :
  (forall row s, Legacy.mkSegment JSON_parse row = Ok s -> p s = g row) ->
  Forall2 (fun row s => Legacy.mkSegment JSON_parse row = Ok s) rs segs ->
  map p segs = map g rs.
Proof.
  intros Hp F. induction F as [|r s rs segs H _ IH]; simpl; [reflexivity|].
  rewrite IH, (Hp _ _ H). reflexivity.
Qed.

(** X13. On [/search], with the four coordinates present, both lookups
    answered with a vertex, a path found and its geometry texts parsing:
    the answer is 200 after exactly three queries (start lookup, end
    lookup, route between the two first vertices); the segments are the
    rows in order with their [seq] and [agg_cost] unchanged, and
    [totalCost] is the cumulative cost of the last segment. *)
Theorem legacy_search_success
    (pathname : string) (b : Legacy.JsonBody (num:=num))
    (s0 e0 : VertexRow (num:=num)) (ss es : list (VertexRow (num:=num)))
    (r : Legacy.Row (num:=num)) (rs : list (Legacy.Row (num:=num))) :
  Legacy.endsWith pathname "/search" = true ->
  falsy (Legacy.startLat b) = false -> falsy (Legacy.startLon b) = false ->
  falsy (Legacy.endLat b) = false -> falsy (Legacy.endLon b) = false ->
  Legacy.vertex_rows db (Legacy.startLon b) (Legacy.startLat b) = Ok (s0 :: ss) ->
  Legacy.vertex_rows db (Legacy.endLon b) (Legacy.endLat b) = Ok (e0 :: es) ->
  Legacy.route_rows db (vertex_id s0) (vertex_id e0) = Ok (r :: rs) ->
  Forall (fun row => parse_geom JSON_parse (Legacy.geom row) <> Throw) (r :: rs) ->
  exists route,
    Legacy.POST JSON_parse db pathname b
    = ({| Legacy.status := 200; Legacy.body := Legacy.RouteBody route |},
       [ Legacy.startNodeQuery (Legacy.startLon b) (Legacy.startLat b);
         Legacy.endNodeQuery (Legacy.endLon b) (Legacy.endLat b);
         Legacy.routeQuery (vertex_id s0) (vertex_id e0) ])
    /\ Legacy.startNode route = vertex_id s0
    /\ Legacy.endNode route = vertex_id e0
    /\ map (fun s => Legacy.sequence s) (Legacy.segments route)
       = map (fun row => Legacy.seq row) (r :: rs)
    /\ map (fun s => Legacy.accumulatedCost s) (Legacy.segments route)
       = map (fun row => Legacy.agg_cost row) (r :: rs)
    /\ map (fun s => Legacy.seg_edge s) (Legacy.segments route)
       = map (fun row => Legacy.edge row) (r :: rs)
    /\ exists s,
         nth_error (Legacy.segments route)
           (List.length (Legacy.segments route) - 1) = Some s
         /\ Legacy.accumulatedCost s = Legacy.totalCost route.
Proof.
  intros Hp H1 H2 H3 H4 Hs He Hr Hg.
  destruct (legacy_map_rows_total Hg) as [segs Hsegs].
  pose proof (legacy_map_rows_spec _ Hsegs) as F.
  assert (Hseq := legacy_fields_map (fun s => Legacy.sequence s)
                    (fun row => Legacy.seq row)
                    (fun row s H => proj1 (legacy_segment_fields _ H)) F).
  assert (Hacc := legacy_fields_map (fun s => Legacy.accumulatedCost s)
                    (fun row => Legacy.agg_cost row)
                    (fun row s H => proj1 (proj2 (legacy_segment_fields _ H))) F).
  assert (Hedge := legacy_fields_map (fun s => Legacy.seg_edge s)
                     (fun row => Legacy.edge row)
                     (fun row s H => proj2 (proj2 (legacy_segment_fields _ H))) F).
  destruct (nth_error (r :: rs) (List.length (r :: rs) - 1)) as [lastRow|] eqn:Hl.
  2:{ apply nth_error_None in Hl. simpl in Hl. lia. }
  eexists. split; [|split; [|split; [|split; [|split; [|split]]]]].
  - unfold Legacy.POST. rewrite Hp. unfold Legacy.catching, Legacy.search_try.
    rewrite H1, H2, H3, H4. cbn [orb].
    unfold Legacy.bind, Legacy.pool_query, Legacy.lift, Legacy.ret.
    rewrite Hs, He. cbn [List.length Nat.eqb orb app].
    rewrite Hr. cbn [List.length Nat.eqb].
    unfold Legacy.last_agg_cost. rewrite Hl, Hsegs. reflexivity.
  - reflexivity.
  - reflexivity.
  - exact Hseq.
  - exact Hacc.
  - exact Hedge.
  - cbn [Legacy.segments Legacy.totalCost].
    assert (Hlen : List.length segs = List.length (r :: rs))
      by (rewrite <- (length_map (fun s => Legacy.sequence s)), Hseq, length_map;
          reflexivity).
    rewrite Hlen.
    assert (Hn : nth_error (map (fun s => Legacy.accumulatedCost s) segs)
                   (List.length (r :: rs) - 1)
                 = Some (Legacy.agg_cost lastRow))
      by (rewrite Hacc, nth_error_map, Hl; reflexivity).
    apply nth_error_map_inv in Hn. destruct Hn as (s & Hs' & Es). eauto.
Qed.

(** X14. On [/search] the two lookups run one after the other: when the
    start lookup is rejected the answer is 500 and the end lookup is never
    sent; when the end lookup is rejected the answer is 500 after the two
    lookups; when both answer and one of them has no row the answer is 404
    after the two lookups.  In none of these cases is a route query sent. *)
Theorem legacy_lookups_run_in_sequence
    (pathname : string) (b : Legacy.JsonBody (num:=num)) :
  Legacy.endsWith pathname "/search" = true ->
  falsy (Legacy.startLat b) = false -> falsy (Legacy.startLon b) = false ->
  falsy (Legacy.endLat b) = false -> falsy (Legacy.endLon b) = false ->
  (Legacy.vertex_rows db (Legacy.startLon b) (Legacy.startLat b) = Throw ->
   Legacy.POST JSON_parse db pathname b
   = ({| Legacy.status := 500;
         Legacy.body := Legacy.ErrorBody "ルート検索中にエラーが発生しました" |},
      [Legacy.startNodeQuery (Legacy.startLon b) (Legacy.startLat b)]))
  /\ (forall srows,
        Legacy.vertex_rows db (Legacy.startLon b) (Legacy.startLat b) = Ok srows ->
        Legacy.vertex_rows db (Legacy.endLon b) (Legacy.endLat b) = Throw ->
        Legacy.POST JSON_parse db pathname b
        = ({| Legacy.status := 500;
              Legacy.body := Legacy.ErrorBody "ルート検索中にエラーが発生しました" |},
           [ Legacy.startNodeQuery (Legacy.startLon b) (Legacy.startLat b);
             Legacy.endNodeQuery (Legacy.endLon b) (Legacy.endLat b) ]))
  /\ (forall srows erows,
        Legacy.vertex_rows db (Legacy.startLon b) (Legacy.startLat b) = Ok srows ->
        Legacy.vertex_rows db (Legacy.endLon b) (Legacy.endLat b) = Ok erows ->
        srows = [] \/ erows = [] ->
        Legacy.POST JSON_parse db pathname b
        = ({| Legacy.status := 404;
              Legacy.body :=
                Legacy.ErrorBody "指定された座標の近くにノードが見つかりません" |},
           [ Legacy.startNodeQuery (Legacy.startLon b) (Legacy.startLat b);
             Legacy.endNodeQuery (Legacy.endLon b) (Legacy.endLat b) ])).
Proof.
  intros Hp H1 H2 H3 H4.
  unfold Legacy.POST. rewrite Hp. unfold Legacy.catching, Legacy.search_try.
  rewrite H1, H2, H3, H4. cbn [orb].
  unfold Legacy.bind, Legacy.pool_query, Legacy.lift, Legacy.ret.
  split; [|split].
  - intros ->. reflexivity.
  - intros srows -> ->. reflexivity.
  - intros srows erows -> -> [-> | ->].
    + reflexivity.
    + destruct srows; reflexivity.
Qed.

(** X15. On [/search], once both lookups have answered with a vertex,
    the route query between the two first vertices is sent, and when it
    does not give a usable path the answer is an error after exactly these
    three queries: 404 when the path has no row, 500 when the store
    rejects the query, and 500 when a row of the path has a geometry text
    that does not parse. *)
Theorem legacy_route_query_failures
    (pathname : string) (b : Legacy.JsonBody (num:=num))
    (s0 e0 : VertexRow (num:=num)) (ss es : list (VertexRow (num:=num))) :
  Legacy.endsWith pathname "/search" = true ->
  falsy (Legacy.startLat b) = false -> falsy (Legacy.startLon b) = false ->
  falsy (Legacy.endLat b) = false -> falsy (Legacy.endLon b) = false ->
  Legacy.vertex_rows db (Legacy.startLon b) (Legacy.startLat b) = Ok (s0 :: ss) ->
  Legacy.vertex_rows db (Legacy.endLon b) (Legacy.endLat b) = Ok (e0 :: es) ->
  let sent :=
    [ Legacy.startNodeQuery (Legacy.startLon b) (Legacy.startLat b);
      Legacy.endNodeQuery (Legacy.endLon b) (Legacy.endLat b);
      Legacy.routeQuery (vertex_id s0) (vertex_id e0) ] in
  let failed :=
    {| Legacy.status := 500;
       Legacy.body :=
         Legacy.ErrorBody (Json:=Json) "ルート検索中にエラーが発生しました" |} in
  (Legacy.route_rows db (vertex_id s0) (vertex_id e0) = Ok [] ->
   Legacy.POST JSON_parse db pathname b
   = ({| Legacy.status := 404;
         Legacy.body := Legacy.ErrorBody "ルートが見つかりません" |}, sent))
  /\ (Legacy.route_rows db (vertex_id s0) (vertex_id e0) = Throw ->
      Legacy.POST JSON_parse db pathname b = (failed, sent))
  /\ (forall rws row,
        Legacy.route_rows db (vertex_id s0) (vertex_id e0) = Ok rws ->
        In row rws ->
        parse_geom JSON_parse (Legacy.geom row) = Throw ->
        Legacy.POST JSON_parse db pathname b = (failed, sent)).
Proof.
  intros Hp H1 H2 H3 H4 Hs He sent failed. subst sent failed.
  unfold Legacy.POST. rewrite Hp. unfold Legacy.catching, Legacy.search_try.
  rewrite H1, H2, H3, H4. cbn [orb].
  unfold Legacy.bind, Legacy.pool_query, Legacy.lift, Legacy.ret.
  rewrite Hs, He. cbn [List.length Nat.eqb orb app].
  split; [|split].
  - intros ->. reflexivity.
  - intros ->. reflexivity.
  - intros rws row -> Hin Hg.
    destruct rws as [|r rs]; [destruct Hin|].
    cbn [List.length Nat.eqb]. unfold Legacy.last_agg_cost.
    destruct (nth_error (r :: rs) (List.length (r :: rs) - 1)) eqn:Hl.
    2:{ apply nth_error_None in Hl. simpl in Hl. lia. }
    destruct (Legacy.map_rows JSON_parse (r :: rs)) as [segs|] eqn:Hm;
      [|reflexivity].
    exfalso. apply legacy_map_rows_spec in Hm.
    clear - Hm Hin Hg. revert Hin.
    induction Hm as [|x y xs ys Hx _ IH]; intros Hin; [destruct Hin|].
    destruct Hin as [<-|Hin]; [|exact (IH Hin)].
    unfold Legacy.mkSegment in Hx. rewrite Hg in Hx. discriminate Hx.
Qed.

End LegacyFacts.

Lemma legacy_search_success_witness :
  exists route,
    fst (Legacy.POST sample_parse legacy_db "/api/routing/search" legacy_body)
    = {| Legacy.status := 200; Legacy.body := Legacy.RouteBody route |}
    /\ map (fun s => Legacy.sequence s) (Legacy.segments route) = [1; 2]
    /\ Legacy.totalCost route = len_152_3.
Proof.
  edestruct (@legacy_search_success float _ string sample_parse legacy_db
               "/api/routing/search" legacy_body)
    as (route & HP & _ & _ & Hseq & Hacc & _ & (s & Hs & Ht)).
  - reflexivity.
  - reflexivity.
  - reflexivity.
  - reflexivity.
  - reflexivity.
  - reflexivity.
  - reflexivity.
  - reflexivity.
  - repeat constructor; discriminate.
  - exists route. rewrite HP. split; [reflexivity|]. split; [exact Hseq|].
    rewrite <- Ht.
    assert (Hlen : List.length (Legacy.segments route) = 2%nat)
      by (rewrite <- (length_map (fun s => Legacy.sequence s)), Hseq; reflexivity).
    rewrite Hlen in Hs. cbn [Nat.sub] in Hs.
    assert (Hn : nth_error (map (fun s => Legacy.accumulatedCost s)
                              (Legacy.segments route)) 1
                 = Some (Legacy.accumulatedCost s))
      by (rewrite nth_error_map, Hs; reflexivity).
    rewrite Hacc in Hn. simpl in Hn. injection Hn as <-. reflexivity.
Defined.

Lemma legacy_lookups_run_in_sequence_witness :
  Legacy.POST sample_parse legacy_db_down "/api/routing/search" legacy_body
  = ({| Legacy.status := 500;
        Legacy.body := Legacy.ErrorBody "ルート検索中にエラーが発生しました" |},
     [Legacy.startNodeQuery (Some 133.5%float) (Some 33.5%float)]).
Proof.
  refine (proj1 (@legacy_lookups_run_in_sequence float _ string sample_parse
                   legacy_db_down "/api/routing/search" legacy_body
                   _ _ _ _ _) _); reflexivity.
Defined.

Lemma legacy_route_query_failures_witness :
  Legacy.POST sample_parse legacy_db_route_down "/api/routing/search" legacy_body
  = ({| Legacy.status := 500;
        Legacy.body := Legacy.ErrorBody "ルート検索中にエラーが発生しました" |},
     [ Legacy.startNodeQuery (Some 133.5%float) (Some 33.5%float);
       Legacy.endNodeQuery (Some 134.25%float) (Some 34.25%float);
       Legacy.routeQuery 10 30 ]).
Proof.
  refine (proj1 (proj2 (@legacy_route_query_failures float _ string sample_parse
                          legacy_db_route_down "/api/routing/search" legacy_body
                          {| vertex_id := 10; vertex_distance := 1%float |}
                          {| vertex_id := 30; vertex_distance := 3%float |}
                          [] [] _ _ _ _ _ _ _)) _); reflexivity.
Defined.


(** * The page *)

Section PageFacts.

Context {num : Type} {JN : JsNumber num}.
Variable Json : Type.

Local Abbreviation State := (Page.State (num:=num) Json).

Lemma consistent_init : consistent (Page.init Json).
Proof.
  unfold consistent, nothing_placed. simpl.
  repeat split; try reflexivity.
  - right. repeat split; reflexivity.
  - constructor.
Qed.

Lemma remove_at_from_incl {A} (xs : list A) : forall i index x,
  In x (Page.remove_at_from i index xs) -> In x xs.
Proof.
  induction xs as [|a xs IH]; intros i index x H; simpl in *; [assumption|].
  destruct (i =? index)%nat.
  - right. eapply IH. exact H.
  - destruct H as [H|H]; [left; assumption|right; eapply IH; exact H].
Qed.

Lemma consistent_step (s : State) e :
  consistent s -> consistent (Page.step s e).
Proof.
  intros C. unfold Page.step.
  destruct (Page.enabled s e) eqn:En; [|exact C].
  destruct s as [sp ep wps avs iss isw isa isr rr srt se rad am vw vh sao svt].
  unfold consistent, nothing_placed in *.
  cbn [Page.isSelectingStart Page.isSelectingWaypoint Page.isSelectingAvoidArea
       Page.startPoint Page.endPoint Page.waypoints Page.avoidAreas] in C.
  destruct C as (C1 & C2 & C3 & C4).
  destruct e; cbn [Page.handle].
  - (* a click on the map *)
    unfold Page.handleMapClick. cbn -[consistent].
    destruct isa.
    { cbn. repeat split; try assumption.
      destruct C3 as [C3|(_ & _ & C3)]; [left; exact C3|discriminate]. }
    destruct isw.
    { cbn. repeat split; try assumption.
      - destruct C3 as [C3|(_ & C3 & _)]; [left; exact C3|discriminate].
      - apply Forall_app. split; [assumption|]. repeat constructor. }
    destruct sp as [p|].
    + destruct ep as [q|]; cbn; repeat split; try assumption;
        left; reflexivity.
    + cbn. repeat split; try assumption. left. reflexivity.
  - (* clear *)
    unfold Page.clearPoints. cbn. repeat split.
    + right. repeat split.
    + constructor.
  - (* remove a waypoint *)
    unfold Page.removeWaypoint. cbn. repeat split; try assumption.
    + destruct C3 as [C3|((_ & _ & C3 & _) & _)]; [left; exact C3|].
      subst wps. simpl in En. discriminate.
    + rewrite Forall_forall in *. intros x Hx. apply C4.
      eapply remove_at_from_incl. exact Hx.
  - (* remove an avoid zone *)
    unfold Page.removeAvoidArea. cbn. repeat split; try assumption.
    destruct C3 as [C3|((_ & _ & _ & C3) & _)]; [left; exact C3|].
    subst avs. simpl in En. discriminate.
  - (* vehicle type *)
    unfold Page.selectVehicleType.
    destruct (find _ _); cbn; repeat split; assumption.
  - unfold Page.clearVehicleSelection. cbn. repeat split; assumption.
  - (* waypoint mode *)
    cbn. cbn in En. destruct b.
    + apply andb_prop in En. destruct En as [En Ha].
      apply andb_prop in En. destruct En as [Hs Hw].
      repeat split; try assumption.
      * destruct isa; [discriminate|reflexivity].
      * left. exact Hs.
    + apply andb_prop in En. destruct En as [Hs Hw].
      repeat split; try assumption. left. exact Hs.
  - (* avoid mode *)
    cbn. cbn in En. destruct b.
    + apply andb_prop in En. destruct En as [En Hw].
      apply andb_prop in En. destruct En as [Hs Ha].
      repeat split; try assumption.
      * destruct isw; [discriminate|reflexivity].
      * left. exact Hs.
    + apply andb_prop in En. destruct En as [Hs Ha].
      repeat split; try assumption.
      * apply andb_false_r.
      * left. exact Hs.
  - (* search *)
    unfold Page.searchRoute_start.
    destruct (Page.search_request _); cbn; repeat split; assumption.
  - unfold Page.searchRoute_resolved. cbn. repeat split; assumption.
  - unfold Page.searchRoute_rejected. cbn. repeat split; assumption.
  - cbn. repeat split; assumption.
  - cbn. repeat split; assumption.
  - cbn. repeat split; assumption.
  - cbn. repeat split; assumption.
  - cbn. repeat split; assumption.
  - cbn. repeat split; assumption.
Qed.

Lemma consistent_run es : forall s : State,
  consistent s -> consistent (Page.run s es).
Proof.
  induction es as [|e es IH]; intros s C; [exact C|].
  apply IH. apply consistent_step. exact C.
Qed.

(** X16. Whatever the user does from the freshly loaded page, the two
    selection modes are never on together, nothing is on the map and no
    mode is on without a start point, every waypoint carries the type
    waypoint, the flag isSelectingStart never leaves true, and the button
    that clears the map is offered as soon as anything is placed, avoid
    zones included. *)
Theorem page_stays_consistent (es : list (Page.Event (num:=num) Json)) :
  let s := Page.run (Page.init Json) es in
  consistent s
  /\ (nothing_placed s \/ Page.enabled s (Page.ClearPoints Json) = true).
Proof.
  intros s.
  assert (C : consistent s) by (apply consistent_run, consistent_init).
  split; [exact C|].
  destruct C as (_ & _ & [C|(C & _)] & _).
  - right. cbn. rewrite C. reflexivity.
  - left. exact C.
Qed.

Lemma remove_at_from_past {A} (xs : list A) : forall i index,
  (index < i)%nat -> Page.remove_at_from i index xs = xs.
Proof.
  induction xs as [|a xs IH]; intros i index Hi; simpl; [reflexivity|].
  destruct (Nat.eqb_spec i index) as [->|_]; [lia|].
  f_equal. apply IH. lia.
Qed.

Lemma remove_at_from_split {A} (xs : list A) : forall i index,
  (i <= index)%nat ->
  Page.remove_at_from i index xs
  = firstn (index - i) xs ++ skipn (S (index - i)) xs.
Proof.
  induction xs as [|a xs IH]; intros i index Hi; simpl.
  - rewrite firstn_nil. reflexivity.
  - destruct (Nat.eqb_spec i index) as [->|Hne].
    + rewrite Nat.sub_diag. simpl. apply remove_at_from_past. lia.
    + replace (index - i)%nat with (S (index - S i)) by lia.
      simpl. f_equal. apply IH. lia.
Qed.

(** X17. Removing the waypoint, or the avoid zone, at an index leaves the
    elements before it and the elements after it, in their order (so
    nothing changes when the index is past the end); the start and end
    points are kept and the shown result and error are dropped. *)
Theorem remove_takes_out_the_indexed (s : State) (index : nat) :
  let w := Page.removeWaypoint s index in
  let a := Page.removeAvoidArea s index in
  Page.waypoints w
  = firstn index (Page.waypoints s) ++ skipn (S index) (Page.waypoints s)
  /\ Page.avoidAreas a
     = firstn index (Page.avoidAreas s) ++ skipn (S index) (Page.avoidAreas s)
  /\ Page.startPoint w = Page.startPoint s
  /\ Page.endPoint w = Page.endPoint s
  /\ Page.avoidAreas w = Page.avoidAreas s
  /\ Page.startPoint a = Page.startPoint s
  /\ Page.endPoint a = Page.endPoint s
  /\ Page.waypoints a = Page.waypoints s
  /\ Page.routeResult w = None /\ Page.searchError w = None
  /\ Page.routeResult a = None /\ Page.searchError a = None.
Proof.
  assert (R : forall A (xs : list A),
            Page.remove_at index xs = firstn index xs ++ skipn (S index) xs).
  { intros A xs. unfold Page.remove_at.
    rewrite remove_at_from_split by lia. rewrite Nat.sub_0_r. reflexivity. }
  intros w a. subst w a. cbn.
  split; [apply R|]. split; [apply R|].
  repeat split.
Qed.

Lemma mapi_from_map {A B C} (g : A -> B) (f : B -> nat -> C) xs : forall idx,
  mapi_from f idx (map g xs) = mapi_from (fun x i => f (g x) i) idx xs.
Proof.
  induction xs as [|x xs IH]; intros idx; simpl; [reflexivity|].
  rewrite IH. reflexivity.
Qed.

Section PageAndHandler.

Variable JSON_parse : string -> option Json.
Variable db : Db (num:=num).

(** Only the presence check answers 400. *)
Lemma POST_400 (req : Request (num:=num)) :
  status (fst (POST JSON_parse db req)) = 400%nat
  <-> falsy (startLat req) || falsy (startLon req)
      || falsy (endLat req) || falsy (endLon req) = true.
Proof.
  unfold POST, POST_try.
  destruct (falsy (startLat req) || falsy (startLon req)
            || falsy (endLat req) || falsy (endLon req)).
  { split; reflexivity. }
  split; [|discriminate]. intros H. exfalso. revert H.
  unfold bind at 1. rewrite promise_all_resolve_any.
  destruct (existsb (lookup_throws db) (allPoints req));
    [intros H; cbn in H; lia|].
  destruct (0 <? List.length
                   (filter (fun n => negb (found n))
                      (map (node_result db) (allPoints req))))%nat;
    [intros H; cbn in H; lia|].
  unfold search_routes, promise_both, bind, lift, ret. cbn [app].
  destruct (calculateMultiLegRoute db req _ shortest _) as [rs log1].
  destruct (calculateMultiLegRoute db req _ fastest log1) as [rf log2].
  destruct rs as [ls|]; [|destruct rf; intros H; cbn in H; lia].
  destruct rf as [lf|]; [|intros H; cbn in H; lia].
  cbn [rbind].
  destruct (is_null ls && is_null lf); [intros H; cbn in H; lia|].
  destruct (formatMultiLegRoute JSON_parse _ _ ls shortest);
    [|intros H; cbn in H; lia].
  destruct (formatMultiLegRoute JSON_parse _ _ lf fastest);
    intros H; cbn in H; lia.
Qed.

(** X18. With a start and an end point on the page, the search sends a
    request that the handler reads as the start point, the waypoints in
    the order of the page labelled waypoint-0, waypoint-1, ..., and the
    end point, with the page's avoid zones and constraints; the handler
    answers it with status 400 exactly when the latitude or longitude of
    the start or of the end point is 0 (or another falsy number),
    whatever the waypoints are. *)
Theorem page_request_as_the_handler_reads_it (s : State)
    (sp ep : Page.Point (num:=num)) :
  Page.startPoint s = Some sp ->
  Page.endPoint s = Some ep ->
  exists req,
    Page.search_request s = Some req
    /\ allPoints req
       = [{| lat := Some (Page.lat sp); lon := Some (Page.lng sp); type := "start" |}]
         ++ mapi page_waypoint_point (Page.waypoints s)
         ++ [{| lat := Some (Page.lat ep); lon := Some (Page.lng ep); type := "end" |}]
    /\ avoidAreas req = Page.avoidAreas s
    /\ avoidMotorways req = Page.avoidMotorways s
    /\ vehicleWidth req = Page.vehicleWidth s
    /\ vehicleHeight req = Page.vehicleHeight s
    /\ (status (fst (POST JSON_parse db req)) = 400%nat
        <-> ntruthy (Page.lat sp) && ntruthy (Page.lng sp)
            && ntruthy (Page.lat ep) && ntruthy (Page.lng ep) = false).
Proof.
  intros Hs He. unfold Page.search_request. rewrite Hs, He.
  eexists. split; [reflexivity|].
  split.
  { unfold allPoints. cbn [startLat startLon endLat endLon waypoints].
    f_equal. f_equal. unfold mapi. rewrite mapi_from_map. reflexivity. }
  repeat (split; [reflexivity|]).
  rewrite POST_400. cbn [startLat startLon endLat endLon falsy].
  destruct (ntruthy (Page.lat sp)), (ntruthy (Page.lng sp)),
    (ntruthy (Page.lat ep)), (ntruthy (Page.lng ep)); cbn;
    split; intros H; try reflexivity; discriminate.
Qed.

End PageAndHandler.

End PageFacts.

Lemma page_request_as_the_handler_reads_it_witness :
  exists req,
    Page.search_request sample_page = Some req
    /\ status (fst (POST sample_parse sample_db req)) <> 400%nat.
Proof.
  destruct (@page_request_as_the_handler_reads_it float _ string sample_parse
              sample_db sample_page
              {| Page.lat := 33.5%float; Page.lng := 133.5%float;
                 Page.type := "start" |}
              {| Page.lat := 34.25%float; Page.lng := 134.25%float;
                 Page.type := "end" |} eq_refl eq_refl)
    as (req & Hreq & _ & _ & _ & _ & _ & H400).
  exists req. split; [exact Hreq|].
  intros E. apply H400 in E. vm_compute in E. discriminate E.
Defined.

Section VehiclePresets.

Variable Json : Type.

(** X19. In binary64, choosing a vehicle preset on the page and
    searching compiles to a filter that excludes the narrow road classes
    for the preset special only (width 3.0; the widths 2.5 of the other
    large presets are not above 2.5), and excludes tunnels for the presets
    normal, truck-medium, truck-large and special (heights 3.8 and 4.0);
    the presets kei and small add no vehicle restriction. *)
Theorem vehicle_presets_and_road_classes
    (s : Page.State (num:=float) Json) (typeId : string)
    (req : Request (num:=float)) :
  In typeId (map (fun v => Page.id v) (Page.vehicleTypes (num:=float))) ->
  Page.search_request (Page.selectVehicleType s typeId) = Some req ->
  whereClause req
  = (if Page.avoidMotorways s
     then [TagValueNotIn ["motorway"; "motorway_link"]] else [])
    ++ (if String.eqb typeId "special"
        then [TagValueNotIn ["service"; "residential"; "living_street"; "track"]]
        else [])
    ++ (if existsb (String.eqb typeId)
             ["normal"; "truck-medium"; "truck-large"; "special"]
        then [TagValueNotIn ["tunnel"]] else [])
    ++ (if (0 <? List.length (Page.avoidAreas s))%nat
        then [AvoidConditions (map avoid_buffer (Page.avoidAreas s))] else []).
Proof.
  intros Hin Hreq.
  cbn [map Page.vehicleTypes Page.id In] in Hin.
  unfold Page.search_request in Hreq.
  destruct Hin as [<-|[<-|[<-|[<-|[<-|[<-|[]]]]]]];
    cbn [Page.selectVehicleType Page.vehicleTypes find Page.id String.eqb
         Ascii.eqb Bool.eqb Page.startPoint Page.endPoint Page.waypoints
         Page.avoidMotorways Page.vehicleWidth Page.vehicleHeight
         Page.avoidAreas Page.width Page.height] in Hreq;
    destruct (Page.startPoint s); try discriminate;
    destruct (Page.endPoint s); try discriminate;
    injection Hreq as <-;
    unfold whereClause, buildWhereClause;
    cbn [avoidMotorways vehicleWidth vehicleHeight avoidAreas app];
    repeat match goal with
      | |- context [given_and_gt (Some ?v) ?c] =>
          let b := eval vm_compute in (given_and_gt (Some v) c) in
          change (given_and_gt (Some v) c) with b
      end;
    reflexivity.
Qed.

End VehiclePresets.

Lemma vehicle_presets_and_road_classes_witness :
  exists req,
    Page.search_request (Page.selectVehicleType sample_page "normal") = Some req
    /\ whereClause req = [TagValueNotIn ["tunnel"]].
Proof.
  eexists. split; [reflexivity|].
  refine (eq_trans (@vehicle_presets_and_road_classes string sample_page
                      "normal" _ _ eq_refl) _).
  - cbn. tauto.
  - reflexivity.
Defined.

(** * The duration shown *)

Section DurationFacts.

Lemma Qfloor_bounds (x : Q) (z : Z) :
  Qfloor x = z <-> (inject_Z z <= x /\ x < inject_Z z + 1)%Q.
Proof.
  split.
  - intros <-. split; [apply Qfloor_le|].
    pose proof (Qlt_floor x) as H. rewrite inject_Z_plus in H. exact H.
  - intros [Hl Hu].
    pose proof (Qfloor_le x) as Fl. pose proof (Qlt_floor x) as Fu.
    rewrite inject_Z_plus in Fu. change (inject_Z 1) with 1%Q in Fu.
    assert (A : (inject_Z (Qfloor x) < inject_Z z + inject_Z 1)%Q)
      by (change (inject_Z 1) with 1%Q; lra).
    assert (B : (inject_Z z < inject_Z (Qfloor x) + inject_Z 1)%Q)
      by (change (inject_Z 1) with 1%Q; lra).
    rewrite <- inject_Z_plus in A, B. rewrite <- Zlt_Qlt in A, B. lia.
Qed.

Lemma past_the_hour_bounds (q : Q) :
  (0 <= q)%Q ->
  Qtrunc (q / 60) = Qfloor (q / 60)
  /\ (0 <= past_the_hour q)%Q /\ (past_the_hour q < 60)%Q
  /\ 0 <= Qfloor (q / 60).
Proof.
  intros Hq. unfold past_the_hour, Qtrunc.
  change (q / 60)%Q with (q * (1 # 60))%Q.
  pose proof (Qfloor_le (q * (1 # 60))) as Fl.
  pose proof (Qlt_floor (q * (1 # 60))) as Fu.
  rewrite inject_Z_plus in Fu.
  assert (P : (0 <= q * (1 # 60))%Q) by lra.
  apply Qle_bool_iff in P. rewrite P.
  change (inject_Z 1) with 1%Q in Fu.
  apply Qle_bool_iff in P.
  split; [reflexivity|]. split; [lra|]. split; [lra|].
  assert (A : (inject_Z (-1) < inject_Z (Qfloor (q * (1 # 60))))%Q).
  { change (inject_Z (-1)) with (-1)%Q. lra. }
  rewrite <- Zlt_Qlt in A. lia.
Qed.

Lemma duration_mins_value {num} {JN : JsNumber num} {JM : JsMath num}
    (minutes : num) (q : Q) :
  nvalue (nlit 60) = VFin 60 ->
  nvalue minutes = VFin q ->
  (0 <= q)%Q ->
  Page.duration_mins minutes
  = VFin (inject_Z (Qfloor (past_the_hour q + (1 # 2)))).
Proof.
  intros H60 Hq Hpos. unfold Page.duration_mins.
  rewrite H60, Hq. cbn [js_rem Math_round].
  change (Qeq_bool 60 0) with false. cbn iota.
  destruct (past_the_hour_bounds Hpos) as (-> & _). reflexivity.
Qed.

(** X20. For a finite number of minutes that is not negative, the
    minutes part of the shown duration is an integer from 0 to 60, and it
    is 60 exactly when the minutes past the last full hour are 59.5 or
    more: the text then reads 60分 after the hours instead of rolling over
    to the next hour. *)
Theorem duration_minutes_reach_sixty {num} {JN : JsNumber num}
    {JM : JsMath num} (String_of_Value : Value -> string)
    (minutes : num) (q : Q) :
  nvalue (nlit 60) = VFin 60 ->
  nvalue minutes = VFin q ->
  (0 <= q)%Q ->
  exists m : Z,
    Page.duration_mins minutes = VFin (inject_Z m)
    /\ 0 <= m <= 60
    /\ (m = 60 <-> (119 # 2 <= past_the_hour q)%Q)
    /\ Page.formatDurationFromMinutes String_of_Value minutes
       = (if gt_zero (Page.duration_hours minutes)
          then String_of_Value (Page.duration_hours minutes) ++ "時間"
               ++ String_of_Value (VFin (inject_Z m)) ++ "分"
          else String_of_Value (VFin (inject_Z m)) ++ "分")%string.
Proof.
  intros H60 Hq Hpos.
  exists (Qfloor (past_the_hour q + (1 # 2))).
  pose proof (duration_mins_value minutes H60 Hq Hpos) as Hm.
  destruct (past_the_hour_bounds Hpos) as (_ & Hl & Hu & _).
  set (r := past_the_hour q) in *.
  pose proof (Qfloor_le (r + (1 # 2))) as Fl.
  pose proof (Qlt_floor (r + (1 # 2))) as Fu.
  rewrite inject_Z_plus in Fu. change (inject_Z 1) with 1%Q in Fu.
  split; [exact Hm|]. split; [|split].
  - split.
    + assert (A : (inject_Z (-1) < inject_Z (Qfloor (r + (1 # 2))))%Q)
        by (change (inject_Z (-1)) with (-1)%Q; lra).
      rewrite <- Zlt_Qlt in A. lia.
    + assert (A : (inject_Z (Qfloor (r + (1 # 2))) < inject_Z 61)%Q)
        by (change (inject_Z 61) with 61%Q; lra).
      rewrite <- Zlt_Qlt in A. lia.
  - rewrite Qfloor_bounds. change (inject_Z 60) with 60%Q. split.
    + intros [A _]. lra.
    + intros A. split; lra.
  - unfold Page.formatDurationFromMinutes. rewrite Hm. reflexivity.
Qed.

End DurationFacts.

Lemma duration_minutes_reach_sixty_witness :
  Page.duration_mins 119.5%float = VFin 60.
Proof.
  destruct (@duration_minutes_reach_sixty float _ _ (fun _ => EmptyString)
              119.5%float (239 # 2)) as (m & Hm & _ & Hiff & _).
  - vm_compute. reflexivity.
  - vm_compute. reflexivity.
  - discriminate.
  - rewrite Hm. replace m with 60; [reflexivity|].
    symmetry. apply Hiff. vm_compute. discriminate.
Defined.
